(** * ArcExporter: the sidebar-to-bookmarks pipeline of ArcExporter.py

    A shallow embedding of [get_item_type], [escape_html_text],
    [get_folder_with_direct_tabs], [get_all_folders_flat],
    [export_bookmarks] and the export part of [main] up to the write of
    the output file, over a model of the Python values that [json.load]
    produces.

    Conventions of the model.
    - A Python [str] is its UTF-8 encoding (a [string] of bytes).  The code
      only tests strings for equality, for emptiness, for a substring, and
      rewrites the five ASCII characters that [html.escape] touches, all of
      which commute with the encoding.
    - JSON numbers are the integers.
    - A Python exception is the [Raise] outcome of the error monad.
    - The interpreter's recursion limit is the [fuel] argument of
      [get_all_folders_flat]: the number of nested calls still allowed.
    - [str(x)] on a list or a dict is Python's [repr], taken as the
      parameter [py_repr].
    - [datetime.now().strftime(...)] is the parameter [now].
    - The write of the output file (lines 255-257) is not modelled: it can
      fail on the storage, and on a text that has no UTF-8 encoding (a lone
      surrogate in a title); [main_export] stops where [main] opens the
      file. *)

From Stdlib Require Import ZArith List String Ascii Bool Lia Relations.
From Stdlib Require Import DecimalString ListDec.
Import ListNotations.

Set Warnings "-register-all".

Local Open Scope string_scope.
Local Open Scope list_scope.

(** ** Python values and exceptions *)

Inductive json : Type :=
| JNull
| JBool (b : bool)
| JInt (z : Z)
| JStr (s : string)
| JArr (l : list json)
| JObj (m : list (string * json)).

Inductive exn : Type :=
| AttributeError
| KeyError
| IndexError
| TypeError
| RecursionError.

Inductive outcome (A : Type) : Type :=
| Ok (a : A)
| Raise (e : exn).

Arguments Ok {A} a.
Arguments Raise {A} e.

Definition bind {A B : Type} (c : outcome A) (k : A -> outcome B) : outcome B :=
  match c with
  | Ok a => k a
  | Raise e => Raise e
  end.

Notation "x <- c ;; k" := (bind c (fun x => k))
  (at level 61, c at next level, right associativity).

(** A [for] loop whose body may raise: the state is threaded through the
    elements in order and the first exception ends the loop. *)
Fixpoint for_each {A S : Type} (body : S -> A -> outcome S) (l : list A) (s : S)
  : outcome S :=
  match l with
  | [] => Ok s
  | x :: l' => s' <- body s x ;; for_each body l' s'
  end.

Definition exn_eq_dec (a b : exn) : {a = b} + {a <> b}.
Proof. decide equality. Defined.

(** *** Dictionaries with string keys (parsed JSON objects) *)

Fixpoint obj_lookup (k : string) (m : list (string * json)) : option json :=
  match m with
  | [] => None
  | (k', v) :: m' => if String.eqb k k' then Some v else obj_lookup k m'
  end.

Definition obj_mem (k : string) (m : list (string * json)) : bool :=
  match obj_lookup k m with Some _ => true | None => false end.

(** *** Truthiness, [isinstance(_, dict)], [==] *)

Definition py_bool (v : json) : bool :=
  match v with
  | JNull => false
  | JBool b => b
  | JInt z => negb (z =? 0)%Z
  | JStr s => negb (String.eqb s EmptyString)
  | JArr l => match l with [] => false | _ => true end
  | JObj m => match m with [] => false | _ => true end
  end.

Definition is_dict (v : json) : bool :=
  match v with JObj _ => true | _ => false end.

Definition Z_of_bool (b : bool) : Z := if b then 1%Z else 0%Z.

(** Python's [==]: [bool] is a subclass of [int]; lists compare
    element-wise; dicts compare as mappings, whatever the order. *)
Fixpoint py_eq (a b : json) {struct a} : bool :=
  match a, b with
  | JNull, JNull => true
  | JBool x, JBool y => Bool.eqb x y
  | JBool x, JInt z => (Z_of_bool x =? z)%Z
  | JInt z, JBool x => (z =? Z_of_bool x)%Z
  | JInt x, JInt y => (x =? y)%Z
  | JStr x, JStr y => String.eqb x y
  | JArr xs, JArr ys =>
      (fix go (xs ys : list json) {struct xs} : bool :=
         match xs, ys with
         | [], [] => true
         | x :: xs', y :: ys' => py_eq x y && go xs' ys'
         | _, _ => false
         end) xs ys
  | JObj m, JObj n =>
      Nat.eqb (List.length m) (List.length n) &&
      (fix go (m : list (string * json)) {struct m} : bool :=
         match m with
         | [] => true
         | (k, v) :: m' =>
             match obj_lookup k n with
             | Some w => py_eq v w
             | None => false
             end && go m'
         end) m
  | _, _ => false
  end.

(** *** Strings: characters, substrings *)

(** A byte [10xxxxxx] continues the character begun before it. *)
Definition is_continuation (c : ascii) : bool :=
  match c with
  | Ascii _ _ _ _ _ _ false true => true
  | _ => false
  end.

(** The characters of a [str], each as a one-character [str]. *)
Fixpoint py_chars_from (cur : string) (s : string) : list string :=
  match s with
  | EmptyString => match cur with EmptyString => [] | _ => [cur] end
  | String c s' =>
      if is_continuation c then py_chars_from (cur ++ String c EmptyString) s'
      else match cur with
           | EmptyString => py_chars_from (String c EmptyString) s'
           | _ => cur :: py_chars_from (String c EmptyString) s'
           end
  end.

Definition py_chars (s : string) : list string := py_chars_from EmptyString s.

Fixpoint py_substring (x s : string) : bool :=
  if String.prefix x s then true
  else match s with
       | EmptyString => false
       | String _ s' => py_substring x s'
       end.

(** *** The operations the exporter applies to parsed values *)

(** [v.get(k, dflt)]: only a dict has [get]. *)
Definition py_get (v : json) (k : string) (dflt : json) : outcome json :=
  match v with
  | JObj m => Ok (match obj_lookup k m with Some x => x | None => dflt end)
  | _ => Raise AttributeError
  end.

(** [k in v] for a [str] [k]. *)
Definition py_in (k : string) (v : json) : outcome bool :=
  match v with
  | JObj m => Ok (obj_mem k m)
  | JArr l => Ok (existsb (fun x => py_eq x (JStr k)) l)
  | JStr s => Ok (py_substring k s)
  | _ => Raise TypeError
  end.

(** [v[k]] for a [str] [k]. *)
Definition py_getitem (v : json) (k : string) : outcome json :=
  match v with
  | JObj m => match obj_lookup k m with Some x => Ok x | None => Raise KeyError end
  | _ => Raise TypeError
  end.

(** The elements a [for] loop sees. *)
Definition py_iter (v : json) : outcome (list json) :=
  match v with
  | JArr l => Ok l
  | JStr s => Ok (map JStr (py_chars s))
  | JObj m => Ok (map (fun kv => JStr (fst kv)) m)
  | _ => Raise TypeError
  end.

(** [v[i]] for an [int] [i >= 0]. *)
Definition py_getitem_nat (v : json) (i : nat) : outcome json :=
  match v with
  | JArr l => match nth_error l i with Some x => Ok x | None => Raise IndexError end
  | JStr s => match nth_error (py_chars s) i with
              | Some c => Ok (JStr c)
              | None => Raise IndexError
              end
  | JObj _ => Raise KeyError
  | _ => Raise TypeError
  end.

(** [v[-1]]. *)
Definition py_last (v : json) : outcome json :=
  match v with
  | JArr l => match rev l with x :: _ => Ok x | [] => Raise IndexError end
  | JStr s => match rev (py_chars s) with
              | c :: _ => Ok (JStr c)
              | [] => Raise IndexError
              end
  | JObj _ => Raise KeyError
  | _ => Raise TypeError
  end.

(** [len(v)]. *)
Definition py_len (v : json) : outcome nat :=
  match v with
  | JArr l => Ok (List.length l)
  | JStr s => Ok (List.length (py_chars s))
  | JObj m => Ok (List.length m)
  | _ => Raise TypeError
  end.

(** *** Dictionaries keyed by parsed values ([items_by_id])

    A key is a hashable value up to [==]: [True] and [1] are one key.
    The entries are kept in insertion order, which is the order in which
    [dict.items()] yields them; assigning to a key already present
    replaces its value and keeps its place. *)

Inductive key : Type :=
| KNone
| KInt (z : Z)
| KStr (s : string).

Definition key_eq_dec (a b : key) : {a = b} + {a <> b}.
Proof. decide equality; [apply Z.eq_dec | apply string_dec]. Defined.

Definition key_eqb (a b : key) : bool :=
  if key_eq_dec a b then true else false.

(** [hash(v)]: lists and dicts are unhashable. *)
Definition py_hash (v : json) : outcome key :=
  match v with
  | JNull => Ok KNone
  | JBool b => Ok (KInt (Z_of_bool b))
  | JInt z => Ok (KInt z)
  | JStr s => Ok (KStr s)
  | JArr _ | JObj _ => Raise TypeError
  end.

(** The value a key stands for when it is handed back by [dict.items()]. *)
Definition json_of_key (k : key) : json :=
  match k with
  | KNone => JNull
  | KInt z => JInt z
  | KStr s => JStr s
  end.

Definition pydict : Type := list (key * json).

Fixpoint dict_lookup (k : key) (d : pydict) : option json :=
  match d with
  | [] => None
  | (k', v) :: d' => if key_eqb k k' then Some v else dict_lookup k d'
  end.

Fixpoint dict_set (k : key) (v : json) (d : pydict) : pydict :=
  match d with
  | [] => [(k, v)]
  | (k', v') :: d' =>
      if key_eqb k k' then (k', v) :: d' else (k', v') :: dict_set k v d'
  end.

Definition dict_keys (d : pydict) : list key := map fst d.

(** *** [str] and [html.escape] *)

Definition dquote : ascii := ascii_of_nat 34.

Definition escape_char (c : ascii) : string :=
  if Ascii.eqb c "&" then "&amp;"
  else if Ascii.eqb c "<" then "&lt;"
  else if Ascii.eqb c ">" then "&gt;"
  else if Ascii.eqb c dquote then "&quot;"
  else if Ascii.eqb c "'" then "&#x27;"
  else String c EmptyString.

(** [html.escape(s)] with its default [quote=True].  The library chains
    five [str.replace] calls, ampersand first; no replacement text contains
    a character that a later call rewrites, so the chain is this
    character-wise map. *)
Fixpoint html_escape (s : string) : string :=
  match s with
  | EmptyString => EmptyString
  | String c s' => escape_char c ++ html_escape s'
  end.

Definition str_of_Z (z : Z) : string := NilZero.string_of_int (Z.to_int z).

Section Exporter.

(** [repr] of a list or a dict. *)
Variable py_repr : json -> string.

Definition py_str (v : json) : string :=
  match v with
  | JNull => "None"
  | JBool true => "True"
  | JBool false => "False"
  | JInt z => str_of_Z z
  | JStr s => s
  | JArr _ | JObj _ => py_repr v
  end.

(** ** The source functions *)

Inductive item_type : Type := Folder | Tab.

(** [get_item_type]; [None] is Python's [None]. *)
Definition get_item_type (item : json) : outcome (option item_type) :=
  has_data <- py_in "data" item ;;
  if negb has_data then Ok None
  else
    data <- py_getitem item "data" ;;
    is_list <- py_in "list" data ;;
    if is_list then Ok (Some Folder)
    else
      is_tab <- py_in "tab" data ;;
      if is_tab then Ok (Some Tab) else Ok None.

(** [escape_html_text]. *)
Definition escape_html_text (text : json) : string :=
  if py_bool text then html_escape (py_str text) else EmptyString.

Record bookmark : Type := { bm_title : json; bm_url : json }.

Record flat_folder : Type := { ff_title : json; ff_tabs : list bookmark }.

(** [a or b] on values already computed. *)
Definition py_or (a b : json) : json := if py_bool a then a else b.

(** The entry built from an item classified [tab] (lines 77-81 of
    [get_folder_with_direct_tabs], again lines 195-199 of
    [export_bookmarks]): [None] when the URL is falsy. *)
Definition tab_entry (child : json) : outcome (option bookmark) :=
  data <- py_getitem child "data" ;;
  tab_data <- py_getitem data "tab" ;;
  url <- py_get tab_data "savedURL" (JStr EmptyString) ;;
  own <- py_get child "title" JNull ;;
  title <- (if py_bool own then Ok own
            else saved <- py_get tab_data "savedTitle" (JStr EmptyString) ;;
                 Ok (py_or saved (JStr "Untitled"))) ;;
  Ok (if py_bool url then Some {| bm_title := title; bm_url := url |} else None).

(** [item.get('childrenIds', [])], as the sequence a [for] loop walks. *)
Definition children_ids (item : json) : outcome (list json) :=
  cs <- py_get item "childrenIds" (JArr []) ;;
  py_iter cs.

(** One turn of the loop of [get_folder_with_direct_tabs]. *)
Definition direct_tab_step (items_by_id : pydict) (tabs : list bookmark)
    (child_id : json) : outcome (list bookmark) :=
  ck <- py_hash child_id ;;
  match dict_lookup ck items_by_id with
  | None => Ok tabs
  | Some child =>
      cty <- get_item_type child ;;
      match cty with
      | Some Tab =>
          e <- tab_entry child ;;
          Ok (match e with Some b => tabs ++ [b] | None => tabs end)
      | _ => Ok tabs
      end
  end.

(** [get_folder_with_direct_tabs]. *)
Definition get_folder_with_direct_tabs (item_id : json) (items_by_id : pydict)
  : outcome (option flat_folder) :=
  k <- py_hash item_id ;;
  match dict_lookup k items_by_id with
  | None => Ok None
  | Some item =>
      ty <- get_item_type item ;;
      match ty with
      | Some Folder =>
          children <- children_ids item ;;
          tabs <- for_each (direct_tab_step items_by_id) children [] ;;
          t <- py_get item "title" JNull ;;
          Ok (Some {| ff_title := py_or t (JStr "Untitled Folder");
                      ff_tabs := tabs |})
      | _ => Ok None
      end
  end.

(** [if folder and folder['tabs']: collected.append(folder)]. *)
Definition append_if_tabs (folder : option flat_folder)
    (collected : list flat_folder) : list flat_folder :=
  match folder with
  | Some f => match ff_tabs f with [] => collected | _ => collected ++ [f] end
  | None => collected
  end.

(** One turn of the recursion loop of [get_all_folders_flat] (lines
    108-111); [recurse] is the recursive call. *)
Definition subfolder_step
    (recurse : json -> list flat_folder -> outcome (list flat_folder))
    (items_by_id : pydict) (collected : list flat_folder) (child_id : json)
  : outcome (list flat_folder) :=
  ck <- py_hash child_id ;;
  match dict_lookup ck items_by_id with
  | None => Ok collected
  | Some child =>
      cty <- get_item_type child ;;
      match cty with
      | Some Folder => recurse child_id collected
      | _ => Ok collected
      end
  end.

(** [get_all_folders_flat].  [collected] is the list the calls share and
    append to; [None] is the default, a fresh empty list.  [fuel] nested
    calls are allowed; the next one raises [RecursionError]. *)
Fixpoint get_all_folders_flat (fuel : nat) (item_id : json) (items_by_id : pydict)
    (collected : option (list flat_folder)) : outcome (list flat_folder) :=
  match fuel with
  | O => Raise RecursionError
  | S fuel' =>
      let collected := match collected with Some c => c | None => [] end in
      k <- py_hash item_id ;;
      match dict_lookup k items_by_id with
      | None => Ok collected
      | Some item =>
          ty <- get_item_type item ;;
          match ty with
          | Some Folder =>
              folder <- get_folder_with_direct_tabs item_id items_by_id ;;
              children <- children_ids item ;;
              for_each
                (subfolder_step
                   (fun child_id collected =>
                      get_all_folders_flat fuel' child_id items_by_id (Some collected))
                   items_by_id)
                children (append_if_tabs folder collected)
          | _ => Ok collected
          end
      end
  end.

(** The recursion loop body at the recursion limit [fuel]. *)
Definition descend (items_by_id : pydict) (fuel : nat)
  : list flat_folder -> json -> outcome (list flat_folder) :=
  subfolder_step
    (fun child_id collected =>
       get_all_folders_flat fuel child_id items_by_id (Some collected))
    items_by_id.

Record space_info : Type :=
  { sp_id : json; sp_title : json; sp_pinned_container : json }.

(** The inner loop of the space scan (lines 136-138): the value that
    follows the last ["pinned"] marker which has a follower; [JNull]
    (Python's [None]) when there is none. *)
Definition find_pinned (container_ids : json) : outcome json :=
  cids <- py_iter container_ids ;;
  for_each
    (fun pinned ic =>
       let '(i, cid) := ic in
       if py_eq cid (JStr "pinned") && (i + 1 <? List.length cids)%nat
       then py_getitem_nat container_ids (i + 1)
       else Ok pinned)
    (combine (seq 0 (List.length cids)) cids) JNull.

(** One turn of the space scan (lines 129-139). *)
Definition space_step (spaces : list space_info) (space : json)
  : outcome (list space_info) :=
  if is_dict space then
    titled <- py_in "title" space ;;
    if titled then
      id <- py_getitem space "id" ;;
      title <- py_getitem space "title" ;;
      container_ids <- py_get space "containerIDs" (JArr []) ;;
      pinned <- find_pinned container_ids ;;
      Ok (spaces ++ [{| sp_id := id; sp_title := title;
                        sp_pinned_container := pinned |}])
    else Ok spaces
  else Ok spaces.

Definition collect_spaces (last_container : json) : outcome (list space_info) :=
  sp <- py_get last_container "spaces" (JArr []) ;;
  entries <- py_iter sp ;;
  for_each space_step entries [].

(** [range(0, n, 2)]. *)
Definition range_step2 (n : nat) : list nat :=
  map (fun k => 2 * k)%nat (seq 0 (Nat.div2 (S n))).

(** One turn of the index loop (lines 149-152). *)
Definition index_step (items : json) (n : nat) (items_by_id : pydict) (i : nat)
  : outcome pydict :=
  if (i + 1 <? n)%nat then
    item_data <- py_getitem_nat items (i + 1) ;;
    if is_dict item_data then
      has_id <- py_in "id" item_data ;;
      if has_id then
        id <- py_getitem item_data "id" ;;
        k <- py_hash id ;;
        Ok (dict_set k item_data items_by_id)
      else Ok items_by_id
    else Ok items_by_id
  else Ok items_by_id.

(** The index loop (lines 147-152) on the value of [items]. *)
Definition build_items_by_id (items : json) : outcome pydict :=
  n <- py_len items ;;
  for_each (index_step items n) (range_step2 n) [].

(** Lines 172-175: the keys of the items whose [parentID] equals the
    space's pinned container, in index order. *)
Definition top_level_items (items_by_id : pydict) (pinned_container_id : json)
  : outcome (list key) :=
  for_each
    (fun top kv =>
       parent <- py_get (snd kv) "parentID" JNull ;;
       Ok (if py_eq parent pinned_container_id then top ++ [fst kv] else top))
    items_by_id [].

Definition nl : string := String (ascii_of_nat 10) EmptyString.
Definition qt : string := String dquote EmptyString.

Definition header_head : list string :=
  [ "<!DOCTYPE NETSCAPE-Bookmark-file-1>";
    "<!-- Exported from Arc Browser using arc_to_bookmarks.py -->" ].

Definition date_line (now : string) : string :=
  ("<!-- Export date: " ++ now ++ " -->")%string.

Definition header_tail : list string :=
  [ ("<META HTTP-EQUIV=" ++ qt ++ "Content-Type" ++ qt ++ " CONTENT=" ++ qt
      ++ "text/html; charset=UTF-8" ++ qt ++ ">")%string;
    "<TITLE>Arc Bookmarks</TITLE>";
    "<H1>Arc Bookmarks</H1>";
    "<DL><p>" ].

Definition anchor (indent : string) (tab : bookmark) : string :=
  (indent ++ "<DT><A HREF=" ++ qt ++ escape_html_text (bm_url tab) ++ qt ++ ">"
     ++ escape_html_text (bm_title tab) ++ "</A>")%string.

(** The running state of the writer: [html_lines], [total_folders],
    [total_bookmarks]. *)
Record writer : Type :=
  { html_lines : list string; total_folders : nat; total_bookmarks : nat }.

Definition emit (line : string) (w : writer) : writer :=
  {| html_lines := html_lines w ++ [line];
     total_folders := total_folders w;
     total_bookmarks := total_bookmarks w |}.

Definition count_bookmark (w : writer) : writer :=
  {| html_lines := html_lines w;
     total_folders := total_folders w;
     total_bookmarks := S (total_bookmarks w) |}.

Definition count_folder (w : writer) : writer :=
  {| html_lines := html_lines w;
     total_folders := S (total_folders w);
     total_bookmarks := total_bookmarks w |}.

(** Lines 202-209. *)
Definition write_folder (w : writer) (folder : flat_folder) : writer :=
  let w := emit ("        <DT><H3>" ++ escape_html_text (ff_title folder) ++ "</H3>")%string w in
  let w := emit "        <DL><p>" w in
  let w := fold_left
             (fun w tab => count_bookmark (emit (anchor "            " tab) w))
             (ff_tabs folder) w in
  let w := emit "        </DL><p>" w in
  count_folder w.

(** Lines 212-214. *)
Definition write_standalone (w : writer) (tab : bookmark) : writer :=
  count_bookmark (emit (anchor "        " tab) w).

(** One turn of the loop over the top-level items (lines 187-199); the
    state is [(all_folders, standalone_tabs)]. *)
Definition collect_step (fuel : nat) (items_by_id : pydict)
    (acc : list flat_folder * list bookmark) (item_id : key)
  : outcome (list flat_folder * list bookmark) :=
  match dict_lookup item_id items_by_id with
  | None => Raise KeyError
  | Some item =>
      item_type <- get_item_type item ;;
      match item_type with
      | Some Folder =>
          folders <- get_all_folders_flat fuel (json_of_key item_id) items_by_id None ;;
          Ok (fst acc ++ folders, snd acc)
      | Some Tab =>
          e <- tab_entry item ;;
          Ok (match e with
              | Some b => (fst acc, snd acc ++ [b])
              | None => acc
              end)
      | None => Ok acc
      end
  end.

(** One turn of the loop over the spaces (lines 168-216). *)
Definition space_block (fuel : nat) (items_by_id : pydict) (w : writer)
    (space : space_info) : outcome writer :=
  top <- top_level_items items_by_id (sp_pinned_container space) ;;
  match top with
  | [] => Ok w
  | _ =>
      let w := emit ("    <DT><H3>" ++ escape_html_text (sp_title space) ++ "</H3>")%string w in
      let w := emit "    <DL><p>" w in
      fs <- for_each (collect_step fuel items_by_id) top ([], []) ;;
      let w := fold_left write_folder (fst fs) w in
      let w := fold_left write_standalone (snd fs) w in
      Ok (emit "    </DL><p>" w)
  end.

Record export_result : Type :=
  { html : string; folders : nat; bookmarks : nat; spaces : nat }.

(** [data.get('sidebar', {}).get('containers', [])]. *)
Definition get_containers (data : json) : outcome json :=
  sidebar <- py_get data "sidebar" (JObj []) ;;
  py_get sidebar "containers" (JArr []).

(** [export_bookmarks]; [Ok None] is the [return None] of lines 122 and
    143.  [now] is the text of the export date, [fuel] the recursion
    limit left to [get_all_folders_flat]. *)
Definition export_bookmarks (now : string) (fuel : nat) (data : json)
  : outcome (option export_result) :=
  containers <- get_containers data ;;
  if negb (py_bool containers) then Ok None
  else
    last_container <- py_last containers ;;
    spaces <- collect_spaces last_container ;;
    match spaces with
    | [] => Ok None
    | _ =>
        items <- py_get last_container "items" (JArr []) ;;
        items_by_id <- build_items_by_id items ;;
        let w := {| html_lines := header_head ++ [date_line now] ++ header_tail;
                    total_folders := 0; total_bookmarks := 0 |} in
        w <- for_each (space_block fuel items_by_id) spaces w ;;
        let w := emit "</DL><p>" w in
        Ok (Some {| html := String.concat nl (html_lines w);
                    folders := total_folders w;
                    bookmarks := total_bookmarks w;
                    spaces := List.length spaces |})
    end.

(** How far the export part of [main] gets: it leaves with status 1
    before [arc_bookmarks.html] is opened, or it opens the file and hands
    a text to [f.write].  What the write does with the text, and the
    status after it, are not part of the model. *)
Inductive main_outcome : Type :=
| ExitBeforeWrite
| WriteFile (text : string).

(** The export part of [main] (lines 247-257, with the handlers of lines
    270-275) on the parsed document, up to the write: [sys.exit(1)] when
    [export_bookmarks] returns [None] (line 252) or raises (lines
    273-275), else the text passed to [f.write] at line 257. *)
Definition main_export (now : string) (fuel : nat) (data : json) : main_outcome :=
  match export_bookmarks now fuel data with
  | Ok (Some result) => WriteFile (html result)
  | Ok None => ExitBeforeWrite
  | Raise _ => ExitBeforeWrite
  end.

(** [export_bookmarks] up to its [return] statement (lines 118-218): the
    writer, that is [html_lines] and the two counters, as it stands when
    line 220 is reached, with [len(spaces)]; [None] when the function
    returns [None] at line 122 or 143. *)
Definition export_writer (now : string) (fuel : nat) (data : json)
  : outcome (option (writer * nat)) :=
  containers <- get_containers data ;;
  if negb (py_bool containers) then Ok None
  else
    last_container <- py_last containers ;;
    spaces <- collect_spaces last_container ;;
    match spaces with
    | [] => Ok None
    | _ =>
        items <- py_get last_container "items" (JArr []) ;;
        items_by_id <- build_items_by_id items ;;
        let w := {| html_lines := header_head ++ [date_line now] ++ header_tail;
                    total_folders := 0; total_bookmarks := 0 |} in
        w <- for_each (space_block fuel items_by_id) spaces w ;;
        let w := emit "</DL><p>" w in
        Ok (Some (w, List.length spaces))
    end.

End Exporter.

(** ** Sample documents *)

Module Sample.

Definition tab_item (id title url parent : string) : json :=
  JObj [ ("id", JStr id); ("parentID", JStr parent); ("title", JStr title);
         ("data", JObj [("tab", JObj [("savedURL", JStr url);
                                      ("savedTitle", JStr title)])]) ].

Definition folder_item (id title parent : string) (children : list string) : json :=
  JObj [ ("id", JStr id); ("parentID", JStr parent); ("title", JStr title);
         ("childrenIds", JArr (map JStr children));
         ("data", JObj [("list", JObj [])]) ].

Definition space (id title : string) (container_ids : list string) : json :=
  JObj [ ("id", JStr id); ("title", JStr title);
         ("containerIDs", JArr (map JStr container_ids)) ].

Definition document (spaces items : list json) : json :=
  JObj [ ("sidebar",
          JObj [ ("containers",
                  JArr [ JObj [("global", JObj [])];
                         JObj [("spaces", JArr spaces); ("items", JArr items)] ]) ]) ].

(** The one-space scenario: space Work, whose pinned container holds the
    folder Docs with the tabs A and B, and the standalone tab C. *)
Definition work_items : list json :=
  [ JStr "docs"; folder_item "docs" "Docs" "pin" ["a"; "b"];
    JStr "a"; tab_item "a" "A" "http://a" "docs";
    JStr "b"; tab_item "b" "B" "http://b" "docs";
    JStr "c"; tab_item "c" "C" "http://c" "pin" ].

Definition work : json :=
  document [ JStr "w"; space "w" "Work" ["unpinned"; "unp"; "pinned"; "pin"] ]
           work_items.

(** An item record whose [data] is null. *)
Definition null_data_item : json := JObj [("id", JStr "x"); ("data", JNull)].

(** An items array whose one record has an array for [id]. *)
Definition array_id_items : list json := [JStr "m"; JObj [("id", JArr [])]].

(** A titled space that has a pinned container, and no items at all. *)
Definition idle : json :=
  document [ JStr "w"; space "w" "Work" ["pinned"; "pin"] ] [].

(** A space without the pinned marker, and a tab that has no [parentID]. *)
Definition orphan_tab : json :=
  JObj [ ("id", JStr "t"); ("title", JStr "T");
         ("data", JObj [("tab", JObj [("savedURL", JStr "http://t")])]) ].

Definition orphan : json :=
  document [ JStr "w"; space "w" "Work" ["unpinned"; "unp"] ]
           [ JStr "t"; orphan_tab ].


Definition a_href (indent url title : string) : string :=
  (indent ++ "<DT><A HREF=" ++ qt ++ url ++ qt ++ ">" ++ title ++ "</A>")%string.

(** The text exported for [work] at the date [now]. *)
Definition work_html (now : string) : string :=
  String.concat nl
    (header_head ++ date_line now :: header_tail ++
     [ "    <DT><H3>Work</H3>";
       "    <DL><p>";
       "        <DT><H3>Docs</H3>";
       "        <DL><p>";
       a_href "            " "http://a" "A";
       a_href "            " "http://b" "B";
       "        </DL><p>";
       a_href "        " "http://c" "C";
       "    </DL><p>";
       "</DL><p>" ]).

(** The text exported for [orphan]. *)
Definition orphan_html (now : string) : string :=
  String.concat nl
    (header_head ++ date_line now :: header_tail ++
     [ "    <DT><H3>Work</H3>";
       "    <DL><p>";
       a_href "        " "http://t" "T";
       "    </DL><p>";
       "</DL><p>" ]).

(** The text of a document without any space block. *)
Definition bare_html (now : string) : string :=
  String.concat nl (header_head ++ date_line now :: header_tail ++ [ "</DL><p>" ]).

(** Nested folders: Top holds the folders One and Two and a tab without
    URL; One holds the tab A and the folder Deep; Deep holds the tab B; Two
    holds the tab C. *)
Definition nested_items : list json :=
  [ JStr "top"; folder_item "top" "Top" "pin" ["one"; "x"; "two"];
    JStr "one"; folder_item "one" "One" "top" ["a"; "deep"];
    JStr "two"; folder_item "two" "Two" "top" ["c"];
    JStr "deep"; folder_item "deep" "Deep" "one" ["b"];
    JStr "a"; tab_item "a" "A" "http://a" "one";
    JStr "b"; tab_item "b" "B" "http://b" "deep";
    JStr "c"; tab_item "c" "C" "http://c" "two";
    JStr "x"; tab_item "x" "X" EmptyString "top" ].

Definition index_of (items : list json) : pydict :=
  match build_items_by_id (JArr items) with
  | Ok d => d
  | Raise _ => []
  end.

Definition nested_index : pydict := Eval vm_compute in index_of nested_items.

Definition nested_rank (k : key) : nat :=
  match k with
  | KStr s =>
      if String.eqb s "top" then 3
      else if String.eqb s "one" then 2
      else if String.eqb s "two" || String.eqb s "deep" then 1
      else 0
  | _ => 0
  end.

Definition entry (title url : string) : bookmark :=
  {| bm_title := JStr title; bm_url := JStr url |}.

(** What flattening Top returns. *)
Definition nested_flat : list flat_folder :=
  [ {| ff_title := JStr "One"; ff_tabs := [entry "A" "http://a"] |};
    {| ff_title := JStr "Deep"; ff_tabs := [entry "B" "http://b"] |};
    {| ff_title := JStr "Two"; ff_tabs := [entry "C" "http://c"] |} ].

(** A folder that is its own child. *)
Definition loop_index : pydict :=
  [ (KStr "f", folder_item "f" "F" "pin" ["f"]) ].

End Sample.

(** ** Specification-side definitions *)

(** The classifier as the specification words it, on the [data] payload
    of an item. *)
Definition classify_payload (data : list (string * json)) : option item_type :=
  if obj_mem "list" data then Some Folder
  else if obj_mem "tab" data then Some Tab
  else None.

(** The elements at the odd indices 1, 3, 5, ... of the items array. *)
Fixpoint odds (l : list json) : list json :=
  match l with
  | _ :: x :: l' => x :: odds l'
  | _ => []
  end.

(** The [id] of a structured record that has one. *)
Definition record_id (v : json) : option json :=
  match v with
  | JObj m => obj_lookup "id" m
  | _ => None
  end.

(** The index builder as the specification words it: a record with an
    [id] is inserted under that id, anything else is skipped. *)
Definition insert_record (d : pydict) (x : json) : outcome pydict :=
  match record_id x with
  | Some id => k <- py_hash id ;; Ok (dict_set k x d)
  | None => Ok d
  end.

Definition id_hashable (x : json) : bool :=
  match record_id x with
  | Some (JArr _) | Some (JObj _) => false
  | _ => true
  end.

Definition has_key (k : key) (x : json) : bool :=
  match record_id x with
  | Some id => match py_hash id with Ok k' => key_eqb k' k | Raise _ => false end
  | None => false
  end.

(** The last record of [recs] whose id is the key [k]. *)
Definition last_record (k : key) (recs : list json) : option json :=
  find (has_key k) (rev recs).

(** *** The document as a sequence of space blocks

    What [export_bookmarks] computes before it writes: the resolved
    spaces, and for each space that has top-level items its block, that is
    its title, its flattened folders and its standalone tabs. *)

Record block : Type :=
  { bl_title : json; bl_folders : list flat_folder; bl_tabs : list bookmark }.

Definition space_content (fuel : nat) (items_by_id : pydict) (space : space_info)
  : outcome (option block) :=
  top <- top_level_items items_by_id (sp_pinned_container space) ;;
  match top with
  | [] => Ok None
  | _ =>
      fs <- for_each (collect_step fuel items_by_id) top ([], []) ;;
      Ok (Some {| bl_title := sp_title space;
                  bl_folders := fst fs; bl_tabs := snd fs |})
  end.

Fixpoint blocks_of (fuel : nat) (items_by_id : pydict) (spaces : list space_info)
  : outcome (list block) :=
  match spaces with
  | [] => Ok []
  | space :: rest =>
      b <- space_content fuel items_by_id space ;;
      bs <- blocks_of fuel items_by_id rest ;;
      Ok (match b with Some b => b :: bs | None => bs end)
  end.

Definition export_plan (fuel : nat) (data : json)
  : outcome (option (list space_info * list block)) :=
  containers <- get_containers data ;;
  if negb (py_bool containers) then Ok None
  else
    last_container <- py_last containers ;;
    spaces <- collect_spaces last_container ;;
    match spaces with
    | [] => Ok None
    | _ =>
        items <- py_get last_container "items" (JArr []) ;;
        items_by_id <- build_items_by_id items ;;
        bs <- blocks_of fuel items_by_id spaces ;;
        Ok (Some (spaces, bs))
    end.

Definition block_entries (b : block) : list bookmark :=
  flat_map ff_tabs (bl_folders b) ++ bl_tabs b.

Section Rendering.

Variable py_repr : json -> string.

Definition render_folder (f : flat_folder) : list string :=
  [ ("        <DT><H3>" ++ escape_html_text py_repr (ff_title f) ++ "</H3>")%string;
    "        <DL><p>" ]
  ++ map (anchor py_repr "            ") (ff_tabs f)
  ++ [ "        </DL><p>" ].

Definition render_block (b : block) : list string :=
  [ ("    <DT><H3>" ++ escape_html_text py_repr (bl_title b) ++ "</H3>")%string;
    "    <DL><p>" ]
  ++ flat_map render_folder (bl_folders b)
  ++ map (anchor py_repr "        ") (bl_tabs b)
  ++ [ "    </DL><p>" ].

(** The lines after the export date. *)
Definition document_rest (bs : list block) : list string :=
  header_tail ++ flat_map render_block bs ++ [ "</DL><p>" ].

Definition render_result (now : string) (p : list space_info * list block)
  : export_result :=
  {| html := String.concat nl
               (header_head ++ date_line now :: document_rest (snd p));
     folders := List.length (flat_map bl_folders (snd p));
     bookmarks := List.length (flat_map block_entries (snd p));
     spaces := List.length (fst p) |}.

End Rendering.

(** The writer [w] after more lines and counts. *)
Definition extend (w : writer) (lines : list string) (f b : nat) : writer :=
  {| html_lines := html_lines w ++ lines;
     total_folders := total_folders w + f;
     total_bookmarks := total_bookmarks w + b |}.

(** A structured record with a [title]: what the space scan keeps. *)
Definition titled_record (v : json) : bool :=
  match v with
  | JObj m => obj_mem "title" m
  | _ => false
  end.

(** *** The folder graph *)

(** [c] is named in the [childrenIds] of the item [p]. *)
Definition child_of (idx : pydict) (p c : key) : Prop :=
  exists item children cid,
    dict_lookup p idx = Some item /\ children_ids item = Ok children /\
    In cid children /\ py_hash cid = Ok c.

(** The links the flattening follows: from a folder to a child that is in
    the index and is a folder. *)
Definition subfolder (idx : pydict) (p c : key) : Prop :=
  exists item children cid child,
    dict_lookup p idx = Some item /\ get_item_type item = Ok (Some Folder) /\
    children_ids item = Ok children /\ In cid children /\
    py_hash cid = Ok c /\
    dict_lookup c idx = Some child /\ get_item_type child = Ok (Some Folder).

(** No item is its own descendant through [childrenIds]. *)
Definition acyclic (idx : pydict) : Prop :=
  forall k, ~ clos_trans key (child_of idx) k k.

(** [a], then the elements of [l], each linked to the next. *)
Fixpoint path (R : key -> key -> Prop) (a : key) (l : list key) : Prop :=
  match l with
  | [] => True
  | b :: l' => R a b /\ path R b l'
  end.

(** A child id that the recursion loop descends into. *)
Definition is_subfolder_id (idx : pydict) (cid : json) : bool :=
  match py_hash cid with
  | Ok ck =>
      match dict_lookup ck idx with
      | Some child =>
          match get_item_type child with
          | Ok (Some Folder) => true
          | _ => false
          end
      | None => false
      end
  | Raise _ => false
  end.

(** A rank that strictly decreases along [childrenIds]: a certificate of
    acyclicity that can be checked by evaluation. *)
Definition ranked (rank : key -> nat) (idx : pydict) : bool :=
  forallb
    (fun kv =>
       match children_ids (snd kv) with
       | Ok children =>
           forallb (fun cid =>
                      match py_hash cid with
                      | Ok c => (rank c <? rank (fst kv))%nat
                      | Raise _ => true
                      end) children
       | Raise _ => true
       end) idx.

Definition omap {A B : Type} (f : A -> B) (o : outcome A) : outcome B :=
  match o with
  | Ok a => Ok (f a)
  | Raise e => Raise e
  end.

Fixpoint map_outcome {A B : Type} (f : A -> outcome B) (l : list A)
  : outcome (list B) :=
  match l with
  | [] => Ok []
  | x :: l' => r <- f x ;; rs <- map_outcome f l' ;; Ok (r :: rs)
  end.

(** An outcome other than the exhaustion of the recursion limit. *)
Definition settled {A : Type} (o : outcome A) : Prop := o <> Raise RecursionError.

(** A bookmark entry that has a URL. *)
Definition kept (b : bookmark) : Prop := py_bool (bm_url b) = true.

(** *** Well-formed indexes

    A sufficient condition for the flattening to raise nothing but
    [RecursionError]: every item is a record whose [data], if present, is
    an object, whose tab payload is an object, and whose [childrenIds], if
    present, is an array of hashable ids. *)

Definition hashable (v : json) : bool :=
  match v with
  | JArr _ | JObj _ => false
  | _ => true
  end.

Definition payload_ok (m : list (string * json)) : bool :=
  match obj_lookup "data" m with
  | None => true
  | Some (JObj d) =>
      match classify_payload d with
      | Some Tab => match obj_lookup "tab" d with Some (JObj _) => true | _ => false end
      | _ => true
      end
  | Some _ => false
  end.

Definition children_ok (m : list (string * json)) : bool :=
  match obj_lookup "childrenIds" m with
  | None => true
  | Some (JArr cs) => forallb hashable cs
  | Some _ => false
  end.

Definition item_ok (item : json) : bool :=
  match item with
  | JObj m => payload_ok m && children_ok m
  | _ => false
  end.

Definition well_formed (idx : pydict) : bool :=
  forallb (fun kv => item_ok (snd kv)) idx.

(** The entries that one child id contributes to the tabs of its folder:
    what a turn of the loop of [get_folder_with_direct_tabs] appends. *)
Definition direct_entry (idx : pydict) (cid : json) : list bookmark :=
  match direct_tab_step idx [] cid with
  | Ok r => r
  | Raise _ => []
  end.

(** *** Spaces and top-level items *)

Definition is_marker (cid : json) : bool := py_eq cid (JStr "pinned").

(** The element that follows the last marker which has a follower;
    [acc] when there is none. *)
Fixpoint follower (cids : list json) (acc : json) : json :=
  match cids with
  | cid :: ((next :: _) as rest) =>
      follower rest (if is_marker cid then next else acc)
  | _ => acc
  end.

(** A [spaces] entry that the space scan accepts: if it is a titled
    record, it has an [id], and its [containerIDs], if present, is an
    array. *)
Definition space_entry_ok (e : json) : bool :=
  match e with
  | JObj m =>
      if obj_mem "title" m then
        obj_mem "id" m &&
        match obj_lookup "containerIDs" m with
        | None | Some (JArr _) => true
        | Some _ => false
        end
      else true
  | _ => true
  end.

(** [item.get('parentID')] of a record. *)
Definition parent_of (item : json) : json :=
  match item with
  | JObj m => match obj_lookup "parentID" m with Some p => p | None => JNull end
  | _ => JNull
  end.

(** What the index loop keeps true of the index: every value is a record
    stored under the hash of its own [id]. *)
Definition keyed_by_id (d : pydict) : Prop :=
  forall k v, In (k, v) d ->
    is_dict v = true /\ exists id, record_id v = Some id /\ py_hash id = Ok k.

(** What the scan records of a titled entry. *)
Definition recorded (e : json) (s : space_info) : Prop :=
  py_getitem e "id" = Ok (sp_id s) /\
  py_getitem e "title" = Ok (sp_title s) /\
  (cids <- py_get e "containerIDs" (JArr []) ;; find_pinned cids)
  = Ok (sp_pinned_container s).

(** What one top-level item adds to the folders and to the standalone
    tabs of its space: a turn of the loop of lines 187-199 on empty
    lists. *)
Definition item_folders (fuel : nat) (idx : pydict) (k : key) : list flat_folder :=
  match collect_step fuel idx ([], []) k with
  | Ok acc => fst acc
  | Raise _ => []
  end.

Definition item_tabs (fuel : nat) (idx : pydict) (k : key) : list bookmark :=
  match collect_step fuel idx ([], []) k with
  | Ok acc => snd acc
  | Raise _ => []
  end.

(** An index with an item that is neither a folder nor a tab. *)
Module MoreSamples.

Definition container_item : json :=
  JObj [ ("id", JStr "pin"); ("childrenIds", JArr [JStr "docs"; JStr "c"]);
         ("data", JObj [("itemContainer", JObj [])]) ].

Definition container_index : pydict :=
  (KStr "pin", container_item) :: Sample.index_of Sample.work_items.

End MoreSamples.

(** *** Folder records, as the specification words them *)

(** [m.get(k, dflt)] on a record. *)
Definition lookup_or (k : string) (m : list (string * json)) (dflt : json) : json :=
  match obj_lookup k m with Some x => x | None => dflt end.

(** The record and the tab descriptor of an item that is a tab: a record
    whose [data] is an object with a [tab] object and no [list] key. *)
Definition tab_payload (child : json)
  : option (list (string * json) * list (string * json)) :=
  match child with
  | JObj m =>
      match obj_lookup "data" m with
      | Some (JObj d) =>
          if obj_mem "list" d then None
          else match obj_lookup "tab" d with
               | Some (JObj t) => Some (m, t)
               | _ => None
               end
      | _ => None
      end
  | _ => None
  end.

(** The title of an entry: the item's own [title], else the tab's
    [savedTitle], else [Untitled]. *)
Definition entry_title (m t : list (string * json)) : json :=
  let own := lookup_or "title" m JNull in
  let saved := lookup_or "savedTitle" t (JStr EmptyString) in
  if py_bool own then own
  else if py_bool saved then saved
  else JStr "Untitled".

(** The entry of a tab item: kept only with a non-empty URL. *)
Definition kept_entry (child : json) : option bookmark :=
  match tab_payload child with
  | Some (m, t) =>
      let url := lookup_or "savedURL" t (JStr EmptyString) in
      if py_bool url
      then Some {| bm_title := entry_title m t; bm_url := url |}
      else None
  | None => None
  end.

(** A child id that names a kept direct tab: it is in the index, it is a
    tab, and its [savedURL] is non-empty. *)
Definition is_kept_tab (idx : pydict) (cid : json) : bool :=
  match py_hash cid with
  | Ok ck =>
      match dict_lookup ck idx with
      | Some child =>
          match tab_payload child with
          | Some (_, t) => py_bool (lookup_or "savedURL" t (JStr EmptyString))
          | None => false
          end
      | None => false
      end
  | Raise _ => false
  end.

Definition has_kept_tab (idx : pydict) (children : list json) : bool :=
  existsb (is_kept_tab idx) children.

(** The entries a child id stands for: that of a kept direct tab, and
    nothing for any other id. *)
Definition entries_of (idx : pydict) (cid : json) : list bookmark :=
  match py_hash cid with
  | Ok ck =>
      match dict_lookup ck idx with
      | Some child =>
          match kept_entry child with
          | Some b => [b]
          | None => []
          end
      | None => []
      end
  | Raise _ => []
  end.

(** The title of a folder: its own [title], else [Untitled Folder]. *)
Definition folder_title (item : json) : json :=
  match item with
  | JObj m =>
      let own := lookup_or "title" m JNull in
      if py_bool own then own else JStr "Untitled Folder"
  | _ => JStr "Untitled Folder"
  end.

(** The flat folder of a folder item with the children [children]. *)
Definition folder_record (idx : pydict) (item : json) (children : list json)
  : flat_folder :=
  {| ff_title := folder_title item;
     ff_tabs := flat_map (entries_of idx) children |}.

(** A key of the index that names a folder. *)
Definition is_folder_key (idx : pydict) (k : key) : bool :=
  match dict_lookup k idx with
  | Some item =>
      match get_item_type item with
      | Ok (Some Folder) => true
      | _ => false
      end
  | None => false
  end.

(** The standalone entry of a top-level item: that of a tab with a URL. *)
Definition standalone_of (idx : pydict) (k : key) : list bookmark :=
  match dict_lookup k idx with
  | Some item => match kept_entry item with Some b => [b] | None => [] end
  | None => []
  end.

(** *** Text and lines *)

(** The characters that open or close markup or an attribute value. *)
Definition is_markup (c : ascii) : bool :=
  Ascii.eqb c "<" || Ascii.eqb c ">" || Ascii.eqb c dquote || Ascii.eqb c "'".

Fixpoint string_forall (p : ascii -> bool) (s : string) : bool :=
  match s with
  | EmptyString => true
  | String c s' => p c && string_forall p s'
  end.

(** The lines that open and close a [<DL>] list, at the three depths the
    writer uses. *)
Definition opens (line : string) : bool :=
  String.eqb line "<DL><p>" || String.eqb line "    <DL><p>"
  || String.eqb line "        <DL><p>".

Definition closes (line : string) : bool :=
  String.eqb line "</DL><p>" || String.eqb line "    </DL><p>"
  || String.eqb line "        </DL><p>".

(** The depth of open lists after [lines], from [depth]; [None] when a
    line closes a list that is not open. *)
Fixpoint nesting (lines : list string) (depth : nat) : option nat :=
  match lines with
  | [] => Some depth
  | line :: rest =>
      if opens line then nesting rest (S depth)
      else if closes line then
        match depth with
        | O => None
        | S d => nesting rest d
        end
      else nesting rest depth
  end.

Definition is_anchor (line : string) : bool :=
  String.prefix "        <DT><A HREF=" line
  || String.prefix "            <DT><A HREF=" line.

Definition is_folder_heading (line : string) : bool :=
  String.prefix "        <DT><H3>" line.

Definition is_space_heading (line : string) : bool :=
  String.prefix "    <DT><H3>" line.

Definition count_lines (p : string -> bool) (lines : list string) : nat :=
  List.length (filter p lines).

(** * Properties *)

(** ** The error monad and loops *)

Lemma bind_ok {A B : Type} (c : outcome A) (k : A -> outcome B) (b : B) :
  bind c k = Ok b -> exists a, c = Ok a /\ k a = Ok b.
Proof.
  destruct c as [a|e]; simpl; intros H; [exists a; auto | discriminate].
Qed.

Lemma bind_raise {A B : Type} (c : outcome A) (k : A -> outcome B) (e : exn) :
  bind c k = Raise e -> c = Raise e \/ exists a, c = Ok a /\ k a = Raise e.
Proof.
  destruct c as [a|e']; simpl; intros H; [right; exists a; auto | left; congruence].
Qed.

Lemma for_each_app {A S : Type} (body : S -> A -> outcome S) (l1 l2 : list A) (s : S) :
  for_each body (l1 ++ l2) s = (s' <- for_each body l1 s ;; for_each body l2 s').
Proof.
  revert s; induction l1 as [|x l1 IH]; intros s; simpl; [reflexivity|].
  destruct (body s x); simpl; auto.
Qed.

(** ** C4: the classifier *)

Section Classifier.

Lemma py_in_obj (k : string) (m : list (string * json)) :
  py_in k (JObj m) = Ok (obj_mem k m).
Proof. reflexivity. Qed.

Lemma get_item_type_obj (m : list (string * json)) :
  get_item_type (JObj m) =
  match obj_lookup "data" m with
  | None => Ok None
  | Some data =>
      is_list <- py_in "list" data ;;
      if is_list then Ok (Some Folder)
      else is_tab <- py_in "tab" data ;;
           if is_tab then Ok (Some Tab) else Ok None
  end.
Proof.
  unfold get_item_type. rewrite py_in_obj. unfold obj_mem, py_getitem.
  destruct (obj_lookup "data" m); reflexivity.
Qed.

(** The classifier, case by case on the [data] field. *)
Lemma get_item_type_payload (m : list (string * json)) :
  match obj_lookup "data" m with
  | None => get_item_type (JObj m) = Ok None
  | Some (JObj data) => get_item_type (JObj m) = Ok (classify_payload data)
  | Some (JArr _) | Some (JStr _) => exists t, get_item_type (JObj m) = Ok t
  | Some JNull | Some (JBool _) | Some (JInt _) =>
      get_item_type (JObj m) = Raise TypeError
  end.
Proof.
  rewrite get_item_type_obj.
  destruct (obj_lookup "data" m) as [data|] eqn:E; simpl; [|reflexivity].
  destruct data as [| b | z | s | l | d]; simpl; try reflexivity.
  - destruct (py_substring "list" s); simpl; [eexists; reflexivity|].
    destruct (py_substring "tab" s); eexists; reflexivity.
  - destruct (existsb _ l); simpl; [eexists; reflexivity|].
    destruct (existsb _ l); eexists; reflexivity.
  - unfold classify_payload.
    destruct (obj_mem "list" d); simpl; [reflexivity|].
    destruct (obj_mem "tab" d); reflexivity.
Qed.

(** C4 (as amended).  On an item record whose [data] field is absent the
    classifier returns unknown; when [data] is an object it returns folder
    if [data] has a [list] key, tab if it has a [tab] key and no [list]
    key, unknown otherwise; when [data] is an array or a string it still
    returns one of the three; when [data] is null, a boolean or a number
    it raises [TypeError] and returns nothing. *)
Theorem get_item_type_classifies (m : list (string * json)) :
  match obj_lookup "data" m with
  | None => get_item_type (JObj m) = Ok None
  | Some (JObj data) =>
      get_item_type (JObj m) = Ok (classify_payload data) /\
      (obj_mem "list" data = true -> classify_payload data = Some Folder) /\
      (obj_mem "list" data = false -> obj_mem "tab" data = true ->
       classify_payload data = Some Tab) /\
      (obj_mem "list" data = false -> obj_mem "tab" data = false ->
       classify_payload data = None)
  | Some (JArr _) | Some (JStr _) => exists t, get_item_type (JObj m) = Ok t
  | Some JNull | Some (JBool _) | Some (JInt _) =>
      get_item_type (JObj m) = Raise TypeError
  end.
Proof.
  pose proof (get_item_type_payload m) as H.
  destruct (obj_lookup "data" m) as [[| | | | |data]|]; try exact H.
  split; [exact H|]. unfold classify_payload.
  repeat split; intros; repeat match goal with E : _ = _ |- _ => rewrite E end;
    reflexivity.
Qed.

End Classifier.

(** Evaluation behind C4: a record whose [data] is null is not classified,
    the classifier raises. *)
Lemma get_item_type_null_data :
  get_item_type Sample.null_data_item = Raise TypeError.
Proof. reflexivity. Qed.

(** ** C3: the item index *)

Section ItemIndex.

Lemma nth_error_odds (l : list json) (k : nat) :
  nth_error (odds l) k = nth_error l (2 * k + 1).
Proof.
  revert l; induction k as [|k IH]; intros [|a [|x l]]; simpl; auto.
  - destruct k; reflexivity.
  - rewrite IH. replace (k + S (k + 0) + 1)%nat with (S (2 * k + 1)) by lia.
    reflexivity.
Qed.

Lemma length_odds (l : list json) : List.length (odds l) = Nat.div2 (List.length l).
Proof.
  assert (H : forall n (l : list json), (List.length l <= n)%nat ->
                List.length (odds l) = Nat.div2 (List.length l)).
  { induction n as [|n IH]; intros [|a [|x l']] Hl; simpl in *; try reflexivity; try lia.
    f_equal. apply IH. lia. }
  apply (H (List.length l)). lia.
Qed.

Lemma for_each_map {A B S : Type} (f : A -> B) (body : S -> B -> outcome S)
    (l : list A) (s : S) :
  for_each body (map f l) s = for_each (fun s x => body s (f x)) l s.
Proof.
  revert s; induction l as [|x l IH]; intros s; simpl; [reflexivity|].
  destruct (body s (f x)); simpl; auto.
Qed.

(** A counting loop that looks its index up in a list is the loop over the
    list, once the count covers the list. *)
Lemma for_each_seq_nth {A St : Type} (g : St -> A -> outcome St)
    (body : St -> nat -> outcome St) :
  forall (cnt : nat) (L : list A) (start : nat) (s : St),
    (forall s k, body s (start + k)%nat =
                 match nth_error L k with Some x => g s x | None => Ok s end) ->
    (List.length L <= cnt)%nat ->
    for_each body (seq start cnt) s = for_each g L s.
Proof.
  induction cnt as [|cnt IH]; intros L start s Hbody Hlen.
  - destruct L; simpl in *; [reflexivity | lia].
  - simpl. pose proof (Hbody s 0%nat) as H0. rewrite Nat.add_0_r in H0.
    rewrite H0. destruct L as [|x L]; simpl.
    + apply (IH [] (S start)); [|simpl; lia].
      intros s' k. replace (S start + k)%nat with (start + S k)%nat by lia.
      rewrite Hbody. destruct k; reflexivity.
    + destruct (g s x) as [s'|e]; simpl; [|reflexivity].
      apply (IH L (S start)); [|simpl in *; lia].
      intros s'' k. replace (S start + k)%nat with (start + S k)%nat by lia.
      rewrite Hbody. reflexivity.
Qed.

Lemma index_step_record (l : list json) (d : pydict) (k : nat) :
  index_step (JArr l) (List.length l) d (2 * k) =
  match nth_error (odds l) k with
  | Some x => insert_record d x
  | None => Ok d
  end.
Proof.
  unfold index_step. rewrite nth_error_odds.
  destruct (2 * k + 1 <? List.length l)%nat eqn:Hlt.
  - apply Nat.ltb_lt in Hlt. unfold py_getitem_nat.
    destruct (nth_error l (2 * k + 1)) as [x|] eqn:Hn.
    + simpl. unfold insert_record, record_id.
      destruct x as [| b | z | s | xs | m]; simpl; try reflexivity.
      unfold obj_mem. destruct (obj_lookup "id" m); reflexivity.
    + apply nth_error_None in Hn. lia.
  - apply Nat.ltb_ge in Hlt.
    destruct (nth_error l (2 * k + 1)) as [x|] eqn:Hn; [|reflexivity].
    assert (2 * k + 1 < List.length l)%nat by (apply nth_error_Some; congruence).
    lia.
Qed.

Lemma div2_le_succ (n : nat) : (Nat.div2 n <= Nat.div2 (S n))%nat.
Proof.
  assert (H : (Nat.div2 n <= Nat.div2 (S n) /\ Nat.div2 (S n) <= S (Nat.div2 n))%nat).
  { induction n as [|n [IH1 IH2]]; [simpl; lia|].
    change (Nat.div2 (S (S n))) with (S (Nat.div2 n)). lia. }
  apply H.
Qed.

(** The index loop inspects exactly the elements at the odd indices. *)
Lemma build_items_by_id_odds (l : list json) :
  build_items_by_id (JArr l) = for_each insert_record (odds l) [].
Proof.
  unfold build_items_by_id, range_step2. simpl.
  rewrite for_each_map.
  apply for_each_seq_nth.
  - intros s k. simpl. apply index_step_record.
  - rewrite length_odds. apply div2_le_succ.
Qed.

Lemma key_eqb_eq (a b : key) : key_eqb a b = true <-> a = b.
Proof.
  unfold key_eqb. destruct (key_eq_dec a b); split; intros; congruence.
Qed.

Lemma key_eqb_refl (a : key) : key_eqb a a = true.
Proof. apply key_eqb_eq. reflexivity. Qed.

Lemma key_eqb_sym (a b : key) : key_eqb a b = key_eqb b a.
Proof.
  unfold key_eqb. destruct (key_eq_dec a b), (key_eq_dec b a); congruence.
Qed.

Lemma dict_lookup_set (key k : key) (v : json) (d : pydict) :
  dict_lookup key (dict_set k v d) =
  if key_eqb key k then Some v else dict_lookup key d.
Proof.
  induction d as [|[k' v'] d IH]; simpl; [reflexivity|].
  destruct (key_eqb k k') eqn:Ekk'; simpl.
  - apply key_eqb_eq in Ekk'. subst k'.
    destruct (key_eqb key k); reflexivity.
  - rewrite IH. destruct (key_eqb key k') eqn:Ek'; [|reflexivity].
    apply key_eqb_eq in Ek'. subst k'.
    rewrite key_eqb_sym, Ekk'. reflexivity.
Qed.

Lemma find_snoc {A : Type} (f : A -> bool) (l : list A) (x : A) :
  find f (l ++ [x]) =
  match find f l with
  | Some y => Some y
  | None => if f x then Some x else None
  end.
Proof.
  induction l as [|a l IH]; simpl; [reflexivity|].
  destruct (f a); [reflexivity | exact IH].
Qed.

(** Inserting records whose ids are hashable never raises, and a key then
    finds the last record inserted under it. *)
Lemma insert_records_lookup (recs : list json) :
  forall d : pydict,
    forallb id_hashable recs = true ->
    exists idx,
      for_each insert_record recs d = Ok idx /\
      forall k, dict_lookup k idx =
                match last_record k recs with
                | Some x => Some x
                | None => dict_lookup k d
                end.
Proof.
  unfold last_record.
  induction recs as [|x recs IH]; intros d Hh; simpl in *.
  - exists d. split; [reflexivity|]. intros k. reflexivity.
  - apply andb_true_iff in Hh. destruct Hh as [Hx Hrecs].
    unfold insert_record at 1. unfold id_hashable in Hx.
    destruct (record_id x) as [id|] eqn:Eid.
    + destruct (py_hash id) as [kx|e] eqn:Ehash;
        [|destruct id; simpl in *; discriminate].
      simpl. destruct (IH (dict_set kx x d) Hrecs) as [idx [Hrun Hlook]].
      exists idx. split; [exact Hrun|]. intros k.
      assert (Hk : has_key k x = key_eqb k kx)
        by (unfold has_key; rewrite Eid, Ehash; apply key_eqb_sym).
      rewrite Hlook, find_snoc, dict_lookup_set, Hk.
      destruct (find (has_key k) (rev recs)); [reflexivity|].
      destruct (key_eqb k kx); reflexivity.
    + simpl. destruct (IH d Hrecs) as [idx [Hrun Hlook]].
      exists idx. split; [exact Hrun|]. intros k.
      assert (Hk : has_key k x = false) by (unfold has_key; rewrite Eid; reflexivity).
      rewrite Hlook, find_snoc, Hk.
      destruct (find (has_key k) (rev recs)); reflexivity.
Qed.

(** C3 (as amended).  The index loop pairs the items array in twos: it
    inspects exactly the elements at the odd indices [2k+1] and never the
    ones at the even indices; a structured record with an [id] is inserted
    under that id and any other element is skipped.  When every inspected
    [id] is hashable (null, a boolean, a number or a string) the build
    raises nothing and each key finds the last record inserted under it;
    an empty or absent items array gives the empty index. *)
Theorem build_items_by_id_pairs (l : list json)
    (Hhash : forallb id_hashable (odds l) = true) :
  (forall k, nth_error (odds l) k = nth_error l (2 * k + 1)) /\
  build_items_by_id (JArr l) = for_each insert_record (odds l) [] /\
  (exists idx,
      build_items_by_id (JArr l) = Ok idx /\
      forall k, dict_lookup k idx = last_record k (odds l)) /\
  build_items_by_id (JArr []) = Ok [] /\
  (forall m, obj_lookup "items" m = None ->
             (items <- py_get (JObj m) "items" (JArr []) ;;
              build_items_by_id items) = Ok []).
Proof.
  split; [intros k; apply nth_error_odds|].
  split; [apply build_items_by_id_odds|].
  split; [|split; [reflexivity|]].
  - destruct (insert_records_lookup (odds l) [] Hhash) as [idx [Hrun Hlook]].
    exists idx. rewrite build_items_by_id_odds. split; [exact Hrun|].
    intros k. rewrite Hlook. simpl. destruct (last_record k (odds l)); reflexivity.
  - intros m Hm. simpl. rewrite Hm. reflexivity.
Qed.

Lemma build_items_by_id_pairs_witness :
  exists idx,
    build_items_by_id (JArr Sample.work_items) = Ok idx /\
    forall k, dict_lookup k idx = last_record k (odds Sample.work_items).
Proof.
  exact (proj1 (proj2 (proj2
           (build_items_by_id_pairs Sample.work_items eq_refl)))).
Defined.

(** Evaluation behind C3: a record whose [id] is an array is not inserted,
    the build raises. *)
Lemma build_items_by_id_array_id :
  build_items_by_id (JArr Sample.array_id_items) = Raise TypeError.
Proof. reflexivity. Qed.

End ItemIndex.

(** ** The writer *)

Section Writer.

Variable py_repr : json -> string.

Lemma writer_eq (w1 w2 : writer) :
  html_lines w1 = html_lines w2 ->
  total_folders w1 = total_folders w2 ->
  total_bookmarks w1 = total_bookmarks w2 ->
  w1 = w2.
Proof. destruct w1, w2; simpl; intros; subst; reflexivity. Qed.

Lemma extend_nothing (w : writer) : extend w [] 0 0 = w.
Proof. apply writer_eq; simpl; [apply app_nil_r | lia | lia]. Qed.

Lemma extend_extend (w : writer) l1 f1 b1 l2 f2 b2 :
  extend (extend w l1 f1 b1) l2 f2 b2 = extend w (l1 ++ l2) (f1 + f2) (b1 + b2).
Proof. apply writer_eq; simpl; [symmetry; apply app_assoc | lia | lia]. Qed.

Lemma emit_extend (line : string) (w : writer) : emit line w = extend w [line] 0 0.
Proof. apply writer_eq; simpl; [reflexivity | lia | lia]. Qed.

Lemma write_tabs_extend (indent : string) (tabs : list bookmark) :
  forall w,
    fold_left (fun w tab => count_bookmark (emit (anchor py_repr indent tab) w)) tabs w
    = extend w (map (anchor py_repr indent) tabs) 0 (List.length tabs).
Proof.
  induction tabs as [|t tabs IH]; intros w; simpl.
  - symmetry. apply extend_nothing.
  - rewrite IH. apply writer_eq; simpl; [|lia|lia].
    rewrite <- app_assoc. reflexivity.
Qed.

Lemma write_folder_extend (w : writer) (f : flat_folder) :
  write_folder py_repr w f
  = extend w (render_folder py_repr f) 1 (List.length (ff_tabs f)).
Proof.
  unfold write_folder, render_folder. rewrite write_tabs_extend.
  apply writer_eq; simpl; [|lia|lia].
  rewrite <- !app_assoc. reflexivity.
Qed.

Lemma write_folders_extend (fs : list flat_folder) :
  forall w,
    fold_left (write_folder py_repr) fs w
    = extend w (flat_map (render_folder py_repr) fs) (List.length fs)
        (List.length (flat_map ff_tabs fs)).
Proof.
  induction fs as [|f fs IH]; intros w.
  - symmetry. apply extend_nothing.
  - cbn [fold_left flat_map]. rewrite IH, write_folder_extend, extend_extend.
    rewrite length_app. reflexivity.
Qed.

Lemma write_standalone_extend (tabs : list bookmark) (w : writer) :
  fold_left (write_standalone py_repr) tabs w
  = extend w (map (anchor py_repr "        ") tabs) 0 (List.length tabs).
Proof. apply write_tabs_extend. Qed.

(** A turn of the loop over the spaces appends the block of the space, if
    it has one, and changes nothing else. *)
Lemma space_block_content (fuel : nat) (idx : pydict) (w : writer) (sp : space_info) :
  space_block py_repr fuel idx w sp =
  (b <- space_content fuel idx sp ;;
   Ok (match b with
       | Some b => extend w (render_block py_repr b) (List.length (bl_folders b))
                     (List.length (block_entries b))
       | None => w
       end)).
Proof.
  unfold space_block, space_content.
  destruct (top_level_items idx (sp_pinned_container sp)) as [top|e]; simpl; [|reflexivity].
  destruct top as [|t top]; [reflexivity|].
  destruct (for_each (collect_step fuel idx) (t :: top) ([], [])) as [[fs ts]|e];
    simpl; [|reflexivity].
  f_equal. rewrite !emit_extend, write_standalone_extend, write_folders_extend.
  rewrite !extend_extend. unfold render_block, block_entries. simpl.
  rewrite length_app. apply writer_eq; simpl; try lia.
  rewrite <- ?app_assoc. reflexivity.
Qed.

Lemma space_blocks_content (fuel : nat) (idx : pydict) (sps : list space_info) :
  forall w,
    for_each (space_block py_repr fuel idx) sps w =
    (bs <- blocks_of fuel idx sps ;;
     Ok (extend w (flat_map (render_block py_repr) bs)
           (List.length (flat_map bl_folders bs))
           (List.length (flat_map block_entries bs)))).
Proof.
  induction sps as [|sp sps IH]; intros w; cbn [for_each blocks_of bind].
  - f_equal. symmetry. apply extend_nothing.
  - rewrite space_block_content.
    destruct (space_content fuel idx sp) as [[b|]|e]; cbn [bind]; [| |reflexivity].
    + rewrite IH. destruct (blocks_of fuel idx sps) as [bs|e]; cbn [bind]; [|reflexivity].
      f_equal. cbn [flat_map]. rewrite extend_extend, !length_app. reflexivity.
    + rewrite IH. destruct (blocks_of fuel idx sps) as [bs|e]; reflexivity.
Qed.

(** [export_bookmarks] is its plan, rendered: the date enters the third
    line of the text and nothing else. *)
Lemma export_bookmarks_plan (now : string) (fuel : nat) (data : json) :
  export_bookmarks py_repr now fuel data =
  (p <- export_plan fuel data ;; Ok (option_map (render_result py_repr now) p)).
Proof.
  unfold export_bookmarks, export_plan.
  destruct (get_containers data) as [cs|e]; cbn [bind]; [|reflexivity].
  destruct (negb (py_bool cs)); [reflexivity|].
  destruct (py_last cs) as [last|e]; cbn [bind]; [|reflexivity].
  destruct (collect_spaces last) as [sps|e]; cbn [bind]; [|reflexivity].
  destruct sps as [|sp sps]; [reflexivity|].
  destruct (py_get last "items" (JArr [])) as [items|e]; cbn [bind]; [|reflexivity].
  destruct (build_items_by_id items) as [idx|e]; cbn [bind]; [|reflexivity].
  rewrite space_blocks_content.
  destruct (blocks_of fuel idx (sp :: sps)) as [bs|e]; cbn [bind]; [|reflexivity].
  unfold render_result, document_rest, emit, extend.
  cbn [option_map html_lines total_folders total_bookmarks fst snd].
  rewrite <- !app_assoc. reflexivity.
Qed.

End Writer.

(** ** Strings *)





(** ** C10: the export date is the only input besides the document *)

Section ExportDate.

Variable py_repr : json -> string.


(** A run that fails, fails alike at every date. *)
Lemma export_bookmarks_failure_no_date (fuel : nat) (data : json) (now1 now2 : string) :
  (export_bookmarks py_repr now1 fuel data = Ok None ->
   export_bookmarks py_repr now2 fuel data = Ok None) /\
  (forall e, export_bookmarks py_repr now1 fuel data = Raise e ->
             export_bookmarks py_repr now2 fuel data = Raise e).
Proof.
  rewrite !export_bookmarks_plan.
  destruct (export_plan fuel data) as [[p|]|e]; cbn [bind option_map];
    split; intros; try discriminate; auto.
Qed.


End ExportDate.


(** ** C1, C2, C9: spaces, counters and failures *)

Section Spaces.

Variable py_repr : json -> string.

Lemma blocks_of_length (fuel : nat) (idx : pydict) (sps : list space_info) :
  forall bs, blocks_of fuel idx sps = Ok bs -> (List.length bs <= List.length sps)%nat.
Proof.
  induction sps as [|sp sps IH]; intros bs H; cbn [blocks_of] in H.
  - injection H as <-. simpl. lia.
  - apply bind_ok in H. destruct H as [b [_ H]].
    apply bind_ok in H. destruct H as [bs' [Hbs' H]].
    injection H as <-. specialize (IH bs' Hbs').
    destruct b; simpl; lia.
Qed.

Lemma export_bookmarks_some (now : string) (fuel : nat) (data : json)
    (r : export_result) :
  export_bookmarks py_repr now fuel data = Ok (Some r) ->
  exists sps bs,
    export_plan fuel data = Ok (Some (sps, bs)) /\
    r = render_result py_repr now (sps, bs).
Proof.
  rewrite export_bookmarks_plan. intros H.
  apply bind_ok in H. destruct H as [[[sps bs]|] [Hplan H]]; [|discriminate].
  exists sps, bs. split; [exact Hplan|]. simpl in H. congruence.
Qed.

Lemma export_plan_spaces (fuel : nat) (data : json) sps bs :
  export_plan fuel data = Ok (Some (sps, bs)) ->
  exists cs last,
    get_containers data = Ok cs /\ py_bool cs = true /\
    py_last cs = Ok last /\ collect_spaces last = Ok sps /\ sps <> [] /\
    (List.length bs <= List.length sps)%nat.
Proof.
  unfold export_plan. intros H.
  apply bind_ok in H. destruct H as [cs [Hcs H]].
  destruct (py_bool cs) eqn:Hb; [|discriminate]. cbn [negb] in H.
  apply bind_ok in H. destruct H as [last [Hlast H]].
  apply bind_ok in H. destruct H as [sps' [Hsps H]].
  destruct sps' as [|sp sps']; [discriminate|].
  apply bind_ok in H. destruct H as [items [_ H]].
  apply bind_ok in H. destruct H as [idx [_ H]].
  apply bind_ok in H. destruct H as [bs' [Hbs H]].
  injection H as <- <-.
  exists cs, last. repeat split; auto; [discriminate|].
  eapply blocks_of_length; eauto.
Qed.

(** C1 (as amended).  The spaces counter is the number of resolved
    spaces, the titled records of the last container's [spaces] list, and
    the spaces written with content are at most that many; on the
    one-space scenario the export returns the expected text with the
    counts spaces 1, folders 1, bookmarks 3. *)
Theorem spaces_counter_is_resolved_spaces (now : string) (fuel : nat) (data : json)
    (r : export_result)
    (Hrun : export_bookmarks py_repr now fuel data = Ok (Some r)) :
  (exists cs last sps bs,
      get_containers data = Ok cs /\ py_last cs = Ok last /\
      collect_spaces last = Ok sps /\
      export_plan fuel data = Ok (Some (sps, bs)) /\
      spaces r = List.length sps /\
      (List.length bs <= spaces r)%nat) /\
  export_bookmarks py_repr now (S fuel) Sample.work =
    Ok (Some {| html := Sample.work_html now;
                folders := 1; bookmarks := 3; spaces := 1 |}).
Proof.
  split; [|reflexivity].
  destruct (export_bookmarks_some _ _ _ _ Hrun) as [sps [bs [Hplan ->]]].
  destruct (export_plan_spaces _ _ _ _ Hplan) as [cs [last [Hcs [_ [Hlast [Hsps [_ Hlen]]]]]]].
  exists cs, last, sps, bs. repeat split; auto.
Qed.

End Spaces.

Lemma spaces_counter_is_resolved_spaces_witness :
  export_bookmarks (fun _ => EmptyString) "2026" 2 Sample.work =
    Ok (Some {| html := Sample.work_html "2026";
                folders := 1; bookmarks := 3; spaces := 1 |}).
Proof.
  exact (proj2 (spaces_counter_is_resolved_spaces (fun _ => EmptyString) "2026" 1
                  Sample.work _ eq_refl)).
Defined.

(** Evaluation behind C1: the space of [Sample.idle] writes nothing, the
    plan has no block and the text no space heading, and the spaces
    counter is 1. *)
Lemma spaces_counter_counts_idle_space :
  export_bookmarks (fun _ => EmptyString) "2026" 1 Sample.idle =
    Ok (Some {| html := Sample.bare_html "2026";
                folders := 0; bookmarks := 0; spaces := 1 |}) /\
  export_plan 1 Sample.idle =
    Ok (Some ([ {| sp_id := JStr "w"; sp_title := JStr "Work";
                   sp_pinned_container := JStr "pin" |} ], [])).
Proof. split; reflexivity. Qed.

(** C2, evaluated where it fails.  The space of [Sample.orphan] has no
    pinned marker, so its pinned container stays [None]; the tab without a
    [parentID] has the parent [None] too, is taken for a top-level item of
    that space, and is written and counted under the heading of the
    space. *)
Theorem unpinned_space_adopts_parentless_items :
  find_pinned (JArr [JStr "unpinned"; JStr "unp"]) = Ok JNull /\
  export_bookmarks (fun _ => EmptyString) "2026" 1 Sample.orphan =
    Ok (Some {| html := Sample.orphan_html "2026";
                folders := 0; bookmarks := 1; spaces := 1 |}).
Proof. split; reflexivity. Qed.

(** What does hold of a space without the pinned marker. *)

Lemma for_each_unchanged {A St : Type} (body : St -> A -> outcome St) (l : list A)
    (s : St) :
  (forall x, In x l -> body s x = Ok s) -> for_each body l s = Ok s.
Proof.
  induction l as [|x l IH]; intros Hb; simpl; [reflexivity|].
  rewrite (Hb x (or_introl eq_refl)). simpl. apply IH.
  intros y Hy. apply Hb. right. exact Hy.
Qed.

(** Without a ["pinned"] element the pinned container stays [None], and
    nothing is raised. *)
Lemma find_pinned_no_marker (cids : list json) :
  forallb (fun cid => negb (py_eq cid (JStr "pinned"))) cids = true ->
  find_pinned (JArr cids) = Ok JNull.
Proof.
  intros H. unfold find_pinned. cbn [py_iter bind].
  apply for_each_unchanged. intros [i cid] Hin.
  apply in_combine_r in Hin. rewrite forallb_forall in H.
  specialize (H cid Hin). destruct (py_eq cid (JStr "pinned")); [discriminate|].
  reflexivity.
Qed.

(** When every item of the index has a [parentID] other than null, a space
    whose pinned container is [None] has no top-level item: it is omitted,
    and the export goes on. *)
Lemma unpinned_space_is_omitted (fuel : nat) (idx : pydict) (sp : space_info) :
  sp_pinned_container sp = JNull ->
  (forall kv, In kv idx ->
              exists p, py_get (snd kv) "parentID" JNull = Ok p /\
                        py_eq p JNull = false) ->
  space_content fuel idx sp = Ok None.
Proof.
  intros Hsp Hparents. unfold space_content, top_level_items. rewrite Hsp.
  rewrite for_each_unchanged; [reflexivity|].
  intros kv Hin. destruct (Hparents kv Hin) as [p [-> Hp]]. cbn [bind].
  rewrite Hp. reflexivity.
Qed.

(** ** C9: failures *)

Section Failure.

Variable py_repr : json -> string.

Lemma space_step_untitled (sps : list space_info) (e : json) :
  titled_record e = false -> space_step sps e = Ok sps.
Proof.
  unfold titled_record, space_step. destruct e; simpl; try reflexivity.
  intros ->. reflexivity.
Qed.






End Failure.


(** ** Outcomes that are not the exhaustion of the recursion limit *)

Section Settled.

Lemma settled_ok {A : Type} (a : A) : settled (Ok a).
Proof. discriminate. Qed.

Lemma settled_bind {A B : Type} (c : outcome A) (k : A -> outcome B) :
  settled c -> (forall a, settled (k a)) -> settled (bind c k).
Proof.
  destruct c as [a|e]; simpl; auto.
  unfold settled. intros H _ H'. apply H. congruence.
Qed.

Lemma for_each_settled {A St : Type} (body : St -> A -> outcome St) (l : list A) :
  (forall s x, settled (body s x)) -> forall s, settled (for_each body l s).
Proof.
  intros Hb. induction l as [|x l IH]; intros s; simpl.
  - apply settled_ok.
  - apply settled_bind; auto.
Qed.

Lemma py_hash_settled (v : json) : settled (py_hash v).
Proof. destruct v; discriminate. Qed.

Lemma py_in_settled (k : string) (v : json) : settled (py_in k v).
Proof. destruct v; discriminate. Qed.

Lemma py_get_settled (v : json) (k : string) (d : json) : settled (py_get v k d).
Proof. destruct v; discriminate. Qed.

Lemma py_getitem_settled (v : json) (k : string) : settled (py_getitem v k).
Proof. destruct v; simpl; try discriminate. destruct (obj_lookup k m); discriminate. Qed.

Lemma py_iter_settled (v : json) : settled (py_iter v).
Proof. destruct v; discriminate. Qed.

Lemma get_item_type_settled (item : json) : settled (get_item_type item).
Proof.
  unfold get_item_type.
  apply settled_bind; [apply py_in_settled|]. intros b.
  destruct (negb b); [apply settled_ok|].
  apply settled_bind; [apply py_getitem_settled|]. intros data.
  apply settled_bind; [apply py_in_settled|]. intros l.
  destruct l; [apply settled_ok|].
  apply settled_bind; [apply py_in_settled|]. intros t.
  destruct t; apply settled_ok.
Qed.

Lemma children_ids_settled (item : json) : settled (children_ids item).
Proof.
  unfold children_ids.
  apply settled_bind; [apply py_get_settled | intros; apply py_iter_settled].
Qed.

Lemma tab_entry_settled (child : json) : settled (tab_entry child).
Proof.
  unfold tab_entry.
  apply settled_bind; [apply py_getitem_settled|]. intros data.
  apply settled_bind; [apply py_getitem_settled|]. intros tab_data.
  apply settled_bind; [apply py_get_settled|]. intros url.
  apply settled_bind; [apply py_get_settled|]. intros own.
  apply settled_bind; [|intros; apply settled_ok].
  destruct (py_bool own); [apply settled_ok|].
  apply settled_bind; [apply py_get_settled | intros; apply settled_ok].
Qed.

Lemma direct_tab_step_settled (idx : pydict) (tabs : list bookmark) (cid : json) :
  settled (direct_tab_step idx tabs cid).
Proof.
  unfold direct_tab_step.
  apply settled_bind; [apply py_hash_settled|]. intros ck.
  destruct (dict_lookup ck idx); [|apply settled_ok].
  apply settled_bind; [apply get_item_type_settled|]. intros [[|]|];
    try apply settled_ok.
  apply settled_bind; [apply tab_entry_settled | intros; apply settled_ok].
Qed.

Lemma get_folder_with_direct_tabs_settled (id : json) (idx : pydict) :
  settled (get_folder_with_direct_tabs id idx).
Proof.
  unfold get_folder_with_direct_tabs.
  apply settled_bind; [apply py_hash_settled|]. intros k.
  destruct (dict_lookup k idx); [|apply settled_ok].
  apply settled_bind; [apply get_item_type_settled|]. intros [[|]|];
    try apply settled_ok.
  apply settled_bind; [apply children_ids_settled|]. intros children.
  apply settled_bind;
    [apply for_each_settled; intros; apply direct_tab_step_settled|].
  intros tabs. apply settled_bind; [apply py_get_settled | intros; apply settled_ok].
Qed.

End Settled.

(** ** Loops over an accumulated list *)

Section Accumulate.

Context {A B : Type}.
Variable body : list B -> A -> outcome (list B).

(** The body only appends: started on a longer list it gives the same
    outcome, on that longer list. *)
Hypothesis body_shift :
  forall acc s x, body (acc ++ s) x = omap (app acc) (body s x).

Lemma for_each_shift (l : list A) :
  forall acc s, for_each body l (acc ++ s) = omap (app acc) (for_each body l s).
Proof.
  induction l as [|x l IH]; intros acc s; simpl; [reflexivity|].
  rewrite body_shift. destruct (body s x) as [s'|e]; simpl; [apply IH | reflexivity].
Qed.

Lemma for_each_concat (l : list A) :
  forall s,
    for_each body l s = (rs <- map_outcome (body []) l ;; Ok (s ++ List.concat rs)).
Proof.
  induction l as [|x l IH]; intros s; simpl.
  - rewrite app_nil_r. reflexivity.
  - rewrite <- (app_nil_r s) at 1. rewrite body_shift.
    destruct (body [] x) as [r|e]; simpl; [|reflexivity].
    rewrite IH. destruct (map_outcome (body []) l) as [rs|e]; simpl; [|reflexivity].
    rewrite app_assoc. reflexivity.
Qed.

End Accumulate.

Lemma map_outcome_Forall2 {A B : Type} (f : A -> outcome B) (l : list A) :
  forall rs, map_outcome f l = Ok rs -> Forall2 (fun x r => f x = Ok r) l rs.
Proof.
  induction l as [|x l IH]; intros rs H; simpl in H.
  - injection H as <-. constructor.
  - apply bind_ok in H. destruct H as [r [Hr H]].
    apply bind_ok in H. destruct H as [rs' [Hrs H]].
    injection H as <-. constructor; auto.
Qed.

Lemma for_each_agree {A St : Type} (body1 body2 : St -> A -> outcome St) (l : list A) :
  (forall s x, settled (body1 s x) -> body2 s x = body1 s x) ->
  forall s, settled (for_each body1 l s) -> for_each body2 l s = for_each body1 l s.
Proof.
  intros Hb. induction l as [|x l IH]; intros s H; simpl in *; [reflexivity|].
  destruct (body1 s x) as [s'|e] eqn:E.
  - rewrite Hb by (rewrite E; apply settled_ok). rewrite E. simpl. apply IH. exact H.
  - rewrite Hb by (rewrite E; exact H). rewrite E. reflexivity.
Qed.

Lemma for_each_raise_inv {A St : Type} (body : St -> A -> outcome St) (l : list A) (e : exn) :
  forall s, for_each body l s = Raise e -> exists x s', In x l /\ body s' x = Raise e.
Proof.
  induction l as [|x l IH]; intros s H; simpl in H; [discriminate|].
  destruct (body s x) as [s'|e'] eqn:E; simpl in H.
  - destruct (IH _ H) as [y [s'' [Hin Hy]]]. exists y, s''. split; [right|]; auto.
  - exists x, s. split; [left; reflexivity | congruence].
Qed.

Lemma for_each_raises {A St : Type} (body : St -> A -> outcome St) (l : list A) (x : A) :
  In x l -> (forall s, exists e, body s x = Raise e) ->
  forall s, exists e, for_each body l s = Raise e.
Proof.
  intros Hin Hx. induction l as [|y l IH]; intros s; [contradiction|].
  simpl. destruct Hin as [-> | Hin].
  - destruct (Hx s) as [e ->]. exists e. reflexivity.
  - destruct (body s y) as [s'|e]; simpl; [apply IH; exact Hin | eauto].
Qed.

Lemma for_each_invariant {A St : Type} (P : St -> Prop) (body : St -> A -> outcome St)
    (l : list A) :
  (forall s x s', In x l -> P s -> body s x = Ok s' -> P s') ->
  forall s s', P s -> for_each body l s = Ok s' -> P s'.
Proof.
  induction l as [|x l IH]; intros Hb s s' Hs H; simpl in H.
  - injection H as <-. exact Hs.
  - apply bind_ok in H. destruct H as [s1 [H1 H]].
    apply IH with (s := s1); auto.
    + intros s0 y s0' Hy. apply Hb. right; exact Hy.
    + apply (Hb s x s1); auto. left; reflexivity.
Qed.

(** ** Paths in the folder graph *)

Section Paths.

Variable R : key -> key -> Prop.

Lemma path_targets (l : list key) :
  forall a, path R a l -> forall x, In x l -> exists y, R y x.
Proof.
  induction l as [|b l IH]; intros a Hp x Hx; [contradiction|].
  destruct Hp as [Hab Hp]. destruct Hx as [<- | Hx]; [eauto | eapply IH; eauto].
Qed.

Lemma path_split (l1 : list key) :
  forall a b l2, path R a (l1 ++ b :: l2) -> path R a (l1 ++ [b]) /\ path R b l2.
Proof.
  induction l1 as [|c l1 IH]; intros a b l2 Hp; simpl in *.
  - destruct Hp as [Hab Hp]. auto.
  - destruct Hp as [Hac Hp]. destruct (IH _ _ _ Hp). auto.
Qed.

Lemma path_clos_trans (l : list key) :
  forall a b, path R a (l ++ [b]) -> clos_trans key R a b.
Proof.
  induction l as [|c l IH]; intros a b Hp; simpl in Hp.
  - apply t_step. tauto.
  - destruct Hp as [Hac Hp]. eapply t_trans; [apply t_step; exact Hac | auto].
Qed.

(** A path longer than the number of nodes it can visit passes twice
    through one of them. *)
Lemma long_path_cycle (nodes : list key) :
  (forall x y, R x y -> In y nodes) ->
  forall a l, path R a l -> (List.length nodes < List.length l)%nat ->
  exists z, clos_trans key R z z.
Proof.
  intros Hnodes a l Hp Hlen.
  assert (Hdup : ~ NoDup l).
  { intros Hnd. assert (Hle : (List.length l <= List.length nodes)%nat); [|lia].
    apply NoDup_incl_length; [exact Hnd|].
    intros x Hx. destruct (path_targets l a Hp x Hx) as [y Hy]. eauto. }
  apply not_NoDup in Hdup.
  - destruct Hdup as [z [l1 [l2 [l3 ->]]]].
    apply path_split in Hp. destruct Hp as [_ Hp].
    apply path_split in Hp. destruct Hp as [Hp _].
    exists z. apply path_clos_trans with (l := l2). exact Hp.
  - intros x y. destruct (key_eq_dec x y); [left | right]; assumption.
Qed.

End Paths.

(** ** The recursion of [get_all_folders_flat] *)

Section Flattening.

Variable idx : pydict.

Lemma flat_unfold (fuel : nat) (id : json) (c : option (list flat_folder)) :
  get_all_folders_flat (S fuel) id idx c =
  (let collected := match c with Some c => c | None => [] end in
   k <- py_hash id ;;
   match dict_lookup k idx with
   | None => Ok collected
   | Some item =>
       ty <- get_item_type item ;;
       match ty with
       | Some Folder =>
           folder <- get_folder_with_direct_tabs id idx ;;
           children <- children_ids item ;;
           for_each (descend idx fuel) children (append_if_tabs folder collected)
       | _ => Ok collected
       end
   end).
Proof. reflexivity. Qed.

Lemma flat_default (fuel : nat) (id : json) :
  get_all_folders_flat fuel id idx None = get_all_folders_flat fuel id idx (Some []).
Proof. destruct fuel; reflexivity. Qed.

Lemma append_if_tabs_app (folder : option flat_folder) (acc : list flat_folder) :
  append_if_tabs folder acc = acc ++ append_if_tabs folder [].
Proof.
  unfold append_if_tabs. destruct folder as [f|]; [|symmetry; apply app_nil_r].
  destruct (ff_tabs f); [symmetry; apply app_nil_r | reflexivity].
Qed.

Lemma omap_app_app {A : Type} (a b : list A) (o : outcome (list A)) :
  omap (app (a ++ b)) o = omap (app a) (omap (app b) o).
Proof. destruct o; simpl; [rewrite app_assoc|]; reflexivity. Qed.

(** The shared list only grows: a call on [collected] returns [collected]
    followed by what the call returns on a fresh list, and raises what that
    call raises. *)
Lemma flat_collected (fuel : nat) :
  forall id acc,
    get_all_folders_flat fuel id idx (Some acc) =
    omap (app acc) (get_all_folders_flat fuel id idx None).
Proof.
  induction fuel as [|fuel IH]; intros id acc; [reflexivity|].
  assert (Hshift : forall acc s x,
             descend idx fuel (acc ++ s) x = omap (app acc) (descend idx fuel s x)).
  { intros a s x. unfold descend, subfolder_step.
    destruct (py_hash x) as [ck|e]; simpl; [|reflexivity].
    destruct (dict_lookup ck idx) as [child|]; [|reflexivity].
    destruct (get_item_type child) as [[[|]|]|e]; simpl; try reflexivity.
    rewrite (IH x (a ++ s)), (IH x s). apply omap_app_app. }
  rewrite !flat_unfold. cbv zeta.
  destruct (py_hash id) as [k|e]; simpl; [|reflexivity].
  destruct (dict_lookup k idx) as [item|]; [|simpl; rewrite app_nil_r; reflexivity].
  destruct (get_item_type item) as [[[|]|]|e]; simpl;
    try (rewrite app_nil_r; reflexivity); try reflexivity.
  destruct (get_folder_with_direct_tabs id idx) as [folder|e]; simpl; [|reflexivity].
  destruct (children_ids item) as [children|e]; simpl; [|reflexivity].
  rewrite (append_if_tabs_app folder acc).
  apply for_each_shift. exact Hshift.
Qed.

Lemma descend_shift (fuel : nat) :
  forall acc s x, descend idx fuel (acc ++ s) x = omap (app acc) (descend idx fuel s x).
Proof.
  intros a s x. unfold descend, subfolder_step.
  destruct (py_hash x) as [ck|e]; simpl; [|reflexivity].
  destruct (dict_lookup ck idx) as [child|]; [|reflexivity].
  destruct (get_item_type child) as [[[|]|]|e]; simpl; try reflexivity.
  rewrite (flat_collected fuel x (a ++ s)), (flat_collected fuel x s).
  apply omap_app_app.
Qed.

(** More recursion depth changes no settled outcome. *)
Lemma flat_more_fuel (fuel : nat) :
  forall id c,
    settled (get_all_folders_flat fuel id idx c) ->
    get_all_folders_flat (S fuel) id idx c = get_all_folders_flat fuel id idx c.
Proof.
  induction fuel as [|fuel IH]; intros id c H.
  - exfalso. apply H. reflexivity.
  - rewrite (flat_unfold (S fuel)). rewrite (flat_unfold fuel) in H |- *.
    cbv zeta in H |- *.
    destruct (py_hash id) as [k|e]; cbn [bind] in H |- *; [|reflexivity].
    destruct (dict_lookup k idx) as [item|]; [|reflexivity].
    destruct (get_item_type item) as [[[|]|]|e]; cbn [bind] in H |- *;
      try reflexivity.
    destruct (get_folder_with_direct_tabs id idx) as [folder|e];
      cbn [bind] in H |- *; [|reflexivity].
    destruct (children_ids item) as [children|e]; cbn [bind] in H |- *;
      [|reflexivity].
    apply for_each_agree; [|exact H].
    intros s x Hx. unfold descend, subfolder_step in Hx |- *.
    destruct (py_hash x) as [ck|e]; cbn [bind] in Hx |- *; [|reflexivity].
    destruct (dict_lookup ck idx) as [child|]; [|reflexivity].
    destruct (get_item_type child) as [[[|]|]|e]; cbn [bind] in Hx |- *;
      try reflexivity.
    apply IH. exact Hx.
Qed.

Lemma flat_fuel_le (n m : nat) (id : json) (c : option (list flat_folder)) :
  (n <= m)%nat ->
  settled (get_all_folders_flat n id idx c) ->
  get_all_folders_flat m id idx c = get_all_folders_flat n id idx c.
Proof.
  intros Hle Hs. induction Hle as [|m Hle IH]; [reflexivity|].
  rewrite flat_more_fuel; [exact IH | rewrite IH; exact Hs].
Qed.

Lemma subfolder_child_of (p c : key) : subfolder idx p c -> child_of idx p c.
Proof.
  intros [item [children [cid [child [Hp [_ [Hch [Hin [Hc _]]]]]]]]].
  exists item, children, cid. auto.
Qed.

Lemma dict_lookup_in (k : key) (d : pydict) (v : json) :
  dict_lookup k d = Some v -> In k (dict_keys d).
Proof.
  induction d as [|[k' v'] d IH]; simpl; [discriminate|].
  destruct (key_eqb k k') eqn:E; [|auto].
  intros _. left. symmetry. apply key_eqb_eq. exact E.
Qed.

(** A call that exhausts the recursion limit has followed a path of
    [fuel] links from folder to subfolder. *)
Lemma flat_exhausted_path (fuel : nat) :
  forall id k c,
    py_hash id = Ok k ->
    get_all_folders_flat fuel id idx c = Raise RecursionError ->
    exists l, List.length l = fuel /\ path (subfolder idx) k l.
Proof.
  induction fuel as [|fuel IH]; intros id k c Hk H.
  - exists []. split; [reflexivity | exact I].
  - rewrite flat_unfold in H. cbv zeta in H. rewrite Hk in H. cbn [bind] in H.
    destruct (dict_lookup k idx) as [item|] eqn:Eitem; [|discriminate].
    destruct (get_item_type item) as [[[|]|]|e] eqn:Ety; simpl in H;
      try discriminate;
      [|exfalso; apply (get_item_type_settled item); congruence].
    destruct (get_folder_with_direct_tabs id idx) as [folder|e] eqn:Ef; simpl in H;
      [|exfalso; apply (get_folder_with_direct_tabs_settled id idx); congruence].
    destruct (children_ids item) as [children|e] eqn:Ech; simpl in H;
      [|exfalso; apply (children_ids_settled item); congruence].
    apply for_each_raise_inv in H. destruct H as [cid [s [Hin H]]].
    unfold descend, subfolder_step in H.
    destruct (py_hash cid) as [ck|e] eqn:Eck; simpl in H;
      [|exfalso; apply (py_hash_settled cid); congruence].
    destruct (dict_lookup ck idx) as [child|] eqn:Echild; [|discriminate].
    destruct (get_item_type child) as [[[|]|]|e] eqn:Ecty; simpl in H;
      try discriminate;
      [|exfalso; apply (get_item_type_settled child); congruence].
    destruct (IH cid ck (Some s) Eck H) as [l [Hlen Hpath]].
    exists (ck :: l). split; [simpl; congruence|].
    split; [|exact Hpath].
    exists item, children, cid, child. repeat split; assumption.
Qed.

Lemma clos_trans_incl (R1 R2 : key -> key -> Prop) :
  (forall x y, R1 x y -> R2 x y) ->
  forall x y, clos_trans key R1 x y -> clos_trans key R2 x y.
Proof.
  intros H x y Hxy. induction Hxy; [apply t_step; auto | eapply t_trans; eauto].
Qed.

(** On an acyclic index, a recursion limit above the size of the index
    is never exhausted. *)
Lemma flat_settled (fuel : nat) (id : json) (c : option (list flat_folder)) :
  acyclic idx -> (List.length idx < fuel)%nat ->
  settled (get_all_folders_flat fuel id idx c).
Proof.
  intros Hacyc Hlt H.
  destruct (py_hash id) as [k|e] eqn:Ek.
  - destruct (flat_exhausted_path fuel id k c Ek H) as [l [Hlen Hpath]].
    destruct (long_path_cycle (subfolder idx) (dict_keys idx)) with (a := k) (l := l)
      as [z Hz]; auto.
    + intros x y [item [children [cid [child [_ [_ [_ [_ [_ [Hy _]]]]]]]]]].
      eapply dict_lookup_in; eauto.
    + unfold dict_keys. rewrite length_map. lia.
    + apply (Hacyc z). eapply clos_trans_incl; [|exact Hz].
      apply subfolder_child_of.
  - destruct fuel as [|fuel]; [lia|].
    rewrite flat_unfold in H. cbv zeta in H. rewrite Ek in H. simpl in H.
    apply (py_hash_settled id). congruence.
Qed.

(** On a cycle of folders every call ends in an exception, whatever the
    recursion limit. *)
Lemma flat_cycle_raises (fuel : nat) :
  forall id k c,
    py_hash id = Ok k -> clos_trans key (subfolder idx) k k ->
    exists e, get_all_folders_flat fuel id idx c = Raise e.
Proof.
  induction fuel as [|fuel IH]; intros id k c Hk Hcyc; [eexists; reflexivity|].
  assert (Hnext : exists k', subfolder idx k k' /\ clos_trans key (subfolder idx) k' k').
  { apply clos_trans_t1n in Hcyc. inversion Hcyc as [? Hkk | y ? Hky Hyk]; subst.
    - exists k. split; [exact Hkk | apply t_step; exact Hkk].
    - exists y. split; [exact Hky|].
      apply clos_t1n_trans in Hyk.
      eapply t_trans; [exact Hyk | apply t_step; exact Hky]. }
  destruct Hnext as [k' [Hstep Hcyc']].
  destruct Hstep as [item [children [cid [child [Hp [Hty [Hch [Hin [Hc [Hchild Hcty]]]]]]]]]].
  rewrite flat_unfold. cbv zeta. rewrite Hk. cbn [bind]. rewrite Hp, Hty. cbn [bind].
  destruct (get_folder_with_direct_tabs id idx) as [folder|e]; cbn [bind];
    [|eexists; reflexivity].
  rewrite Hch. cbn [bind].
  apply for_each_raises with (x := cid); [exact Hin|].
  intros s. unfold descend, subfolder_step. rewrite Hc. cbn [bind].
  rewrite Hchild, Hcty. cbn [bind]. apply (IH cid k' (Some s) Hc Hcyc').
Qed.

End Flattening.

(** ** C8: termination *)

Section Termination.

Lemma dict_lookup_In (k : key) (d : pydict) (v : json) :
  dict_lookup k d = Some v -> In (k, v) d.
Proof.
  induction d as [|[k' v'] d IH]; simpl; [discriminate|].
  destruct (key_eqb k k') eqn:E; [|auto].
  intros H. injection H as <-. apply key_eqb_eq in E. subst k'. left. reflexivity.
Qed.

Lemma ranked_child (rank : key -> nat) (idx : pydict) :
  ranked rank idx = true ->
  forall p c, child_of idx p c -> (rank c < rank p)%nat.
Proof.
  intros Hr p c [item [children [cid [Hp [Hch [Hin Hc]]]]]].
  unfold ranked in Hr. rewrite forallb_forall in Hr.
  specialize (Hr (p, item) (dict_lookup_In _ _ _ Hp)). simpl in Hr.
  rewrite Hch in Hr. rewrite forallb_forall in Hr.
  specialize (Hr cid Hin). rewrite Hc in Hr. apply Nat.ltb_lt. exact Hr.
Qed.

(** An index that has a rank is acyclic. *)
Lemma ranked_acyclic (rank : key -> nat) (idx : pydict) :
  ranked rank idx = true -> acyclic idx.
Proof.
  intros Hr k Hk.
  assert (H : forall x y, clos_trans key (child_of idx) x y -> (rank y < rank x)%nat).
  { intros x y Hxy. induction Hxy as [x y Hxy | x y z _ IH1 _ IH2].
    - apply (ranked_child rank idx Hr). exact Hxy.
    - lia. }
  specialize (H k k Hk). lia.
Qed.

Lemma py_hash_json_of_key (k : key) : py_hash (json_of_key k) = Ok k.
Proof. destruct k; reflexivity. Qed.

(** C8.  On an index whose [childrenIds] relation is acyclic the
    flattening terminates: a recursion limit above the number of items is
    never exhausted, and every such limit gives the same outcome.  Cycles
    are not guarded against: from a folder that lies on a cycle of
    folders no recursion limit is enough, every call ends in an
    exception. *)
Theorem flattening_terminates (idx : pydict) (Hacyclic : acyclic idx)
    (id : json) (collected : option (list flat_folder))
    (fuel : nat) (Hfuel : (List.length idx < fuel)%nat) :
  settled (get_all_folders_flat fuel id idx collected) /\
  get_all_folders_flat fuel id idx collected =
    get_all_folders_flat (S (List.length idx)) id idx collected /\
  (forall idx' k,
      clos_trans key (subfolder idx') k k ->
      forall fuel' collected',
      exists e, get_all_folders_flat fuel' (json_of_key k) idx' collected' = Raise e).
Proof.
  split; [apply flat_settled; assumption|].
  split.
  - apply flat_fuel_le; [lia|]. apply flat_settled; [assumption | lia].
  - intros idx' k Hcyc fuel' c'.
    apply flat_cycle_raises with (k := k); [apply py_hash_json_of_key | exact Hcyc].
Qed.

Lemma nested_index_acyclic : acyclic Sample.nested_index.
Proof. apply (ranked_acyclic Sample.nested_rank). reflexivity. Qed.

Lemma flattening_terminates_witness :
  settled (get_all_folders_flat 9 (JStr "top") Sample.nested_index None).
Proof.
  refine (proj1 (flattening_terminates Sample.nested_index
                   nested_index_acyclic (JStr "top") None 9 _)).
  vm_compute. lia.
Defined.

(** The folder that is its own child exhausts every recursion limit. *)
Lemma flat_self_loop (fuel : nat) :
  get_all_folders_flat fuel (JStr "f") Sample.loop_index None = Raise RecursionError.
Proof.
  induction fuel as [|fuel IH]; [reflexivity|].
  assert (H : get_all_folders_flat (S fuel) (JStr "f") Sample.loop_index None =
              (s <- get_all_folders_flat fuel (JStr "f") Sample.loop_index (Some []) ;;
               Ok s)) by reflexivity.
  rewrite H, <- flat_default, IH. reflexivity.
Qed.

End Termination.

(** ** C5: no entry without a URL *)

Section KeptEntries.

Lemma kept_nonempty (b : bookmark) :
  kept b -> bm_url b <> JStr EmptyString /\ bm_url b <> JNull.
Proof.
  unfold kept. intros H. split; intros E; rewrite E in H; discriminate.
Qed.

Lemma tab_entry_kept (child : json) (b : bookmark) :
  tab_entry child = Ok (Some b) -> kept b.
Proof.
  unfold tab_entry. intros H.
  apply bind_ok in H. destruct H as [data [_ H]].
  apply bind_ok in H. destruct H as [tab_data [_ H]].
  apply bind_ok in H. destruct H as [url [_ H]].
  apply bind_ok in H. destruct H as [own [_ H]].
  apply bind_ok in H. destruct H as [title [_ H]].
  destruct (py_bool url) eqn:Hurl; [|discriminate].
  injection H as <-. exact Hurl.
Qed.

(** A tab whose [savedURL] is absent or the empty string gives no entry. *)
Lemma tab_entry_without_url (m d t : list (string * json)) :
  obj_lookup "data" m = Some (JObj d) ->
  obj_lookup "tab" d = Some (JObj t) ->
  obj_lookup "savedURL" t = None \/
  obj_lookup "savedURL" t = Some (JStr EmptyString) ->
  tab_entry (JObj m) = Ok None.
Proof.
  intros Hd Ht Hurl. unfold tab_entry, py_getitem, py_get.
  rewrite Hd. cbn [bind]. rewrite Ht. cbn [bind].
  destruct Hurl as [-> | ->]; cbn [py_bool String.eqb negb];
    destruct (obj_lookup "title" m) as [own|]; cbn [py_bool bind];
    try destruct (py_bool own); reflexivity.
Qed.

Lemma direct_tabs_kept (idx : pydict) (children : list json) :
  forall tabs tabs',
    Forall kept tabs ->
    for_each (direct_tab_step idx) children tabs = Ok tabs' ->
    Forall kept tabs'.
Proof.
  intros tabs tabs'. apply for_each_invariant.
  intros s cid s' _ Hs H. unfold direct_tab_step in H.
  apply bind_ok in H. destruct H as [ck [_ H]].
  destruct (dict_lookup ck idx) as [child|]; [|injection H as <-; exact Hs].
  apply bind_ok in H. destruct H as [cty [_ H]].
  destruct cty as [[|]|]; try (injection H as <-; exact Hs).
  apply bind_ok in H. destruct H as [e [He H]]. injection H as <-.
  destruct e as [b|]; [|exact Hs].
  apply Forall_app. split; [exact Hs|]. constructor; [|constructor].
  eapply tab_entry_kept; eauto.
Qed.

Lemma get_folder_with_direct_tabs_inv (id : json) (idx : pydict) (k : key)
    (f : flat_folder) :
  py_hash id = Ok k ->
  get_folder_with_direct_tabs id idx = Ok (Some f) ->
  exists item children,
    dict_lookup k idx = Some item /\ get_item_type item = Ok (Some Folder) /\
    children_ids item = Ok children /\
    for_each (direct_tab_step idx) children [] = Ok (ff_tabs f).
Proof.
  intros Hk H. unfold get_folder_with_direct_tabs in H. rewrite Hk in H.
  cbn [bind] in H.
  destruct (dict_lookup k idx) as [item|]; [|discriminate].
  apply bind_ok in H. destruct H as [ty [Hty H]].
  destruct ty as [[|]|]; try discriminate.
  apply bind_ok in H. destruct H as [children [Hch H]].
  apply bind_ok in H. destruct H as [tabs [Htabs H]].
  apply bind_ok in H. destruct H as [t [_ H]].
  injection H as <-. exists item, children. auto.
Qed.

Lemma get_folder_with_direct_tabs_kept (id : json) (idx : pydict) (f : flat_folder) :
  get_folder_with_direct_tabs id idx = Ok (Some f) -> Forall kept (ff_tabs f).
Proof.
  intros H. destruct (py_hash id) as [k|e] eqn:Hk.
  - destruct (get_folder_with_direct_tabs_inv id idx k f Hk H)
      as [item [children [_ [_ [_ Htabs]]]]].
    eapply direct_tabs_kept; [|exact Htabs]. constructor.
  - unfold get_folder_with_direct_tabs in H. rewrite Hk in H. discriminate.
Qed.

(** What holds of every folder with tabs that
    [get_folder_with_direct_tabs] returns holds of every folder in the
    flattened list. *)
Lemma flat_invariant (idx : pydict) (P : flat_folder -> Prop) :
  (forall id f, get_folder_with_direct_tabs id idx = Ok (Some f) ->
                ff_tabs f <> [] -> P f) ->
  forall fuel id acc res,
    Forall P acc ->
    get_all_folders_flat fuel id idx (Some acc) = Ok res ->
    Forall P res.
Proof.
  intros HP. induction fuel as [|fuel IH]; intros id acc res Hacc H; [discriminate|].
  rewrite flat_unfold in H. cbv zeta in H.
  apply bind_ok in H. destruct H as [k [_ H]].
  destruct (dict_lookup k idx) as [item|]; [|injection H as <-; exact Hacc].
  apply bind_ok in H. destruct H as [ty [_ H]].
  destruct ty as [[|]|]; try (injection H as <-; exact Hacc).
  apply bind_ok in H. destruct H as [folder [Hfolder H]].
  apply bind_ok in H. destruct H as [children [_ H]].
  revert H. apply for_each_invariant.
  - intros s cid s' _ Hs H. unfold descend, subfolder_step in H.
    apply bind_ok in H. destruct H as [ck [_ H]].
    destruct (dict_lookup ck idx) as [child|]; [|injection H as <-; exact Hs].
    apply bind_ok in H. destruct H as [cty [_ H]].
    destruct cty as [[|]|]; try (injection H as <-; exact Hs).
    eapply IH; eauto.
  - unfold append_if_tabs. destruct folder as [f|]; [|exact Hacc].
    destruct (ff_tabs f) eqn:Etabs; [exact Hacc|].
    apply Forall_app. split; [exact Hacc|]. constructor; [|constructor].
    apply (HP id f Hfolder). rewrite Etabs. discriminate.
Qed.

Lemma flat_kept (idx : pydict) (fuel : nat) (id : json) (res : list flat_folder) :
  get_all_folders_flat fuel id idx None = Ok res ->
  Forall (fun f => Forall kept (ff_tabs f)) res.
Proof.
  rewrite flat_default. apply flat_invariant; [|constructor].
  intros id' f Hf _. eapply get_folder_with_direct_tabs_kept; eauto.
Qed.

Lemma flat_nonempty (idx : pydict) (fuel : nat) (id : json) (res : list flat_folder) :
  get_all_folders_flat fuel id idx None = Ok res ->
  Forall (fun f => ff_tabs f <> []) res.
Proof.
  rewrite flat_default. apply flat_invariant; [|constructor]. auto.
Qed.

Lemma Forall_flat_map {A B : Type} (P : B -> Prop) (f : A -> list B) (l : list A) :
  Forall (fun x => Forall P (f x)) l -> Forall P (flat_map f l).
Proof.
  induction 1 as [|x l Hx _ IH]; simpl; [constructor|].
  apply Forall_app. auto.
Qed.

Lemma collect_step_kept (fuel : nat) (idx : pydict) (top : list key) :
  forall acc acc',
    Forall kept (flat_map ff_tabs (fst acc)) /\ Forall kept (snd acc) ->
    for_each (collect_step fuel idx) top acc = Ok acc' ->
    Forall kept (flat_map ff_tabs (fst acc')) /\ Forall kept (snd acc').
Proof.
  intros acc acc'.
  apply (for_each_invariant
           (fun a => Forall kept (flat_map ff_tabs (fst a)) /\ Forall kept (snd a))).
  intros [fs ts] item_id s' _ [Hfs Hts] H. unfold collect_step in H. simpl in *.
  destruct (dict_lookup item_id idx) as [item|]; [|discriminate].
  apply bind_ok in H. destruct H as [ty [_ H]].
  destruct ty as [[|]|].
  - apply bind_ok in H. destruct H as [folders [Hfl H]]. injection H as <-.
    simpl. split; [|exact Hts].
    rewrite flat_map_app. apply Forall_app. split; [exact Hfs|].
    apply Forall_flat_map. eapply flat_kept; eauto.
  - apply bind_ok in H. destruct H as [e [He H]]. injection H as <-.
    destruct e as [b|]; simpl; [|auto]. split; [exact Hfs|].
    apply Forall_app. split; [exact Hts|]. constructor; [|constructor].
    eapply tab_entry_kept; eauto.
  - injection H as <-. simpl. auto.
Qed.

Lemma blocks_of_kept (fuel : nat) (idx : pydict) (sps : list space_info) :
  forall bs, blocks_of fuel idx sps = Ok bs ->
             Forall kept (flat_map block_entries bs).
Proof.
  induction sps as [|sp sps IH]; intros bs H; cbn [blocks_of] in H.
  - injection H as <-. constructor.
  - apply bind_ok in H. destruct H as [b [Hb H]].
    apply bind_ok in H. destruct H as [bs' [Hbs' H]]. injection H as <-.
    specialize (IH bs' Hbs'). destruct b as [b|]; [|exact IH].
    cbn [flat_map]. apply Forall_app. split; [|exact IH].
    unfold space_content in Hb.
    apply bind_ok in Hb. destruct Hb as [top [_ Hb]].
    destruct top as [|t top]; [discriminate|].
    apply bind_ok in Hb. destruct Hb as [fs [Hfs Hb]]. injection Hb as <-.
    apply collect_step_kept in Hfs; [|simpl; split; constructor].
    unfold block_entries. simpl. apply Forall_app. exact Hfs.
Qed.

Lemma export_plan_kept (fuel : nat) (data : json) sps bs :
  export_plan fuel data = Ok (Some (sps, bs)) ->
  Forall kept (flat_map block_entries bs).
Proof.
  unfold export_plan. intros H.
  apply bind_ok in H. destruct H as [cs [_ H]].
  destruct (negb (py_bool cs)); [discriminate|].
  apply bind_ok in H. destruct H as [last [_ H]].
  apply bind_ok in H. destruct H as [sps' [_ H]].
  destruct sps' as [|sp sps']; [discriminate|].
  apply bind_ok in H. destruct H as [items [_ H]].
  apply bind_ok in H. destruct H as [idx [_ H]].
  apply bind_ok in H. destruct H as [bs' [Hbs H]].
  injection H as _ <-. eapply blocks_of_kept; eauto.
Qed.

(** C5.  A tab whose [savedURL] is absent or the empty string gives no
    entry; every entry that is built has a non-empty URL; so have all the
    entries of a folder returned by [get_folder_with_direct_tabs], of the
    folders of a flattened list, and of the exported document, whose
    anchors and whose bookmark count are those of its entries. *)
Theorem no_entry_without_url (py_repr : json -> string) (now : string) (fuel : nat)
    (data : json) :
  (forall m d t,
      obj_lookup "data" m = Some (JObj d) ->
      obj_lookup "tab" d = Some (JObj t) ->
      obj_lookup "savedURL" t = None \/
      obj_lookup "savedURL" t = Some (JStr EmptyString) ->
      tab_entry (JObj m) = Ok None) /\
  (forall child b,
      tab_entry child = Ok (Some b) ->
      kept b /\ bm_url b <> JStr EmptyString /\ bm_url b <> JNull) /\
  (forall id idx f,
      get_folder_with_direct_tabs id idx = Ok (Some f) -> Forall kept (ff_tabs f)) /\
  (forall id idx res,
      get_all_folders_flat fuel id idx None = Ok res ->
      Forall (fun f => Forall kept (ff_tabs f)) res) /\
  (forall r,
      export_bookmarks py_repr now fuel data = Ok (Some r) ->
      exists sps bs,
        export_plan fuel data = Ok (Some (sps, bs)) /\
        r = render_result py_repr now (sps, bs) /\
        Forall kept (flat_map block_entries bs) /\
        bookmarks r = List.length (flat_map block_entries bs)).
Proof.
  split; [apply tab_entry_without_url|].
  split.
  { intros child b H. apply tab_entry_kept in H.
    split; [exact H | apply kept_nonempty; exact H]. }
  split; [apply get_folder_with_direct_tabs_kept|].
  split; [intros id idx res; apply flat_kept|].
  intros r H. apply export_bookmarks_some in H.
  destruct H as [sps [bs [Hplan ->]]]. exists sps, bs.
  repeat split; auto. eapply export_plan_kept; eauto.
Qed.

End KeptEntries.

(** ** Well-formed indexes raise nothing *)

Section WellFormed.

Variable idx : pydict.
Hypothesis idx_ok : well_formed idx = true.

Lemma well_formed_item (k : key) (item : json) :
  dict_lookup k idx = Some item -> item_ok item = true.
Proof.
  intros H. apply dict_lookup_In in H.
  unfold well_formed in idx_ok. rewrite forallb_forall in idx_ok.
  apply (idx_ok (k, item) H).
Qed.

Lemma item_ok_type (item : json) :
  item_ok item = true -> exists t, get_item_type item = Ok t.
Proof.
  destruct item as [| | | | |m]; simpl; try discriminate.
  intros H. apply andb_true_iff in H. destruct H as [Hp _].
  unfold payload_ok in Hp. pose proof (get_item_type_payload m) as Hc.
  destruct (obj_lookup "data" m) as [[| | | | |d]|]; try discriminate; eauto.
Qed.

Lemma item_ok_children (item : json) :
  item_ok item = true ->
  exists children, children_ids item = Ok children /\ forallb hashable children = true.
Proof.
  destruct item as [| | | | |m]; simpl; try discriminate.
  intros H. apply andb_true_iff in H. destruct H as [_ Hc].
  unfold children_ok in Hc. unfold children_ids, py_get.
  destruct (obj_lookup "childrenIds" m) as [[| | | |cs|]|]; try discriminate.
  - exists cs. auto.
  - exists []. auto.
Qed.

Lemma item_ok_tab_entry (item : json) :
  item_ok item = true -> get_item_type item = Ok (Some Tab) ->
  exists e, tab_entry item = Ok e.
Proof.
  destruct item as [| | | | |m]; simpl; try discriminate.
  intros H Hty. apply andb_true_iff in H. destruct H as [Hp _].
  unfold payload_ok in Hp. pose proof (get_item_type_payload m) as Hc.
  unfold tab_entry, py_getitem.
  destruct (obj_lookup "data" m) as [[| | | | |d]|]; try discriminate;
    [|congruence].
  rewrite Hc in Hty. injection Hty as Hty. rewrite Hty in Hp.
  cbn [bind]. destruct (obj_lookup "tab" d) as [[| | | | |t]|]; try discriminate.
  cbn [bind py_get].
  destruct (py_bool match obj_lookup "title" m with Some x => x | None => JNull end);
    cbn [bind]; eauto.
Qed.

Lemma hashable_hash (v : json) : hashable v = true -> exists k, py_hash v = Ok k.
Proof. destruct v; simpl; try discriminate; eauto. Qed.

Lemma for_each_returns {A St : Type} (body : St -> A -> outcome St) (l : list A) :
  (forall s x, In x l -> exists s', body s x = Ok s') ->
  forall s, exists s', for_each body l s = Ok s'.
Proof.
  induction l as [|x l IH]; intros Hb s; simpl; [eauto|].
  destruct (Hb s x (or_introl eq_refl)) as [s1 ->]. simpl.
  apply IH. intros s0 y Hy. apply Hb. right. exact Hy.
Qed.

Lemma get_folder_with_direct_tabs_returns (id : json) :
  hashable id = true -> exists f, get_folder_with_direct_tabs id idx = Ok f.
Proof.
  intros Hid. destruct (hashable_hash id Hid) as [k Hk].
  unfold get_folder_with_direct_tabs. rewrite Hk. cbn [bind].
  destruct (dict_lookup k idx) as [item|] eqn:Eitem; [|eauto].
  pose proof (well_formed_item k item Eitem) as Hok.
  destruct (item_ok_type item Hok) as [ty ->]. cbn [bind].
  destruct ty as [[|]|]; eauto.
  destruct (item_ok_children item Hok) as [children [-> Hch]]. cbn [bind].
  destruct (for_each_returns (direct_tab_step idx) children) with (s := @nil bookmark)
    as [tabs ->].
  { intros s cid Hin. rewrite forallb_forall in Hch.
    destruct (hashable_hash cid (Hch cid Hin)) as [ck Hck].
    unfold direct_tab_step. rewrite Hck. cbn [bind].
    destruct (dict_lookup ck idx) as [child|] eqn:Echild; [|eauto].
    pose proof (well_formed_item ck child Echild) as Hcok.
    destruct (item_ok_type child Hcok) as [cty Hcty]. rewrite Hcty. cbn [bind].
    destruct cty as [[|]|]; eauto.
    destruct (item_ok_tab_entry child Hcok Hcty) as [e ->]. cbn [bind]. eauto. }
  cbn [bind]. destruct item; try discriminate. cbn [py_get bind]. eauto.
Qed.

Lemma for_each_returns_or_exhausts {A St : Type} (body : St -> A -> outcome St)
    (l : list A) :
  (forall s x, In x l ->
               (exists s', body s x = Ok s') \/ body s x = Raise RecursionError) ->
  forall s, (exists s', for_each body l s = Ok s') \/
            for_each body l s = Raise RecursionError.
Proof.
  induction l as [|x l IH]; intros Hb s; simpl; [eauto|].
  destruct (Hb s x (or_introl eq_refl)) as [[s1 ->] | ->]; simpl; [|auto].
  apply IH. intros s0 y Hy. apply Hb. right. exact Hy.
Qed.

(** On a well-formed index the flattening returns a list or exhausts the
    recursion limit; it raises nothing else. *)
Lemma flat_returns_or_exhausts (fuel : nat) :
  forall id c,
    hashable id = true ->
    (exists res, get_all_folders_flat fuel id idx c = Ok res) \/
    get_all_folders_flat fuel id idx c = Raise RecursionError.
Proof.
  induction fuel as [|fuel IH]; intros id c Hid; [right; reflexivity|].
  rewrite flat_unfold. cbv zeta.
  destruct (hashable_hash id Hid) as [k ->]. cbn [bind].
  destruct (dict_lookup k idx) as [item|] eqn:Eitem; [|eauto].
  pose proof (well_formed_item k item Eitem) as Hok.
  destruct (item_ok_type item Hok) as [ty ->]. cbn [bind].
  destruct ty as [[|]|]; eauto.
  destruct (get_folder_with_direct_tabs_returns id Hid) as [folder ->]. cbn [bind].
  destruct (item_ok_children item Hok) as [children [-> Hch]]. cbn [bind].
  apply for_each_returns_or_exhausts.
  intros s cid Hin. rewrite forallb_forall in Hch. specialize (Hch cid Hin).
  destruct (hashable_hash cid Hch) as [ck Hck].
  unfold descend, subfolder_step. rewrite Hck. cbn [bind].
  destruct (dict_lookup ck idx) as [child|] eqn:Echild; [|eauto].
  destruct (item_ok_type child (well_formed_item ck child Echild)) as [cty ->].
  cbn [bind]. destruct cty as [[|]|]; eauto.
Qed.

(** A well-formed acyclic index is flattened, from any hashable id, as
    soon as the recursion limit exceeds the number of items. *)
Lemma flat_returns (fuel : nat) (id : json) (c : option (list flat_folder)) :
  acyclic idx -> (List.length idx < fuel)%nat -> hashable id = true ->
  exists res, get_all_folders_flat fuel id idx c = Ok res.
Proof.
  intros Hacyc Hfuel Hid.
  destruct (flat_returns_or_exhausts fuel id c Hid) as [H | H]; [exact H|].
  exfalso. exact (flat_settled idx fuel id c Hacyc Hfuel H).
Qed.

End WellFormed.

(** ** C6, C7: what the flattened list holds, and in which order *)

Section FlatOrder.

Variable idx : pydict.

Lemma get_folder_with_direct_tabs_hash (id id' : json) (k : key) :
  py_hash id = Ok k -> py_hash id' = Ok k ->
  get_folder_with_direct_tabs id idx = get_folder_with_direct_tabs id' idx.
Proof.
  intros H H'. unfold get_folder_with_direct_tabs. rewrite H, H'. reflexivity.
Qed.

(** The list returned for a folder is the folder itself, if it has tabs,
    then what the loop returns for each child in turn. *)
Lemma flat_equation (fuel : nat) (id : json) (k : key) (item : json)
    (children : list json) (res : list flat_folder) :
  py_hash id = Ok k -> dict_lookup k idx = Some item ->
  get_item_type item = Ok (Some Folder) -> children_ids item = Ok children ->
  get_all_folders_flat (S fuel) id idx None = Ok res ->
  exists own rs,
    get_folder_with_direct_tabs id idx = Ok own /\
    Forall2 (fun cid r => descend idx fuel [] cid = Ok r) children rs /\
    res = append_if_tabs own [] ++ List.concat rs.
Proof.
  intros Hk Hitem Hty Hch H.
  rewrite flat_unfold in H. cbv zeta in H.
  rewrite Hk in H. cbn [bind] in H. rewrite Hitem, Hty in H. cbn [bind] in H.
  apply bind_ok in H. destruct H as [own [Hown H]].
  rewrite Hch in H. cbn [bind] in H.
  rewrite (for_each_concat _ (descend_shift idx fuel)) in H.
  apply bind_ok in H. destruct H as [rs [Hrs H]]. injection H as <-.
  exists own, rs. split; [exact Hown|]. split; [|reflexivity].
  apply map_outcome_Forall2. exact Hrs.
Qed.

(** The children that contribute are the subfolders, in their order. *)
Lemma descend_subfolders (fuel : nat) (children : list json)
    (rs : list (list flat_folder)) :
  Forall2 (fun cid r => descend idx fuel [] cid = Ok r) children rs ->
  exists subs,
    Forall2 (fun cid r => get_all_folders_flat fuel cid idx None = Ok r)
            (filter (is_subfolder_id idx) children) subs /\
    List.concat rs = List.concat subs.
Proof.
  induction 1 as [|cid r children rs Hr _ [subs [Hsubs Hcat]]].
  - exists []. split; [constructor | reflexivity].
  - unfold descend, subfolder_step in Hr. cbn [filter]. unfold is_subfolder_id at 1.
    destruct (py_hash cid) as [ck|e]; [|discriminate]. cbn [bind] in Hr.
    destruct (dict_lookup ck idx) as [child|].
    + destruct (get_item_type child) as [[[|]|]|e]; cbn [bind] in Hr;
        try discriminate.
      * exists (r :: subs). split.
        -- constructor; [rewrite flat_default; exact Hr | exact Hsubs].
        -- simpl. rewrite Hcat. reflexivity.
      * injection Hr as <-. exists subs. split; [exact Hsubs | exact Hcat].
      * injection Hr as <-. exists subs. split; [exact Hsubs | exact Hcat].
    + injection Hr as <-. exists subs. split; [exact Hsubs | exact Hcat].
Qed.

Lemma Forall2_In_left {A B : Type} (P : A -> B -> Prop) (l : list A) (rs : list B) :
  Forall2 P l rs -> forall x, In x l -> exists r, In r rs /\ P x r.
Proof.
  induction 1 as [|a b l rs Hab _ IH]; intros x Hx; [contradiction|].
  destruct Hx as [<- | Hx].
  - exists b. split; [left; reflexivity | exact Hab].
  - destruct (IH x Hx) as [r [Hr HP]]. exists r. split; [right|]; assumption.
Qed.

(** Every folder reached through subfolder links that has tabs is in the
    list. *)
Lemma flat_lists_reachable (fuel : nat) :
  forall id k res,
    py_hash id = Ok k ->
    get_all_folders_flat fuel id idx None = Ok res ->
    forall f ff,
      clos_refl_trans_1n key (subfolder idx) k f ->
      get_folder_with_direct_tabs (json_of_key f) idx = Ok (Some ff) ->
      ff_tabs ff <> [] ->
      In ff res.
Proof.
  induction fuel as [|fuel IH]; intros id k res Hk Hres f ff Hreach Hff Htabs;
    [discriminate|].
  inversion Hreach as [| c ? Hstep Hrest]; subst.
  - destruct (get_folder_with_direct_tabs_inv _ idx f ff (py_hash_json_of_key f) Hff)
      as [item [children [Hitem [Hty [Hch _]]]]].
    destruct (flat_equation fuel id f item children res Hk Hitem Hty Hch Hres)
      as [own [rs [Hown [_ ->]]]].
    rewrite (get_folder_with_direct_tabs_hash id (json_of_key f) f Hk
               (py_hash_json_of_key f)) in Hown.
    rewrite Hff in Hown. injection Hown as <-.
    apply in_or_app. left. unfold append_if_tabs.
    destruct (ff_tabs ff); [contradiction | left; reflexivity].
  - destruct Hstep as [item [children [cid [child [Hitem [Hty [Hch [Hin [Hc [Hchild Hcty]]]]]]]]]].
    destruct (flat_equation fuel id k item children res Hk Hitem Hty Hch Hres)
      as [own [rs [_ [Hrs ->]]]].
    destruct (Forall2_In_left _ _ _ Hrs cid Hin) as [r [Hr Hcid]].
    unfold descend, subfolder_step in Hcid.
    rewrite Hc in Hcid. cbn [bind] in Hcid. rewrite Hchild, Hcty in Hcid.
    cbn [bind] in Hcid. rewrite <- flat_default in Hcid.
    apply in_or_app. right. apply in_concat. exists r. split; [exact Hr|].
    apply (IH cid c r Hc Hcid f ff Hrest Hff Htabs).
Qed.

End FlatOrder.

Lemma nested_index_well_formed : well_formed Sample.nested_index = true.
Proof. reflexivity. Qed.

(** The nested sample, flattened: Top has no kept tab and is left out;
    One, its subfolder Deep, then Two follow in pre-order. *)
Lemma nested_flattened :
  get_all_folders_flat 9 (JStr "top") Sample.nested_index None = Ok Sample.nested_flat.
Proof. reflexivity. Qed.

(** * Further properties of the code *)

(** ** [escape_html_text] *)

Section Escaping.

Variable py_repr : json -> string.

Lemma string_forall_append (p : ascii -> bool) (a b : string) :
  string_forall p (a ++ b) = string_forall p a && string_forall p b.
Proof.
  induction a as [|c a IH]; simpl; [reflexivity|].
  rewrite IH. apply andb_assoc.
Qed.

Lemma escape_char_safe (c : ascii) :
  string_forall (fun c => negb (is_markup c)) (escape_char c) = true.
Proof.
  unfold escape_char.
  destruct (Ascii.eqb c "&") eqn:E1; [reflexivity|].
  destruct (Ascii.eqb c "<") eqn:E2; [reflexivity|].
  destruct (Ascii.eqb c ">") eqn:E3; [reflexivity|].
  destruct (Ascii.eqb c dquote) eqn:E4; [reflexivity|].
  destruct (Ascii.eqb c "'") eqn:E5; [reflexivity|].
  simpl. unfold is_markup. rewrite E2, E3, E4, E5. reflexivity.
Qed.

Lemma html_escape_safe (s : string) :
  string_forall (fun c => negb (is_markup c)) (html_escape s) = true.
Proof.
  induction s as [|c s IH]; simpl; [reflexivity|].
  rewrite string_forall_append, escape_char_safe, IH. reflexivity.
Qed.

(** Escaped text holds no [<], no [>] and no quote, whatever the value
    escaped: it can neither open a tag nor end the [HREF] attribute. *)
Theorem escape_html_text_no_markup (text : json) :
  string_forall (fun c => negb (is_markup c)) (escape_html_text py_repr text) = true.
Proof.
  unfold escape_html_text. destruct (py_bool text); [|reflexivity].
  apply html_escape_safe.
Qed.

Lemma escape_char_inj (c1 c2 : ascii) (r1 r2 : string) :
  (escape_char c1 ++ r1 = escape_char c2 ++ r2)%string -> c1 = c2 /\ r1 = r2.
Proof.
  unfold escape_char.
  destruct (Ascii.eqb c1 "&") eqn:A1;
    [|destruct (Ascii.eqb c1 "<") eqn:A2;
      [|destruct (Ascii.eqb c1 ">") eqn:A3;
        [|destruct (Ascii.eqb c1 dquote) eqn:A4;
          [|destruct (Ascii.eqb c1 "'") eqn:A5]]]];
  (destruct (Ascii.eqb c2 "&") eqn:B1;
    [|destruct (Ascii.eqb c2 "<") eqn:B2;
      [|destruct (Ascii.eqb c2 ">") eqn:B3;
        [|destruct (Ascii.eqb c2 dquote) eqn:B4;
          [|destruct (Ascii.eqb c2 "'") eqn:B5]]]]);
  simpl; intros H;
  repeat match goal with
         | E : Ascii.eqb _ _ = true |- _ => apply Ascii.eqb_eq in E
         end;
  subst;
  try discriminate H;
  try (injection H as H; subst; split; reflexivity);
  try (injection H as Hc Hr; subst;
       repeat match goal with
              | E : Ascii.eqb ?x ?x = false |- _ =>
                  rewrite Ascii.eqb_refl in E; discriminate E
              end;
       split; reflexivity).
Qed.

Lemma html_escape_inj (a : string) :
  forall b, html_escape a = html_escape b -> a = b.
Proof.
  induction a as [|c a IH]; intros [|c' b] H; simpl in H.
  - reflexivity.
  - exfalso. unfold escape_char in H.
    repeat match type of H with
           | context [if ?x then _ else _] => destruct x
           end; discriminate H.
  - exfalso. unfold escape_char in H.
    repeat match type of H with
           | context [if ?x then _ else _] => destruct x
           end; discriminate H.
  - apply escape_char_inj in H. destruct H as [-> H]. f_equal. auto.
Qed.

(** Escaping loses nothing: two strings with the same escaped text are
    the same string. *)
Theorem escape_html_text_injective (a b : string) :
  escape_html_text py_repr (JStr a) = escape_html_text py_repr (JStr b) -> a = b.
Proof.
  unfold escape_html_text. simpl.
  destruct a as [|c a], b as [|c' b]; simpl; intros H.
  - reflexivity.
  - apply (html_escape_inj EmptyString (String c' b)). exact H.
  - apply (html_escape_inj (String c a) EmptyString). exact H.
  - apply (html_escape_inj (String c a) (String c' b)). exact H.
Qed.

End Escaping.

Lemma escape_html_text_injective_witness : "a<b" = "a<b".
Proof.
  apply (escape_html_text_injective (fun _ => EmptyString) "a<b" "a<b").
  reflexivity.
Defined.

(** ** Folders and their direct tabs *)

Section DirectTabs.

Lemma tab_entry_title (child : json) (b : bookmark) :
  tab_entry child = Ok (Some b) -> py_bool (bm_title b) = true.
Proof.
  unfold tab_entry. intros H.
  apply bind_ok in H. destruct H as [data [_ H]].
  apply bind_ok in H. destruct H as [tab_data [_ H]].
  apply bind_ok in H. destruct H as [url [_ H]].
  apply bind_ok in H. destruct H as [own [_ H]].
  apply bind_ok in H. destruct H as [title [Htitle H]].
  destruct (py_bool url); [|discriminate]. injection H as <-. simpl.
  destruct (py_bool own) eqn:Hown.
  - injection Htitle as <-. exact Hown.
  - apply bind_ok in Htitle. destruct Htitle as [saved [_ Htitle]].
    injection Htitle as <-. unfold py_or.
    destruct (py_bool saved) eqn:Hsaved; [exact Hsaved | reflexivity].
Qed.

Lemma direct_tab_step_shift (idx : pydict) :
  forall acc s x,
    direct_tab_step idx (acc ++ s) x = omap (app acc) (direct_tab_step idx s x).
Proof.
  intros acc s x. unfold direct_tab_step.
  destruct (py_hash x) as [ck|e]; simpl; [|reflexivity].
  destruct (dict_lookup ck idx) as [child|]; [|reflexivity].
  destruct (get_item_type child) as [[[|]|]|e]; simpl; try reflexivity.
  destruct (tab_entry child) as [[b|]|e]; simpl; try reflexivity.
  rewrite app_assoc. reflexivity.
Qed.

Lemma Forall2_concat_flat_map {A B : Type} (f : A -> outcome (list B))
    (l : list A) (rs : list (list B)) :
  Forall2 (fun x r => f x = Ok r) l rs ->
  List.concat rs = flat_map (fun x => match f x with Ok r => r | Raise _ => [] end) l.
Proof.
  induction 1 as [|x r l rs Hx _ IH]; simpl; [reflexivity|].
  rewrite Hx, IH. reflexivity.
Qed.

Lemma direct_entry_child (idx : pydict) (cid : json) (b : bookmark) :
  In b (direct_entry idx cid) ->
  direct_entry idx cid = [b] /\
  exists ck child,
    py_hash cid = Ok ck /\ dict_lookup ck idx = Some child /\
    get_item_type child = Ok (Some Tab) /\ tab_entry child = Ok (Some b).
Proof.
  unfold direct_entry, direct_tab_step.
  destruct (py_hash cid) as [ck|e] eqn:Eck; simpl; [|contradiction].
  destruct (dict_lookup ck idx) as [child|] eqn:Echild; [|contradiction].
  destruct (get_item_type child) as [[[|]|]|e] eqn:Ety; simpl; try contradiction.
  destruct (tab_entry child) as [[b'|]|e] eqn:Eentry; simpl; try contradiction.
  intros [<- | []]. split; [reflexivity|]. exists ck, child. auto.
Qed.

Lemma length_direct_entry (idx : pydict) (cid : json) :
  (List.length (direct_entry idx cid) <= 1)%nat.
Proof.
  destruct (direct_entry idx cid) as [|b r] eqn:E; [simpl; lia|].
  destruct (direct_entry_child idx cid b) as [H _]; [rewrite E; left; reflexivity|].
  rewrite E in H. injection H as ->. simpl. lia.
Qed.

Lemma length_flat_map_le {A B : Type} (f : A -> list B) (l : list A) :
  (forall x, List.length (f x) <= 1)%nat ->
  (List.length (flat_map f l) <= List.length l)%nat.
Proof.
  intros Hf. induction l as [|x l IH]; simpl; [lia|].
  rewrite length_app. specialize (Hf x). lia.
Qed.

(** A flattened folder carries its own direct tabs and nothing else: its
    entries are, in the order of [childrenIds], those of the children that
    are in the index, classify as tab and have a URL; children that are
    unknown ids, folders or tabs without URL contribute nothing, and no
    entry comes from a subfolder. *)
Theorem folder_tabs_are_direct_children (id : json) (idx : pydict) (k : key)
    (f : flat_folder)
    (Hid : py_hash id = Ok k)
    (Hf : get_folder_with_direct_tabs id idx = Ok (Some f)) :
  exists item children,
    dict_lookup k idx = Some item /\ children_ids item = Ok children /\
    ff_tabs f = flat_map (direct_entry idx) children /\
    (List.length (ff_tabs f) <= List.length children)%nat /\
    forall b, In b (ff_tabs f) ->
      exists cid ck child,
        In cid children /\ py_hash cid = Ok ck /\
        dict_lookup ck idx = Some child /\
        get_item_type child = Ok (Some Tab) /\ tab_entry child = Ok (Some b).
Proof.
  destruct (get_folder_with_direct_tabs_inv id idx k f Hid Hf)
    as [item [children [Hitem [_ [Hch Htabs]]]]].
  exists item, children. split; [exact Hitem|]. split; [exact Hch|].
  rewrite (for_each_concat _ (direct_tab_step_shift idx)) in Htabs.
  apply bind_ok in Htabs. destruct Htabs as [rs [Hrs Htabs]].
  injection Htabs as Htabs. simpl in Htabs.
  apply map_outcome_Forall2 in Hrs. apply Forall2_concat_flat_map in Hrs.
  assert (Heq : ff_tabs f = flat_map (direct_entry idx) children)
    by (rewrite <- Htabs, Hrs; reflexivity).
  split; [exact Heq|]. split.
  - rewrite Heq. apply length_flat_map_le. apply length_direct_entry.
  - intros b Hb. rewrite Heq in Hb. apply in_flat_map in Hb.
    destruct Hb as [cid [Hcid Hb]].
    destruct (direct_entry_child idx cid b Hb) as [_ [ck [child H]]].
    exists cid, ck, child. tauto.
Qed.

Lemma folder_tabs_are_direct_children_witness :
  exists item children,
    dict_lookup (KStr "one") Sample.nested_index = Some item /\
    children_ids item = Ok children /\
    [Sample.entry "A" "http://a"] = flat_map (direct_entry Sample.nested_index) children.
Proof.
  destruct (folder_tabs_are_direct_children (JStr "one") Sample.nested_index
              (KStr "one")
              {| ff_title := JStr "One"; ff_tabs := [Sample.entry "A" "http://a"] |}
              eq_refl eq_refl) as [item [children [H1 [H2 [H3 _]]]]].
  exists item, children. auto.
Defined.

(** An id that is not in the index, or that names a tab or an item of
    unknown type, is not flattened: [get_folder_with_direct_tabs] returns
    [None], and [get_all_folders_flat] returns the shared list as it
    received it, without looking at the [childrenIds] of the item. *)
Theorem flatten_ignores_non_folders (fuel : nat) (id : json) (idx : pydict) (k : key)
    (collected : option (list flat_folder))
    (Hid : py_hash id = Ok k)
    (Hitem : match dict_lookup k idx with
             | None => True
             | Some item => get_item_type item = Ok (Some Tab) \/
                            get_item_type item = Ok None
             end) :
  get_folder_with_direct_tabs id idx = Ok None /\
  get_all_folders_flat (S fuel) id idx collected =
    Ok (match collected with Some c => c | None => [] end).
Proof.
  rewrite flat_unfold. cbv zeta. unfold get_folder_with_direct_tabs.
  rewrite Hid. cbn [bind].
  destruct (dict_lookup k idx) as [item|]; [|split; reflexivity].
  destruct Hitem as [-> | ->]; split; reflexivity.
Qed.

Lemma flatten_ignores_non_folders_witness :
  get_folder_with_direct_tabs (JStr "a") Sample.nested_index = Ok None /\
  get_all_folders_flat 1 (JStr "a") Sample.nested_index None = Ok [].
Proof.
  apply (flatten_ignores_non_folders 0 (JStr "a") Sample.nested_index (KStr "a") None
           eq_refl).
  left. reflexivity.
Defined.

(** The list that the recursive calls share only grows: a call that
    receives [collected] returns [collected] followed by exactly what a
    call on a fresh list returns, and raises what that call raises. *)
Theorem flat_extends_collected (fuel : nat) (id : json) (idx : pydict)
    (collected : list flat_folder) :
  get_all_folders_flat fuel id idx (Some collected) =
  omap (app collected) (get_all_folders_flat fuel id idx None).
Proof. apply flat_collected. Qed.

(** A result obtained under one recursion limit is the result under every
    larger limit. *)
Theorem flat_result_stable (n m : nat) (id : json) (idx : pydict)
    (collected : option (list flat_folder)) (res : list flat_folder)
    (Hle : (n <= m)%nat)
    (Hres : get_all_folders_flat n id idx collected = Ok res) :
  get_all_folders_flat m id idx collected = Ok res.
Proof.
  rewrite (flat_fuel_le idx n m id collected Hle); [exact Hres|].
  rewrite Hres. apply settled_ok.
Qed.

Lemma flat_result_stable_witness :
  get_all_folders_flat 9 (JStr "top") Sample.nested_index None = Ok Sample.nested_flat.
Proof.
  apply (flat_result_stable 3 9 (JStr "top") Sample.nested_index None Sample.nested_flat).
  - lia.
  - reflexivity.
Defined.

End DirectTabs.

(** ** Folder records: the code against the specification's words *)

Section FolderRecords.

Variable idx : pydict.

Lemma tab_payload_not_tab (child : json) :
  get_item_type child = Ok (Some Folder) \/ get_item_type child = Ok None ->
  tab_payload child = None.
Proof.
  destruct child as [| | | | |m]; try reflexivity.
  intros H. pose proof (get_item_type_payload m) as Hc. unfold tab_payload.
  destruct (obj_lookup "data" m) as [[| | | | |d]|]; try reflexivity.
  unfold classify_payload in Hc. unfold obj_mem in Hc |- *.
  destruct (obj_lookup "list" d); [reflexivity|].
  destruct (obj_lookup "tab" d); [|reflexivity].
  destruct H as [H | H]; rewrite H in Hc; discriminate.
Qed.

(** The entry the code builds from a tab is the entry of the
    specification. *)
Lemma tab_entry_kept_entry (child : json) (e : option bookmark) :
  get_item_type child = Ok (Some Tab) -> tab_entry child = Ok e ->
  e = kept_entry child.
Proof.
  intros Hty He. destruct child as [| | | |l|m].
  - discriminate.
  - discriminate.
  - discriminate.
  - unfold get_item_type in Hty. simpl in Hty.
    destruct (py_substring "data" s); discriminate.
  - unfold get_item_type in Hty. simpl in Hty.
    destruct (existsb _ l); discriminate.
  - pose proof (get_item_type_payload m) as Hc.
    unfold tab_entry, py_getitem in He. unfold kept_entry, tab_payload.
    destruct (obj_lookup "data" m) as [data|]; [|discriminate].
    cbn [bind] in He.
    destruct data as [| | | | |d]; try discriminate.
    rewrite Hc in Hty. injection Hty as Hty. unfold classify_payload in Hty.
    destruct (obj_mem "list" d); [discriminate|].
    destruct (obj_lookup "tab" d) as [td|]; [|discriminate].
    cbn [bind] in He. destruct td as [| | | | |t]; try discriminate.
    cbn [py_get bind] in He. unfold entry_title, lookup_or.
    destruct (py_bool match obj_lookup "title" m with Some x => x | None => JNull end);
      cbn [bind] in He; unfold py_or in He;
      injection He as <-; reflexivity.
Qed.

Lemma direct_tab_step_entries (cid : json) (r : list bookmark) :
  direct_tab_step idx [] cid = Ok r -> r = entries_of idx cid.
Proof.
  unfold direct_tab_step, entries_of. intros H.
  destruct (py_hash cid) as [ck|e]; [|discriminate]. cbn [bind] in H.
  destruct (dict_lookup ck idx) as [child|]; [|injection H as <-; reflexivity].
  destruct (get_item_type child) as [[[|]|]|e] eqn:Hty; cbn [bind] in H;
    try discriminate.
  - injection H as <-. unfold kept_entry.
    rewrite tab_payload_not_tab by auto. reflexivity.
  - destruct (tab_entry child) as [e|err] eqn:He; [|discriminate].
    cbn [bind] in H. injection H as <-.
    rewrite <- (tab_entry_kept_entry child e Hty He). destruct e; reflexivity.
  - injection H as <-. unfold kept_entry.
    rewrite tab_payload_not_tab by auto. reflexivity.
Qed.

Lemma concat_flat_map_of {A B : Type} (f : A -> outcome (list B)) (g : A -> list B)
    (l : list A) (rs : list (list B)) :
  (forall x r, f x = Ok r -> r = g x) ->
  Forall2 (fun x r => f x = Ok r) l rs ->
  List.concat rs = flat_map g l.
Proof.
  intros Hfg. induction 1 as [|x r l rs Hx _ IH]; simpl; [reflexivity|].
  rewrite (Hfg x r Hx), IH. reflexivity.
Qed.

(** The folder the code returns is the folder record of the
    specification. *)
Lemma get_folder_with_direct_tabs_record (id : json) (k : key) (own : option flat_folder)
    (item : json) (children : list json) :
  py_hash id = Ok k -> dict_lookup k idx = Some item ->
  get_item_type item = Ok (Some Folder) -> children_ids item = Ok children ->
  get_folder_with_direct_tabs id idx = Ok own ->
  own = Some (folder_record idx item children).
Proof.
  intros Hk Hitem Hty Hch H. unfold get_folder_with_direct_tabs in H.
  rewrite Hk in H. cbn [bind] in H. rewrite Hitem, Hty in H. cbn [bind] in H.
  rewrite Hch in H. cbn [bind] in H.
  apply bind_ok in H. destruct H as [tabs [Htabs H]].
  apply bind_ok in H. destruct H as [t [Ht H]]. injection H as <-.
  rewrite (for_each_concat _ (direct_tab_step_shift idx)) in Htabs.
  apply bind_ok in Htabs. destruct Htabs as [rs [Hrs Htabs]].
  injection Htabs as <-. apply map_outcome_Forall2 in Hrs.
  rewrite (concat_flat_map_of _ (entries_of idx) _ _ direct_tab_step_entries Hrs).
  unfold folder_record. f_equal.
  destruct item as [| | | | |m]; try discriminate.
  cbn [py_get] in Ht. injection Ht as <-. reflexivity.
Qed.

Lemma entries_of_kept (cid : json) :
  is_kept_tab idx cid = match entries_of idx cid with [] => false | _ => true end.
Proof.
  unfold is_kept_tab, entries_of, kept_entry.
  destruct (py_hash cid) as [ck|e]; [|reflexivity].
  destruct (dict_lookup ck idx) as [child|]; [|reflexivity].
  destruct (tab_payload child) as [[m t]|]; [|reflexivity].
  destruct (py_bool (lookup_or "savedURL" t (JStr EmptyString))); reflexivity.
Qed.

(** A folder record has tabs exactly when a child is a kept direct tab. *)
Lemma folder_record_tabs (item : json) (children : list json) :
  ff_tabs (folder_record idx item children) <> [] <->
  has_kept_tab idx children = true.
Proof.
  unfold folder_record, has_kept_tab. cbn [ff_tabs].
  induction children as [|cid children IH]; cbn [flat_map existsb].
  - split; [intros H; contradiction | discriminate].
  - rewrite entries_of_kept. destruct (entries_of idx cid) as [|b r]; cbn [app orb].
    + exact IH.
    + split; [reflexivity | discriminate].
Qed.

Lemma append_record (item : json) (children : list json) :
  append_if_tabs (Some (folder_record idx item children)) [] =
  if has_kept_tab idx children then [folder_record idx item children] else [].
Proof.
  unfold append_if_tabs. pose proof (folder_record_tabs item children) as H.
  destruct (ff_tabs (folder_record idx item children)) as [|b r];
    destruct (has_kept_tab idx children); try reflexivity.
  - exfalso. apply (proj2 H); [reflexivity | reflexivity].
  - assert (Hf : false = true) by (apply (proj1 H); discriminate). discriminate.
Qed.

(** The list returned for a folder, in the specification's words. *)
Lemma flat_record_equation (fuel : nat) (id : json) (k : key) (item : json)
    (children : list json) (res : list flat_folder) :
  py_hash id = Ok k -> dict_lookup k idx = Some item ->
  get_item_type item = Ok (Some Folder) -> children_ids item = Ok children ->
  get_all_folders_flat (S fuel) id idx None = Ok res ->
  exists rs,
    Forall2 (fun cid r => descend idx fuel [] cid = Ok r) children rs /\
    res = (if has_kept_tab idx children
           then [folder_record idx item children] else [])
          ++ List.concat rs.
Proof.
  intros Hk Hitem Hty Hch Hres.
  destruct (flat_equation idx fuel id k item children res Hk Hitem Hty Hch Hres)
    as [own [rs [Hown [Hrs ->]]]].
  rewrite (get_folder_with_direct_tabs_record id k own item children
             Hk Hitem Hty Hch Hown).
  exists rs. split; [exact Hrs|]. rewrite append_record. reflexivity.
Qed.

(** Every folder reached through subfolder links that has a kept direct
    tab is in the list, as its folder record. *)
Lemma flat_lists_records (fuel : nat) :
  forall id k res,
    py_hash id = Ok k ->
    get_all_folders_flat fuel id idx None = Ok res ->
    forall f item children,
      clos_refl_trans_1n key (subfolder idx) k f ->
      dict_lookup f idx = Some item ->
      get_item_type item = Ok (Some Folder) ->
      children_ids item = Ok children ->
      has_kept_tab idx children = true ->
      In (folder_record idx item children) res.
Proof.
  induction fuel as [|fuel IH];
    intros id k res Hk Hres f item children Hreach Hitem Hty Hch Hkept;
    [discriminate|].
  inversion Hreach as [| c ? Hstep Hrest]; subst.
  - destruct (flat_record_equation fuel id f item children res Hk Hitem Hty Hch Hres)
      as [rs [_ ->]].
    rewrite Hkept. left. reflexivity.
  - destruct Hstep as [pitem [pchildren [cid [child
      [Hpitem [Hpty [Hpch [Hin [Hc [Hchild Hcty]]]]]]]]]].
    destruct (flat_record_equation fuel id k pitem pchildren res Hk Hpitem Hpty Hpch Hres)
      as [rs [Hrs ->]].
    destruct (Forall2_In_left _ _ _ Hrs cid Hin) as [r [Hr Hcid]].
    unfold descend, subfolder_step in Hcid.
    rewrite Hc in Hcid. cbn [bind] in Hcid. rewrite Hchild, Hcty in Hcid.
    cbn [bind] in Hcid. rewrite <- flat_default in Hcid.
    apply in_or_app. right. apply in_concat. exists r. split; [exact Hr|].
    apply (IH cid c r Hc Hcid f item children Hrest Hitem Hty Hch Hkept).
Qed.

(** C6.  On an acyclic index, with a recursion limit above the number of
    items, the flattening of a folder id does not exhaust the limit, and
    returns a list when the index is well formed.  In the list it returns
    every folder has at least one entry, and a folder reached from the
    root through subfolder links is in the list, as its folder record,
    exactly when one of its children is a kept direct tab (an item of the
    index that is a tab with a non-empty URL): a folder without such a
    child is left out, and its descendants that have one are listed all
    the same. *)
Theorem folder_listed_iff_has_tabs (Hacyclic : acyclic idx)
    (id : json) (k : key) (Hid : py_hash id = Ok k)
    (fuel : nat) (Hfuel : (List.length idx < fuel)%nat) :
  settled (get_all_folders_flat fuel id idx None) /\
  (well_formed idx = true ->
   exists res, get_all_folders_flat fuel id idx None = Ok res) /\
  (forall res,
      get_all_folders_flat fuel id idx None = Ok res ->
      Forall (fun ff => ff_tabs ff <> []) res /\
      forall f item children,
        clos_refl_trans key (subfolder idx) k f ->
        dict_lookup f idx = Some item ->
        get_item_type item = Ok (Some Folder) ->
        children_ids item = Ok children ->
        (In (folder_record idx item children) res <->
         has_kept_tab idx children = true)).
Proof.
  split; [apply flat_settled; assumption|].
  split.
  { intros Hwf. apply flat_returns; auto. destruct id; simpl in *; congruence. }
  intros res Hres.
  pose proof (flat_nonempty idx fuel id res Hres) as Hne.
  split; [exact Hne|].
  intros f item children Hreach Hitem Hty Hch. split.
  - intros Hin. apply (folder_record_tabs item children).
    rewrite Forall_forall in Hne. apply (Hne _ Hin).
  - intros Hkept. apply clos_rt_rt1n in Hreach.
    eapply flat_lists_records; eauto.
Qed.

(** C7.  On an acyclic index, with a recursion limit above the number of
    items, the list returned for a folder is in pre-order, folder first:
    first the folder record of the folder itself, if one of its children
    is a kept direct tab, then the lists returned for its subfolders, one
    after the other in the order of [childrenIds]. *)
Theorem flattening_is_preorder (Hacyclic : acyclic idx)
    (id : json) (k : key) (item : json) (children : list json)
    (Hid : py_hash id = Ok k) (Hitem : dict_lookup k idx = Some item)
    (Hty : get_item_type item = Ok (Some Folder))
    (Hchildren : children_ids item = Ok children)
    (fuel : nat) (Hfuel : (List.length idx < fuel)%nat) :
  settled (get_all_folders_flat fuel id idx None) /\
  (well_formed idx = true ->
   exists res, get_all_folders_flat fuel id idx None = Ok res) /\
  (forall res,
      get_all_folders_flat fuel id idx None = Ok res ->
      exists subs,
        Forall2 (fun cid r => get_all_folders_flat fuel cid idx None = Ok r)
                (filter (is_subfolder_id idx) children) subs /\
        res = (if has_kept_tab idx children
               then [folder_record idx item children] else [])
              ++ List.concat subs).
Proof.
  split; [apply flat_settled; assumption|].
  split.
  { intros Hwf. apply flat_returns; auto. destruct id; simpl in *; congruence. }
  intros res Hres. destruct fuel as [|fuel]; [discriminate|].
  destruct (flat_record_equation fuel id k item children res Hid Hitem Hty Hchildren Hres)
    as [rs [Hrs ->]].
  destruct (descend_subfolders idx fuel children rs Hrs) as [subs [Hsubs Hcat]].
  exists subs. split; [|rewrite Hcat; reflexivity].
  eapply Forall2_impl; [|exact Hsubs].
  intros cid r Hr. simpl in Hr. rewrite flat_more_fuel; [exact Hr|].
  rewrite Hr. apply settled_ok.
Qed.

(** Titles are chosen by falling through the empty ones.  The entry the
    code builds from a tab is the entry of the specification: its title
    is the item's own [title] when that is non-empty, else the tab's
    [savedTitle] when that is non-empty, else [Untitled]; the folder the
    code returns has its own [title] when that is non-empty, else
    [Untitled Folder]; so no title is ever empty. *)
Theorem titles_are_defaulted :
  (forall child e,
      get_item_type child = Ok (Some Tab) -> tab_entry child = Ok e ->
      e = kept_entry child) /\
  (forall child b,
      kept_entry child = Some b ->
      exists m t,
        tab_payload child = Some (m, t) /\
        bm_url b = lookup_or "savedURL" t (JStr EmptyString) /\
        bm_title b = entry_title m t /\ py_bool (bm_title b) = true) /\
  (forall m t own, lookup_or "title" m JNull = own -> py_bool own = true ->
                   entry_title m t = own) /\
  (forall m t saved,
      py_bool (lookup_or "title" m JNull) = false ->
      lookup_or "savedTitle" t (JStr EmptyString) = saved -> py_bool saved = true ->
      entry_title m t = saved) /\
  (forall m t,
      py_bool (lookup_or "title" m JNull) = false ->
      py_bool (lookup_or "savedTitle" t (JStr EmptyString)) = false ->
      entry_title m t = JStr "Untitled") /\
  (forall id k item f,
      py_hash id = Ok k -> dict_lookup k idx = Some item ->
      get_folder_with_direct_tabs id idx = Ok (Some f) ->
      ff_title f = folder_title item /\ py_bool (ff_title f) = true) /\
  (forall m own, lookup_or "title" m JNull = own -> py_bool own = true ->
                 folder_title (JObj m) = own) /\
  (forall m, py_bool (lookup_or "title" m JNull) = false ->
             folder_title (JObj m) = JStr "Untitled Folder").
Proof.
  split; [apply tab_entry_kept_entry|]. split.
  { intros child b H. unfold kept_entry in H.
    destruct (tab_payload child) as [[m t]|]; [|discriminate].
    destruct (py_bool (lookup_or "savedURL" t (JStr EmptyString))); [|discriminate].
    injection H as <-. exists m, t. cbn [bm_url bm_title].
    repeat split. unfold entry_title.
    destruct (py_bool (lookup_or "title" m JNull)) eqn:E1; [exact E1|].
    destruct (py_bool (lookup_or "savedTitle" t (JStr EmptyString))) eqn:E2;
      [exact E2 | reflexivity]. }
  split. { intros m t own <- H. unfold entry_title. rewrite H. reflexivity. }
  split. { intros m t saved H1 <- H2. unfold entry_title. rewrite H1, H2. reflexivity. }
  split. { intros m t H1 H2. unfold entry_title. rewrite H1, H2. reflexivity. }
  split.
  { intros id k item f Hk Hitem Hf.
    destruct (get_folder_with_direct_tabs_inv id idx k f Hk Hf)
      as [item' [children [Hitem' [Hty [Hch _]]]]].
    assert (item' = item) by congruence. subst item'.
    pose proof (get_folder_with_direct_tabs_record id k (Some f) item children
                  Hk Hitem Hty Hch Hf) as Hrec.
    injection Hrec as ->. cbn [folder_record ff_title]. split; [reflexivity|].
    unfold folder_title. destruct item; try reflexivity.
    destruct (py_bool (lookup_or "title" m JNull)) eqn:E; [exact E | reflexivity]. }
  split. { intros m own <- H. unfold folder_title. rewrite H. reflexivity. }
  intros m H. unfold folder_title. rewrite H. reflexivity.
Qed.

End FolderRecords.

Lemma folder_listed_iff_has_tabs_witness :
  exists res,
    get_all_folders_flat 9 (JStr "top") Sample.nested_index None = Ok res /\
    In {| ff_title := JStr "Deep"; ff_tabs := [Sample.entry "B" "http://b"] |} res /\
    ~ In (folder_record Sample.nested_index
            (Sample.folder_item "top" "Top" "pin" ["one"; "x"; "two"])
            [JStr "one"; JStr "x"; JStr "two"]) res.
Proof.
  assert (Hfuel : (List.length Sample.nested_index < 9)%nat) by (vm_compute; lia).
  destruct (folder_listed_iff_has_tabs Sample.nested_index nested_index_acyclic
              (JStr "top") (KStr "top") eq_refl 9 Hfuel) as [_ [Hret Hlist]].
  destruct (Hret nested_index_well_formed) as [res Hres].
  destruct (Hlist res Hres) as [_ Hiff].
  exists res. split; [exact Hres|]. split.
  - apply (Hiff (KStr "deep") (Sample.folder_item "deep" "Deep" "one" ["b"])
             [JStr "b"]); try reflexivity.
    apply rt_trans with (y := KStr "one"); apply rt_step.
    + exists (Sample.folder_item "top" "Top" "pin" ["one"; "x"; "two"]),
        [JStr "one"; JStr "x"; JStr "two"], (JStr "one"),
        (Sample.folder_item "one" "One" "top" ["a"; "deep"]).
      repeat split. left. reflexivity.
    + exists (Sample.folder_item "one" "One" "top" ["a"; "deep"]),
        [JStr "a"; JStr "deep"], (JStr "deep"),
        (Sample.folder_item "deep" "Deep" "one" ["b"]).
      repeat split. right. left. reflexivity.
  - intros Hin.
    apply (Hiff (KStr "top") (Sample.folder_item "top" "Top" "pin" ["one"; "x"; "two"])
             [JStr "one"; JStr "x"; JStr "two"]) in Hin; try reflexivity.
    + discriminate Hin.
    + apply rt_refl.
Defined.

Lemma flattening_is_preorder_witness :
  exists subs,
    Forall2 (fun cid r => get_all_folders_flat 9 cid Sample.nested_index None = Ok r)
            [JStr "deep"] subs /\
    [ {| ff_title := JStr "One"; ff_tabs := [Sample.entry "A" "http://a"] |};
      {| ff_title := JStr "Deep"; ff_tabs := [Sample.entry "B" "http://b"] |} ]
    = [ {| ff_title := JStr "One"; ff_tabs := [Sample.entry "A" "http://a"] |} ]
      ++ List.concat subs.
Proof.
  assert (Hfuel : (List.length Sample.nested_index < 9)%nat) by (vm_compute; lia).
  exact (proj2 (proj2 (flattening_is_preorder Sample.nested_index nested_index_acyclic
                         (JStr "one") (KStr "one")
                         (Sample.folder_item "one" "One" "top" ["a"; "deep"])
                         [JStr "a"; JStr "deep"]
                         eq_refl eq_refl eq_refl eq_refl 9 Hfuel))
           _ eq_refl).
Defined.

(** ** The pinned container of a space *)

Section PinnedContainer.

Lemma find_pinned_loop (whole : list json) :
  forall suffix pre acc,
    whole = pre ++ suffix ->
    for_each
      (fun pinned ic =>
         let '(i, cid) := ic in
         if py_eq cid (JStr "pinned") && (i + 1 <? List.length whole)%nat
         then py_getitem_nat (JArr whole) (i + 1)
         else Ok pinned)
      (combine (seq (List.length pre) (List.length suffix)) suffix) acc
    = Ok (follower suffix acc).
Proof.
  induction suffix as [|cid rest IH]; intros pre acc Hw; [reflexivity|].
  cbn [List.length seq combine for_each].
  assert (Hw' : whole = (pre ++ [cid]) ++ rest)
    by (rewrite <- app_assoc; exact Hw).
  specialize (IH (pre ++ [cid])). rewrite length_app in IH. simpl in IH.
  rewrite Nat.add_1_r in IH.
  destruct rest as [|next rest'].
  - assert (Hlt : (List.length pre + 1 <? List.length whole)%nat = false).
    { apply Nat.ltb_ge. rewrite Hw, length_app. simpl. lia. }
    rewrite Hlt, andb_false_r. reflexivity.
  - assert (Hlt : (List.length pre + 1 <? List.length whole)%nat = true).
    { apply Nat.ltb_lt. rewrite Hw, length_app. simpl. lia. }
    assert (Hnth : nth_error whole (List.length pre + 1) = Some next).
    { rewrite Hw', nth_error_app2; rewrite length_app; simpl; [|lia].
      replace (List.length pre + 1 - (List.length pre + 1))%nat with 0%nat by lia.
      reflexivity. }
    rewrite Hlt, andb_true_r. cbn [py_getitem_nat]. rewrite Hnth.
    change (py_eq cid (JStr "pinned")) with (is_marker cid).
    cbn [follower].
    destruct (is_marker cid); cbn [bind]; apply IH; exact Hw'.
Qed.

Lemma find_pinned_follower (cids : list json) :
  find_pinned (JArr cids) = Ok (follower cids JNull).
Proof.
  unfold find_pinned. cbn [py_iter bind].
  apply (find_pinned_loop cids cids [] JNull). reflexivity.
Qed.

Lemma follower_step (cid next : json) (rest : list json) (acc : json) :
  follower (cid :: next :: rest) acc =
  follower (next :: rest) (if is_marker cid then next else acc).
Proof. reflexivity. Qed.

Lemma follower_unmarked (cids : list json) :
  forall acc,
    forallb (fun cid => negb (is_marker cid)) (removelast cids) = true ->
    follower cids acc = acc.
Proof.
  induction cids as [|cid rest IH]; intros acc H; [reflexivity|].
  destruct rest as [|next rest']; [reflexivity|].
  rewrite follower_step.
  change (removelast (cid :: next :: rest'))
    with (cid :: removelast (next :: rest')) in H.
  cbn [forallb] in H. apply andb_true_iff in H. destruct H as [Hc H].
  destruct (is_marker cid); [discriminate|].
  apply IH. exact H.
Qed.

Lemma follower_marked (pre : list json) :
  forall x post acc,
    forallb (fun cid => negb (is_marker cid)) (removelast (x :: post)) = true ->
    follower (pre ++ JStr "pinned" :: x :: post) acc = x.
Proof.
  induction pre as [|p pre IH]; intros x post acc H.
  - change ([] ++ JStr "pinned" :: x :: post) with (JStr "pinned" :: x :: post).
    rewrite follower_step. change (is_marker (JStr "pinned")) with true.
    apply follower_unmarked. exact H.
  - specialize (IH x post). destruct pre as [|p' pre'].
    + change ([p] ++ JStr "pinned" :: x :: post)
        with (p :: JStr "pinned" :: x :: post).
      rewrite follower_step. apply (IH _ H).
    + change ((p :: p' :: pre') ++ JStr "pinned" :: x :: post)
        with (p :: p' :: (pre' ++ JStr "pinned" :: x :: post)).
      rewrite follower_step. apply (IH _ H).
Qed.

(** On an array of container ids the scan for the pinned container raises
    nothing.  It returns the element that follows the last ["pinned"]
    marker which has a follower: a marker in last position is ignored,
    and without a marker (or with only a last one) the result is [None]. *)
Theorem pinned_container_follows_last_marker :
  (forall cids, find_pinned (JArr cids) = Ok (follower cids JNull)) /\
  (forall pre x post,
      forallb (fun cid => negb (is_marker cid)) (removelast (x :: post)) = true ->
      find_pinned (JArr (pre ++ JStr "pinned" :: x :: post)) = Ok x) /\
  (forall cids,
      forallb (fun cid => negb (is_marker cid)) (removelast cids) = true ->
      find_pinned (JArr cids) = Ok JNull).
Proof.
  split; [apply find_pinned_follower|]. split.
  - intros pre x post H. rewrite find_pinned_follower. f_equal.
    apply follower_marked. exact H.
  - intros cids H. rewrite find_pinned_follower. f_equal.
    apply follower_unmarked. exact H.
Qed.

End PinnedContainer.

(** ** The space scan *)

Section SpaceScan.

Lemma space_step_recorded (sps sps' : list space_info) (e : json) :
  titled_record e = true -> space_step sps e = Ok sps' ->
  exists s, sps' = sps ++ [s] /\ recorded e s.
Proof.
  unfold titled_record, space_step, recorded. destruct e; simpl; try discriminate.
  intros -> H.
  apply bind_ok in H. destruct H as [id [Hid H]].
  apply bind_ok in H. destruct H as [title [Htitle H]].
  cbn [py_get bind] in H.
  apply bind_ok in H. destruct H as [pinned [Hpinned H]].
  injection H as <-. eexists. split; [reflexivity|]. simpl. auto.
Qed.

Lemma space_scan_recorded (entries : list json) :
  forall sps sps',
    for_each space_step entries sps = Ok sps' ->
    exists new, sps' = sps ++ new /\
                Forall2 recorded (filter titled_record entries) new.
Proof.
  induction entries as [|e entries IH]; intros sps sps' H; cbn [for_each] in H.
  - injection H as <-. exists []. split; [symmetry; apply app_nil_r | constructor].
  - apply bind_ok in H. destruct H as [sps1 [Hstep H]].
    destruct (IH _ _ H) as [new [-> Hnew]]. cbn [filter].
    destruct (titled_record e) eqn:Ht.
    + destruct (space_step_recorded _ _ _ Ht Hstep) as [s [-> Hs]].
      exists (s :: new). split; [rewrite <- app_assoc; reflexivity|].
      constructor; assumption.
    + rewrite space_step_untitled in Hstep by exact Ht. injection Hstep as <-.
      exists new. auto.
Qed.

Lemma space_step_returns (sps : list space_info) (e : json) :
  space_entry_ok e = true -> exists sps', space_step sps e = Ok sps'.
Proof.
  unfold space_entry_ok, space_step. destruct e as [| | | | |m]; simpl; eauto.
  destruct (obj_mem "title" m) eqn:Ht; [|eauto].
  intros H. apply andb_true_iff in H. destruct H as [Hid Hc].
  unfold obj_mem in Hid, Ht.
  destruct (obj_lookup "id" m) as [id|]; [|discriminate].
  destruct (obj_lookup "title" m) as [title|]; [|discriminate].
  cbn [bind].
  destruct (obj_lookup "containerIDs" m) as [[| | | |cs|]|]; try discriminate;
    rewrite find_pinned_follower; cbn [bind]; eauto.
Qed.

(** The space scan keeps one space per titled record of the [spaces]
    list, in the order of the list, with that record's [id], [title] and
    pinned container, and skips every other entry.  It raises nothing
    when every titled record has an [id] and an array (or nothing) for
    [containerIDs]. *)
Theorem spaces_are_the_titled_records (last sp : json) (entries : list json)
    (Hsp : py_get last "spaces" (JArr []) = Ok sp)
    (Hentries : py_iter sp = Ok entries) :
  (forall sps,
      collect_spaces last = Ok sps ->
      Forall2 recorded (filter titled_record entries) sps) /\
  (forallb space_entry_ok entries = true ->
   exists sps, collect_spaces last = Ok sps).
Proof.
  unfold collect_spaces. rewrite Hsp. cbn [bind]. rewrite Hentries. cbn [bind].
  split.
  - intros sps H. destruct (space_scan_recorded entries [] sps H) as [new [-> Hnew]].
    exact Hnew.
  - intros Hok. apply for_each_returns. intros s e He.
    apply space_step_returns. rewrite forallb_forall in Hok. auto.
Qed.

End SpaceScan.

Lemma spaces_are_the_titled_records_witness :
  exists sps,
    collect_spaces
      (JObj [("spaces", JArr [JStr "w"; Sample.space "w" "Work" ["pinned"; "pin"]])])
    = Ok sps.
Proof.
  refine (proj2 (spaces_are_the_titled_records
                   (JObj [("spaces", JArr [JStr "w";
                                           Sample.space "w" "Work" ["pinned"; "pin"]])])
                   _ _ eq_refl eq_refl) eq_refl).
Defined.

(** ** The item index, continued *)

Section IndexInvariant.

Lemma in_dict_set (k : key) (v : json) (d : pydict) (k0 : key) (v0 : json) :
  In (k0, v0) (dict_set k v d) -> (k0 = k /\ v0 = v) \/ In (k0, v0) d.
Proof.
  induction d as [|[k' v'] d IH]; simpl.
  - intros [H | []]. injection H as <- <-. auto.
  - destruct (key_eqb k k') eqn:E; simpl.
    + apply key_eqb_eq in E. subst k'.
      intros [H | H]; [injection H as <- <-; auto | auto].
    + intros [H | H]; [auto|]. destruct (IH H); auto.
Qed.

Lemma in_dict_set_keys (k : key) (v : json) (d : pydict) (x : key) :
  In x (dict_keys (dict_set k v d)) -> x = k \/ In x (dict_keys d).
Proof.
  unfold dict_keys. intros H. apply in_map_iff in H.
  destruct H as [[k0 v0] [<- H]]. simpl.
  destruct (in_dict_set _ _ _ _ _ H) as [[-> _] | H']; [auto|].
  right. apply in_map_iff. exists (k0, v0). auto.
Qed.

Lemma dict_set_NoDup (k : key) (v : json) (d : pydict) :
  NoDup (dict_keys d) -> NoDup (dict_keys (dict_set k v d)).
Proof.
  induction d as [|[k' v'] d IH]; simpl; intros H.
  - constructor; [intros [] | constructor].
  - inversion H as [|? ? Hnotin Hnd]; subst.
    destruct (key_eqb k k') eqn:E; simpl.
    + constructor; assumption.
    + constructor; [|auto]. intros Hin.
      destruct (in_dict_set_keys _ _ _ _ Hin) as [-> | Hin']; [|contradiction].
      rewrite key_eqb_refl in E. discriminate.
Qed.

Lemma NoDup_dict_lookup (d : pydict) (k : key) (v : json) :
  NoDup (dict_keys d) -> In (k, v) d -> dict_lookup k d = Some v.
Proof.
  induction d as [|[k' v'] d IH]; simpl; intros Hnd Hin; [contradiction|].
  inversion Hnd as [|? ? Hnotin Hnd']; subst.
  destruct Hin as [H | H].
  - injection H as -> ->. rewrite key_eqb_refl. reflexivity.
  - destruct (key_eqb k k') eqn:E; [|auto].
    apply key_eqb_eq in E. subst k'. exfalso. apply Hnotin.
    unfold dict_keys. apply in_map_iff. exists (k, v). auto.
Qed.

Lemma in_range_step2 (n i : nat) : In i (range_step2 n) -> exists j, i = (2 * j)%nat.
Proof.
  unfold range_step2. intros H. apply in_map_iff in H.
  destruct H as [j [<- _]]. exists j. reflexivity.
Qed.

(** What the index loop keeps true, whatever [items] is. *)
Lemma build_items_by_id_invariant (items : json) (idx : pydict) :
  build_items_by_id items = Ok idx ->
  NoDup (dict_keys idx) /\ keyed_by_id idx /\
  forall k v, In (k, v) idx ->
              exists j, py_getitem_nat items (2 * j + 1) = Ok v.
Proof.
  unfold build_items_by_id. intros H.
  apply bind_ok in H. destruct H as [n [_ H]].
  revert H.
  apply (for_each_invariant
           (fun d => NoDup (dict_keys d) /\ keyed_by_id d /\
                     forall k v, In (k, v) d ->
                                 exists j, py_getitem_nat items (2 * j + 1) = Ok v)).
  - intros d i d' Hi [Hnd [Hkeyed Hfrom]] Hstep. unfold index_step in Hstep.
    destruct (i + 1 <? n)%nat; [|injection Hstep as <-; auto].
    apply bind_ok in Hstep. destruct Hstep as [item [Hitem Hstep]].
    destruct (is_dict item) eqn:Hdict; [|injection Hstep as <-; auto].
    apply bind_ok in Hstep. destruct Hstep as [has_id [_ Hstep]].
    destruct has_id; [|injection Hstep as <-; auto].
    apply bind_ok in Hstep. destruct Hstep as [id [Hid Hstep]].
    apply bind_ok in Hstep. destruct Hstep as [k [Hk Hstep]].
    injection Hstep as <-.
    split; [apply dict_set_NoDup; exact Hnd|]. split.
    + intros k0 v0 Hin. destruct (in_dict_set _ _ _ _ _ Hin) as [[-> ->] | Hin'];
        [|apply Hkeyed; exact Hin'].
      split; [exact Hdict|]. exists id. split; [|exact Hk].
      destruct item; try discriminate. simpl in *.
      destruct (obj_lookup "id" m); [injection Hid as ->; reflexivity | discriminate].
    + intros k0 v0 Hin. destruct (in_dict_set _ _ _ _ _ Hin) as [[-> ->] | Hin'];
        [|apply (Hfrom k0); exact Hin'].
      destruct (in_range_step2 n i Hi) as [j ->]. exists j. exact Hitem.
  - split; [constructor|]. split; intros k v [].
Qed.

(** The index never holds two entries for one key; every item it holds is
    a record taken from an odd position of the items array and stored
    under the hash of its own [id], so that looking an item up by its id
    finds that very item. *)
Theorem item_index_is_keyed_by_id (items : json) (idx : pydict)
    (Hbuild : build_items_by_id items = Ok idx) :
  NoDup (dict_keys idx) /\
  forall k item,
    In (k, item) idx ->
    is_dict item = true /\
    (exists id, record_id item = Some id /\ py_hash id = Ok k) /\
    (exists j, py_getitem_nat items (2 * j + 1) = Ok item) /\
    dict_lookup k idx = Some item.
Proof.
  destruct (build_items_by_id_invariant items idx Hbuild) as [Hnd [Hkeyed Hfrom]].
  split; [exact Hnd|]. intros k item Hin.
  destruct (Hkeyed k item Hin) as [Hdict Hid].
  repeat split; auto. - apply (Hfrom k). exact Hin.
  - apply NoDup_dict_lookup; assumption.
Qed.

Lemma top_level_items_filter (idx : pydict) (pinned : json) :
  (forall kv, In kv idx -> is_dict (snd kv) = true) ->
  forall acc,
    for_each
      (fun top kv =>
         parent <- py_get (snd kv) "parentID" JNull ;;
         Ok (if py_eq parent pinned then top ++ [fst kv] else top))
      idx acc
    = Ok (acc ++ map fst (filter (fun kv => py_eq (parent_of (snd kv)) pinned) idx)).
Proof.
  induction idx as [|[k item] idx IH]; intros Hdict acc; simpl.
  - rewrite app_nil_r. reflexivity.
  - pose proof (Hdict (k, item) (or_introl eq_refl)) as Hitem. simpl in Hitem.
    destruct item as [| | | | |m]; try discriminate. simpl.
    rewrite IH by (intros kv Hkv; apply Hdict; right; exact Hkv).
    destruct (py_eq _ pinned); simpl; [rewrite <- app_assoc|]; reflexivity.
Qed.

(** On an index built by the index loop, collecting the top-level items
    of a container raises nothing: it returns, in index order, the keys
    of the items whose [parentID] equals the container id, and each key
    it returns is found again in the index. *)
Theorem top_level_items_in_index_order (items : json) (idx : pydict) (pinned : json)
    (Hbuild : build_items_by_id items = Ok idx) :
  top_level_items idx pinned =
    Ok (map fst (filter (fun kv => py_eq (parent_of (snd kv)) pinned) idx)) /\
  forall top k,
    top_level_items idx pinned = Ok top -> In k top ->
    exists item, dict_lookup k idx = Some item /\
                 py_eq (parent_of item) pinned = true.
Proof.
  destruct (build_items_by_id_invariant items idx Hbuild) as [Hnd [Hkeyed _]].
  assert (Htop : top_level_items idx pinned =
                 Ok (map fst (filter (fun kv => py_eq (parent_of (snd kv)) pinned) idx))).
  { unfold top_level_items. rewrite top_level_items_filter; [reflexivity|].
    intros [k v] Hin. apply (Hkeyed k v Hin). }
  split; [exact Htop|]. intros top k Hrun Hk. rewrite Htop in Hrun.
  injection Hrun as <-. apply in_map_iff in Hk. destruct Hk as [[k0 item] [<- Hin]].
  apply filter_In in Hin. destruct Hin as [Hin Hp]. simpl in *.
  exists item. split; [apply NoDup_dict_lookup; assumption | exact Hp].
Qed.

End IndexInvariant.

Lemma item_index_is_keyed_by_id_witness :
  NoDup (dict_keys (Sample.index_of Sample.work_items)).
Proof.
  exact (proj1 (item_index_is_keyed_by_id (JArr Sample.work_items)
                  (Sample.index_of Sample.work_items) eq_refl)).
Defined.

Lemma top_level_items_in_index_order_witness :
  top_level_items (Sample.index_of Sample.work_items) (JStr "pin")
  = Ok [KStr "docs"; KStr "c"].
Proof.
  exact (proj1 (top_level_items_in_index_order (JArr Sample.work_items)
                  (Sample.index_of Sample.work_items) (JStr "pin") eq_refl)).
Defined.

(** ** The document as a whole *)

Section Document.

Variable py_repr : json -> string.

(** Only the last container is read: two documents whose container lists
    end with the same container are exported alike, whatever comes
    before it. *)
Theorem only_last_container_is_read (now : string) (fuel : nat) (data data' : json)
    (pre pre' : list json) (last : json)
    (Hdata : get_containers data = Ok (JArr (pre ++ [last])))
    (Hdata' : get_containers data' = Ok (JArr (pre' ++ [last]))) :
  export_bookmarks py_repr now fuel data = export_bookmarks py_repr now fuel data'.
Proof.
  assert (H : forall p, py_bool (JArr (p ++ [last])) = true /\
                        py_last (JArr (p ++ [last])) = Ok last).
  { intros p. split; [destruct p; reflexivity|].
    unfold py_last. rewrite rev_app_distr. reflexivity. }
  unfold export_bookmarks. rewrite Hdata, Hdata'. cbn [bind].
  destruct (H pre) as [-> ->]. destruct (H pre') as [-> ->]. reflexivity.
Qed.

(** A document that lacks the expected structure exports nothing and
    raises nothing: no [sidebar], a sidebar without [containers] or with
    an empty list of them, or a last container without [spaces], all give
    [None].  A document that is not an object raises [AttributeError]. *)
Theorem missing_structure_exports_nothing (now : string) (fuel : nat) :
  (forall m, obj_lookup "sidebar" m = None ->
             export_bookmarks py_repr now fuel (JObj m) = Ok None) /\
  (forall m sb,
      obj_lookup "sidebar" m = Some (JObj sb) ->
      obj_lookup "containers" sb = None \/
      obj_lookup "containers" sb = Some (JArr []) ->
      export_bookmarks py_repr now fuel (JObj m) = Ok None) /\
  (forall m sb pre c,
      obj_lookup "sidebar" m = Some (JObj sb) ->
      obj_lookup "containers" sb = Some (JArr (pre ++ [JObj c])) ->
      obj_lookup "spaces" c = None ->
      export_bookmarks py_repr now fuel (JObj m) = Ok None) /\
  (forall data, is_dict data = false ->
                export_bookmarks py_repr now fuel data = Raise AttributeError).
Proof.
  repeat split.
  - intros m Hm. unfold export_bookmarks, get_containers, py_get. rewrite Hm.
    reflexivity.
  - intros m sb Hm Hc. unfold export_bookmarks, get_containers, py_get.
    rewrite Hm. cbn [bind]. destruct Hc as [-> | ->]; reflexivity.
  - intros m sb pre c Hm Hc Hs. unfold export_bookmarks, get_containers, py_get.
    rewrite Hm. cbn [bind]. rewrite Hc. cbn [bind].
    assert (Hb : py_bool (JArr (pre ++ [JObj c])) = true) by (destruct pre; reflexivity).
    rewrite Hb. cbn [negb]. unfold py_last. rewrite rev_app_distr. cbn [rev app bind].
    unfold collect_spaces, py_get. rewrite Hs. reflexivity.
  - intros data Hd. destruct data; try discriminate; reflexivity.
Qed.

Lemma nesting_app (l1 l2 : list string) :
  forall d,
    nesting (l1 ++ l2) d =
    match nesting l1 d with
    | Some d' => nesting l2 d'
    | None => None
    end.
Proof.
  induction l1 as [|l l1 IH]; intros d; simpl; [reflexivity|].
  destruct (opens l); [apply IH|].
  destruct (closes l); [destruct d; [reflexivity | apply IH] | apply IH].
Qed.

Lemma nesting_anchors (indent : string) (tabs : list bookmark) (d : nat) :
  indent = "        " \/ indent = "            " ->
  nesting (map (anchor py_repr indent) tabs) d = Some d.
Proof.
  intros Hi. induction tabs as [|t tabs IH]; [reflexivity|].
  cbn [map nesting].
  assert (H : opens (anchor py_repr indent t) = false /\
              closes (anchor py_repr indent t) = false)
    by (destruct Hi as [-> | ->]; split; reflexivity).
  destruct H as [-> ->]. exact IH.
Qed.

Lemma nesting_folder (f : flat_folder) (d : nat) :
  nesting (render_folder py_repr f) d = Some d.
Proof.
  unfold render_folder. cbn [app].
  change (nesting (?a :: "        <DL><p>" :: ?r) d) with (nesting r (S d)).
  rewrite nesting_app, nesting_anchors by auto. reflexivity.
Qed.

Lemma nesting_folders (fs : list flat_folder) (d : nat) :
  nesting (flat_map (render_folder py_repr) fs) d = Some d.
Proof.
  induction fs as [|f fs IH]; [reflexivity|].
  cbn [flat_map]. rewrite nesting_app, nesting_folder. exact IH.
Qed.

Lemma nesting_block (b : block) (d : nat) :
  nesting (render_block py_repr b) d = Some d.
Proof.
  unfold render_block. cbn [app].
  change (nesting (?a :: "    <DL><p>" :: ?r) d) with (nesting r (S d)).
  rewrite nesting_app, nesting_folders, nesting_app, nesting_anchors by auto.
  reflexivity.
Qed.

Lemma nesting_blocks (bs : list block) (d : nat) :
  nesting (flat_map (render_block py_repr) bs) d = Some d.
Proof.
  induction bs as [|b bs IH]; [reflexivity|].
  cbn [flat_map]. rewrite nesting_app, nesting_block. exact IH.
Qed.

Lemma export_writer_plan (now : string) (fuel : nat) (data : json) :
  export_writer py_repr now fuel data =
  (p <- export_plan fuel data ;;
   Ok (option_map
         (fun p =>
            ({| html_lines :=
                  header_head ++ date_line now :: document_rest py_repr (snd p);
                total_folders := List.length (flat_map bl_folders (snd p));
                total_bookmarks := List.length (flat_map block_entries (snd p)) |},
             List.length (fst p)))
         p)).
Proof.
  unfold export_writer, export_plan.
  destruct (get_containers data) as [cs|e]; cbn [bind]; [|reflexivity].
  destruct (negb (py_bool cs)); [reflexivity|].
  destruct (py_last cs) as [last|e]; cbn [bind]; [|reflexivity].
  destruct (collect_spaces last) as [sps|e]; cbn [bind]; [|reflexivity].
  destruct sps as [|sp sps]; [reflexivity|].
  destruct (py_get last "items" (JArr [])) as [items|e]; cbn [bind]; [|reflexivity].
  destruct (build_items_by_id items) as [idx|e]; cbn [bind]; [|reflexivity].
  rewrite space_blocks_content.
  destruct (blocks_of fuel idx (sp :: sps)) as [bs|e]; cbn [bind]; [|reflexivity].
  unfold document_rest, emit, extend.
  cbn [option_map html_lines total_folders total_bookmarks fst snd].
  rewrite <- !app_assoc. reflexivity.
Qed.

(** What [export_bookmarks] returns is read off the writer: the text is
    [html_lines] joined by newlines, the counters are the writer's. *)
Lemma export_bookmarks_writer (now : string) (fuel : nat) (data : json)
    (w : writer) (n : nat) :
  export_writer py_repr now fuel data = Ok (Some (w, n)) ->
  export_bookmarks py_repr now fuel data =
    Ok (Some {| html := String.concat nl (html_lines w);
                folders := total_folders w;
                bookmarks := total_bookmarks w;
                spaces := n |}).
Proof.
  unfold export_writer, export_bookmarks.
  destruct (get_containers data) as [cs|e]; cbn [bind]; [|discriminate].
  destruct (negb (py_bool cs)); [discriminate|].
  destruct (py_last cs) as [last|e]; cbn [bind]; [|discriminate].
  destruct (collect_spaces last) as [sps|e]; cbn [bind]; [|discriminate].
  destruct sps as [|sp sps]; [discriminate|].
  destruct (py_get last "items" (JArr [])) as [items|e]; cbn [bind]; [|discriminate].
  destruct (build_items_by_id items) as [idx|e]; cbn [bind]; [|discriminate].
  destruct (for_each _ _ _) as [w'|e]; cbn [bind]; [|discriminate].
  intros H. injection H as <- <-. reflexivity.
Qed.

Lemma export_writer_lines (now : string) (fuel : nat) (data : json)
    (w : writer) (n : nat) :
  export_writer py_repr now fuel data = Ok (Some (w, n)) ->
  exists sps bs,
    export_plan fuel data = Ok (Some (sps, bs)) /\
    html_lines w = header_head ++ date_line now :: document_rest py_repr bs /\
    total_folders w = List.length (flat_map bl_folders bs) /\
    total_bookmarks w = List.length (flat_map block_entries bs) /\
    n = List.length sps.
Proof.
  rewrite export_writer_plan. intros H.
  apply bind_ok in H. destruct H as [[[sps bs]|] [Hplan H]]; [|discriminate].
  cbn [option_map fst snd] in H. injection H as <- <-.
  exists sps, bs. repeat split. exact Hplan.
Qed.

(** The lines that [export_bookmarks] has appended to [html_lines] when
    it returns are well nested: no line closes a [<DL>] list that is not
    open, and at the end every list that was opened is closed, whatever
    the titles and URLs are; the text returned is those lines joined by
    newlines. *)
Theorem document_is_well_nested (now : string) (fuel : nat) (data : json)
    (w : writer) (n : nat)
    (Hrun : export_writer py_repr now fuel data = Ok (Some (w, n))) :
  nesting (html_lines w) 0 = Some 0%nat /\
  export_bookmarks py_repr now fuel data =
    Ok (Some {| html := String.concat nl (html_lines w);
                folders := total_folders w;
                bookmarks := total_bookmarks w;
                spaces := n |}).
Proof.
  split; [|apply export_bookmarks_writer; exact Hrun].
  destruct (export_writer_lines now fuel data w n Hrun) as [sps [bs [_ [-> _]]]].
  unfold header_head, document_rest, header_tail. cbn [app].
  change (nesting (?a :: ?b :: date_line now :: ?c :: ?e :: ?f :: "<DL><p>" :: ?r) 0)
    with (nesting r 1).
  rewrite nesting_app, nesting_blocks. reflexivity.
Qed.

End Document.

(** ** Counters and lines *)

Section Counters.

Variable py_repr : json -> string.

Lemma prefix_empty (s : string) : String.prefix EmptyString s = true.
Proof. destruct s; reflexivity. Qed.

Lemma count_lines_app (p : string -> bool) (l1 l2 : list string) :
  count_lines p (l1 ++ l2) = (count_lines p l1 + count_lines p l2)%nat.
Proof. unfold count_lines. rewrite filter_app, length_app. reflexivity. Qed.

Lemma count_lines_flat_map {A : Type} (p : string -> bool) (f : A -> list string)
    (g : A -> nat) (l : list A) :
  (forall x, count_lines p (f x) = g x) ->
  count_lines p (flat_map f l) = list_sum (map g l).
Proof.
  intros H. induction l as [|x l IH]; [reflexivity|].
  cbn [flat_map map list_sum]. rewrite count_lines_app, H, IH. reflexivity.
Qed.

Lemma count_lines_true (p : string -> bool) (lines : list string) :
  (forall l, In l lines -> p l = true) -> count_lines p lines = List.length lines.
Proof.
  unfold count_lines. induction lines as [|l lines IH]; intros H; [reflexivity|].
  cbn [filter]. rewrite (H l (or_introl eq_refl)). simpl. f_equal.
  apply IH. intros l' Hl'. apply H. right. exact Hl'.
Qed.

Lemma count_lines_false (p : string -> bool) (lines : list string) :
  (forall l, In l lines -> p l = false) -> count_lines p lines = 0%nat.
Proof.
  unfold count_lines. induction lines as [|l lines IH]; intros H; [reflexivity|].
  cbn [filter]. rewrite (H l (or_introl eq_refl)).
  apply IH. intros l' Hl'. apply H. right. exact Hl'.
Qed.

Lemma anchor_line (indent : string) (t : bookmark) :
  indent = "        " \/ indent = "            " ->
  is_anchor (anchor py_repr indent t) = true /\
  is_folder_heading (anchor py_repr indent t) = false /\
  is_space_heading (anchor py_repr indent t) = false.
Proof. intros [-> | ->]; repeat split. Qed.

Lemma count_lines_anchors (indent : string) (tabs : list bookmark) :
  indent = "        " \/ indent = "            " ->
  count_lines is_anchor (map (anchor py_repr indent) tabs) = List.length tabs /\
  count_lines is_folder_heading (map (anchor py_repr indent) tabs) = 0%nat /\
  count_lines is_space_heading (map (anchor py_repr indent) tabs) = 0%nat.
Proof.
  intros Hi. repeat split.
  - rewrite count_lines_true; [apply length_map|].
    intros l Hl. apply in_map_iff in Hl. destruct Hl as [t [<- _]].
    apply anchor_line. exact Hi.
  - apply count_lines_false.
    intros l Hl. apply in_map_iff in Hl. destruct Hl as [t [<- _]].
    apply anchor_line. exact Hi.
  - apply count_lines_false.
    intros l Hl. apply in_map_iff in Hl. destruct Hl as [t [<- _]].
    apply anchor_line. exact Hi.
Qed.

Lemma length_flat_map_sum {A B : Type} (f : A -> list B) (l : list A) :
  List.length (flat_map f l) = list_sum (map (fun x => List.length (f x)) l).
Proof.
  induction l as [|x l IH]; [reflexivity|].
  cbn [flat_map map list_sum]. rewrite length_app, IH. reflexivity.
Qed.

Lemma list_sum_ones {A : Type} (l : list A) :
  list_sum (map (fun _ => 1%nat) l) = List.length l.
Proof. induction l; simpl; [reflexivity | f_equal; assumption]. Qed.

Lemma list_sum_zeros {A : Type} (l : list A) :
  list_sum (map (fun _ => 0%nat) l) = 0%nat.
Proof. induction l; simpl; assumption || reflexivity. Qed.

(** The lines of a folder: its heading, and one anchor for each tab. *)
Lemma count_lines_folder (f : flat_folder) :
  count_lines is_anchor (render_folder py_repr f) = List.length (ff_tabs f) /\
  count_lines is_folder_heading (render_folder py_repr f) = 1%nat /\
  count_lines is_space_heading (render_folder py_repr f) = 0%nat.
Proof.
  destruct (count_lines_anchors "            " (ff_tabs f)) as [Ha [Hf Hs]]; [auto|].
  unfold render_folder.
  repeat split; rewrite !count_lines_app; rewrite ?Ha, ?Hf, ?Hs;
    unfold count_lines, is_anchor, is_folder_heading, is_space_heading;
    simpl; rewrite ?prefix_empty; simpl; lia.
Qed.

Lemma count_lines_block (b : block) :
  count_lines is_anchor (render_block py_repr b) = List.length (block_entries b) /\
  count_lines is_folder_heading (render_block py_repr b) = List.length (bl_folders b) /\
  count_lines is_space_heading (render_block py_repr b) = 1%nat.
Proof.
  destruct (count_lines_anchors "        " (bl_tabs b)) as [Ha [Hf Hs]]; [auto|].
  unfold render_block, block_entries.
  repeat split; rewrite !count_lines_app; rewrite ?Ha, ?Hf, ?Hs.
  - rewrite (count_lines_flat_map _ _ (fun f => List.length (ff_tabs f)))
      by (intros f; apply count_lines_folder).
    rewrite length_app, length_flat_map_sum.
    unfold count_lines, is_anchor, is_folder_heading, is_space_heading;
    simpl; rewrite ?prefix_empty; simpl; lia.
  - rewrite (count_lines_flat_map _ _ (fun _ => 1%nat))
      by (intros f; apply count_lines_folder).
    rewrite list_sum_ones.
    unfold count_lines, is_anchor, is_folder_heading, is_space_heading;
    simpl; rewrite ?prefix_empty; simpl; lia.
  - rewrite (count_lines_flat_map _ _ (fun _ => 0%nat))
      by (intros f; apply count_lines_folder).
    rewrite list_sum_zeros.
    unfold count_lines, is_anchor, is_folder_heading, is_space_heading;
    simpl; rewrite ?prefix_empty; simpl; lia.
Qed.

(** The counters agree with the lines that [export_bookmarks] has
    appended to [html_lines] when it returns: the bookmark counter is the
    number of anchor lines, the folder counter the number of folder
    headings, and the number of space headings, one per space written, is
    at most [len(spaces)]; those counters and those lines, joined, are
    what is returned. *)
Theorem counters_match_lines (now : string) (fuel : nat) (data : json)
    (w : writer) (n : nat)
    (Hrun : export_writer py_repr now fuel data = Ok (Some (w, n))) :
  count_lines is_anchor (html_lines w) = total_bookmarks w /\
  count_lines is_folder_heading (html_lines w) = total_folders w /\
  (count_lines is_space_heading (html_lines w) <= n)%nat /\
  export_bookmarks py_repr now fuel data =
    Ok (Some {| html := String.concat nl (html_lines w);
                folders := total_folders w;
                bookmarks := total_bookmarks w;
                spaces := n |}).
Proof.
  pose proof (export_bookmarks_writer py_repr now fuel data w n Hrun) as Hret.
  destruct (export_writer_lines py_repr now fuel data w n Hrun)
    as [sps [bs [Hplan [Hl [Hf [Hb Hn]]]]]].
  destruct (export_plan_spaces fuel data sps bs Hplan) as [_ [_ [_ [_ [_ [_ [_ Hlen]]]]]]].
  split; [|split; [|split; [|exact Hret]]]; rewrite Hl, ?Hf, ?Hb, ?Hn;
    unfold header_head, document_rest, header_tail; cbn [app].
  - change (count_lines is_anchor (?a :: ?b :: date_line now :: ?c :: ?e :: ?f :: ?g :: ?rest))
      with (count_lines is_anchor rest).
    rewrite count_lines_app.
    rewrite (count_lines_flat_map _ _ (fun b => List.length (block_entries b)))
      by (intros b; apply count_lines_block).
    rewrite length_flat_map_sum.
    unfold count_lines, is_anchor, is_folder_heading, is_space_heading. simpl.
    rewrite ?prefix_empty. simpl. lia.
  - change (count_lines is_folder_heading
              (?a :: ?b :: date_line now :: ?c :: ?e :: ?f :: ?g :: ?rest))
      with (count_lines is_folder_heading rest).
    rewrite count_lines_app.
    rewrite (count_lines_flat_map _ _ (fun b => List.length (bl_folders b)))
      by (intros b; apply count_lines_block).
    rewrite length_flat_map_sum.
    unfold count_lines, is_anchor, is_folder_heading, is_space_heading. simpl.
    rewrite ?prefix_empty. simpl. lia.
  - change (count_lines is_space_heading
              (?a :: ?b :: date_line now :: ?c :: ?e :: ?f :: ?g :: ?rest))
      with (count_lines is_space_heading rest).
    rewrite count_lines_app.
    rewrite (count_lines_flat_map _ _ (fun _ => 1%nat))
      by (intros b; apply count_lines_block).
    rewrite list_sum_ones.
    unfold count_lines, is_anchor, is_folder_heading, is_space_heading. simpl.
    rewrite ?prefix_empty. simpl. lia.
Qed.

End Counters.

Lemma document_is_well_nested_witness :
  exists w,
    export_writer (fun _ => EmptyString) "2026" 1 Sample.work = Ok (Some (w, 1%nat)) /\
    String.concat nl (html_lines w) = Sample.work_html "2026" /\
    nesting (html_lines w) 0 = Some 0%nat.
Proof.
  eexists. split; [reflexivity|]. split; [reflexivity|].
  exact (proj1 (document_is_well_nested (fun _ => EmptyString) "2026" 1 Sample.work
                  _ _ eq_refl)).
Defined.

Lemma counters_match_lines_witness :
  exists w,
    export_writer (fun _ => EmptyString) "2026" 1 Sample.work = Ok (Some (w, 1%nat)) /\
    String.concat nl (html_lines w) = Sample.work_html "2026" /\
    count_lines is_anchor (html_lines w) = 3%nat /\
    count_lines is_folder_heading (html_lines w) = 1%nat /\
    (count_lines is_space_heading (html_lines w) <= 1)%nat.
Proof.
  eexists. split; [reflexivity|]. split; [reflexivity|].
  destruct (counters_match_lines (fun _ => EmptyString) "2026" 1 Sample.work
              _ _ eq_refl) as [Ha [Hf [Hs _]]].
  split; [exact Ha|]. split; [exact Hf | exact Hs].
Defined.

Lemma only_last_container_is_read_witness :
  export_bookmarks (fun _ => EmptyString) "2026" 1 Sample.work =
  export_bookmarks (fun _ => EmptyString) "2026" 1
    (JObj [("sidebar",
            JObj [("containers",
                   JArr [JObj [("spaces",
                                JArr [JStr "w";
                                      Sample.space "w" "Work"
                                        ["unpinned"; "unp"; "pinned"; "pin"]]);
                               ("items", JArr Sample.work_items)]])])]).
Proof.
  apply (only_last_container_is_read (fun _ => EmptyString) "2026" 1 _ _
           [JObj [("global", JObj [])]] []
           (JObj [("spaces",
                   JArr [JStr "w";
                         Sample.space "w" "Work" ["unpinned"; "unp"; "pinned"; "pin"]]);
                  ("items", JArr Sample.work_items)])); reflexivity.
Defined.

(** ** From the index to the blocks *)

Section Blocks.

Variable py_repr : json -> string.

Lemma collect_step_shift (fuel : nat) (idx : pydict)
    (acc : list flat_folder * list bookmark) (k : key) :
  collect_step fuel idx acc k =
  omap (fun d => (fst acc ++ fst d, snd acc ++ snd d))
       (collect_step fuel idx ([], []) k).
Proof.
  unfold collect_step. destruct acc as [fs ts]. simpl.
  destruct (dict_lookup k idx) as [item|]; [|reflexivity].
  destruct (get_item_type item) as [[[|]|]|e]; simpl; try reflexivity.
  - destruct (get_all_folders_flat fuel (json_of_key k) idx None); simpl;
      [rewrite app_nil_r|]; reflexivity.
  - destruct (tab_entry item) as [[b|]|e]; simpl; rewrite ?app_nil_r; reflexivity.
  - rewrite !app_nil_r. reflexivity.
Qed.

Lemma collect_steps_in_order (fuel : nat) (idx : pydict) (top : list key) :
  forall acc res,
    for_each (collect_step fuel idx) top acc = Ok res ->
    res = (fst acc ++ flat_map (item_folders fuel idx) top,
           snd acc ++ flat_map (item_tabs fuel idx) top).
Proof.
  induction top as [|k top IH]; intros acc res H; cbn [for_each] in H.
  - injection H as <-. simpl. rewrite !app_nil_r. destruct acc; reflexivity.
  - apply bind_ok in H. destruct H as [acc1 [Hstep H]].
    rewrite collect_step_shift in Hstep.
    destruct (collect_step fuel idx ([], []) k) as [d|e] eqn:Ed; [|discriminate].
    injection Hstep as <-. apply IH in H. rewrite H. cbn [fst snd flat_map].
    unfold item_folders at 2, item_tabs at 2. rewrite Ed.
    rewrite <- !app_assoc. reflexivity.
Qed.

(** The loop over the top-level items, in the specification's words:
    each folder gives the list that [get_all_folders_flat] returns for
    it, each tab its entry if it has a URL, and any other item nothing. *)
Lemma collect_steps_spec (fuel : nat) (idx : pydict) (top : list key) :
  forall acc res,
    for_each (collect_step fuel idx) top acc = Ok res ->
    exists subs,
      Forall2 (fun k r => get_all_folders_flat fuel (json_of_key k) idx None = Ok r)
              (filter (is_folder_key idx) top) subs /\
      res = (fst acc ++ List.concat subs,
             snd acc ++ flat_map (standalone_of idx) top).
Proof.
  induction top as [|k top IH]; intros acc res H; cbn [for_each] in H.
  - injection H as <-. exists []. split; [constructor|].
    simpl. rewrite !app_nil_r. destruct acc; reflexivity.
  - apply bind_ok in H. destruct H as [acc1 [Hstep H]].
    destruct (IH _ _ H) as [subs [Hsubs ->]]. clear IH H.
    unfold collect_step in Hstep.
    destruct (dict_lookup k idx) as [item|] eqn:Hitem; [|discriminate].
    destruct (get_item_type item) as [[[|]|]|e] eqn:Hty; cbn [bind] in Hstep;
      try discriminate.
    + apply bind_ok in Hstep. destruct Hstep as [folders [Hfolders Hstep]].
      injection Hstep as <-.
      assert (Hkey : is_folder_key idx k = true)
        by (unfold is_folder_key; rewrite Hitem, Hty; reflexivity).
      assert (Hone : standalone_of idx k = [])
        by (unfold standalone_of, kept_entry; rewrite Hitem;
            rewrite tab_payload_not_tab by auto; reflexivity).
      cbn [filter flat_map]. rewrite Hkey, Hone.
      exists (folders :: subs).
      split; [constructor; assumption|]. cbn [fst snd List.concat app].
      rewrite <- app_assoc. reflexivity.
    + apply bind_ok in Hstep. destruct Hstep as [e [He Hstep]].
      injection Hstep as <-.
      assert (Hkey : is_folder_key idx k = false)
        by (unfold is_folder_key; rewrite Hitem, Hty; reflexivity).
      assert (Hone : standalone_of idx k =
                     match e with Some b => [b] | None => [] end)
        by (unfold standalone_of; rewrite Hitem;
            rewrite <- (tab_entry_kept_entry item e Hty He); reflexivity).
      cbn [filter flat_map]. rewrite Hkey, Hone.
      exists subs. split; [exact Hsubs|].
      destruct e as [b|]; cbn [fst snd app]; [rewrite <- app_assoc|]; reflexivity.
    + injection Hstep as <-.
      assert (Hkey : is_folder_key idx k = false)
        by (unfold is_folder_key; rewrite Hitem, Hty; reflexivity).
      assert (Hone : standalone_of idx k = [])
        by (unfold standalone_of, kept_entry; rewrite Hitem;
            rewrite tab_payload_not_tab by auto; reflexivity).
      cbn [filter flat_map]. rewrite Hkey, Hone.
      exists subs. split; [exact Hsubs | reflexivity].
Qed.

(** The block of a space is made of its top-level items taken in index
    order: its folders are the lists that [get_all_folders_flat] returns
    for the top-level folders, one after the other, and its standalone
    tabs are the entries of the top-level tabs that have a URL; the
    writer then appends the heading of the space, all the folders, and
    only then the standalone tabs, even for a tab that comes before a
    folder in the index. *)
Theorem space_block_is_folders_then_tabs (fuel : nat) (idx : pydict) (w : writer)
    (sp : space_info) (b : block)
    (Hb : space_content fuel idx sp = Ok (Some b)) :
  exists top subs,
    top_level_items idx (sp_pinned_container sp) = Ok top /\ top <> [] /\
    bl_title b = sp_title sp /\
    Forall2 (fun k r => get_all_folders_flat fuel (json_of_key k) idx None = Ok r)
            (filter (is_folder_key idx) top) subs /\
    bl_folders b = List.concat subs /\
    bl_tabs b = flat_map (standalone_of idx) top /\
    exists w',
      space_block py_repr fuel idx w sp = Ok w' /\
      html_lines w' = html_lines w ++ render_block py_repr b.
Proof.
  pose proof (space_block_content py_repr fuel idx w sp) as Hw. rewrite Hb in Hw.
  unfold space_content in Hb.
  apply bind_ok in Hb. destruct Hb as [top [Htop Hb]].
  destruct top as [|t top]; [discriminate|].
  apply bind_ok in Hb. destruct Hb as [fs [Hfs Hb]]. injection Hb as <-.
  destruct (collect_steps_spec fuel idx (t :: top) _ _ Hfs) as [subs [Hsubs ->]].
  cbn [fst snd app] in Hw |- *.
  exists (t :: top), subs. repeat split; try assumption; try discriminate.
  eexists. split; [exact Hw | reflexivity].
Qed.

Section WellFormedIndex.

Variables (items : json) (idx : pydict) (fuel : nat).
Hypothesis Hbuild : build_items_by_id items = Ok idx.
Hypothesis Hwf : well_formed idx = true.
Hypothesis Hacyclic : acyclic idx.
Hypothesis Hfuel : (List.length idx < fuel)%nat.

Lemma hashable_json_of_key (k : key) : hashable (json_of_key k) = true.
Proof. destruct k; reflexivity. Qed.

Lemma space_content_returns (sp : space_info) :
  exists b, space_content fuel idx sp = Ok b.
Proof.
  destruct (build_items_by_id_invariant items idx Hbuild) as [Hnd [Hkeyed _]].
  unfold space_content, top_level_items.
  rewrite top_level_items_filter
    by (intros [k v] Hin; apply (Hkeyed k v Hin)).
  cbn [bind app].
  set (top := map fst (filter _ idx)).
  assert (Htop : forall k, In k top -> exists item, dict_lookup k idx = Some item).
  { intros k Hk. apply in_map_iff in Hk. destruct Hk as [[k0 item] [<- Hin]].
    apply filter_In in Hin. destruct Hin as [Hin _].
    exists item. apply NoDup_dict_lookup; assumption. }
  destruct top as [|t top'] eqn:Etop; [eauto|].
  destruct (for_each_returns (collect_step fuel idx) (t :: top'))
    with (s := (@nil flat_folder, @nil bookmark)) as [fs ->]; [|cbn [bind]; eauto].
  intros s k Hk. destruct (Htop k Hk) as [item Hitem].
  unfold collect_step. rewrite Hitem.
  pose proof (well_formed_item idx Hwf k item Hitem) as Hok.
  destruct (item_ok_type item Hok) as [ty Hty]. rewrite Hty. cbn [bind].
  destruct ty as [[|]|]; [| |eauto].
  - destruct (flat_returns idx Hwf fuel (json_of_key k) None Hacyclic Hfuel
                (hashable_json_of_key k)) as [res ->].
    cbn [bind]. eauto.
  - destruct (item_ok_tab_entry item Hok Hty) as [e ->]. cbn [bind]. eauto.
Qed.

Lemma blocks_of_returns (sps : list space_info) :
  exists bs, blocks_of fuel idx sps = Ok bs.
Proof.
  induction sps as [|sp sps [bs IH]]; cbn [blocks_of]; [eauto|].
  destruct (space_content_returns sp) as [b ->]. rewrite IH. cbn [bind]. eauto.
Qed.

End WellFormedIndex.

(** Once the spaces are resolved and the index is built, nothing can fail
    any more in [export_bookmarks] on a well-formed, acyclic index: with a
    recursion limit above the number of items it returns a document,
    whose spaces counter is the number of resolved spaces, and [main]
    reaches the write of the output file with the text of that
    document. *)
Theorem export_succeeds_on_well_formed_index (now : string) (fuel : nat)
    (data cs last items : json) (sps : list space_info) (idx : pydict)
    (Hcs : get_containers data = Ok cs) (Htruthy : py_bool cs = true)
    (Hlast : py_last cs = Ok last)
    (Hsps : collect_spaces last = Ok sps) (Hsome : sps <> [])
    (Hitems : py_get last "items" (JArr []) = Ok items)
    (Hbuild : build_items_by_id items = Ok idx)
    (Hwf : well_formed idx = true) (Hacyclic : acyclic idx)
    (Hfuel : (List.length idx < fuel)%nat) :
  exists r,
    export_bookmarks py_repr now fuel data = Ok (Some r) /\
    spaces r = List.length sps /\
    main_export py_repr now fuel data = WriteFile (html r).
Proof.
  destruct (blocks_of_returns items idx fuel Hbuild Hwf Hacyclic Hfuel sps) as [bs Hbs].
  assert (Hplan : export_plan fuel data = Ok (Some (sps, bs))).
  { unfold export_plan. rewrite Hcs. cbn [bind]. rewrite Htruthy. cbn [negb].
    rewrite Hlast. cbn [bind]. rewrite Hsps. cbn [bind].
    destruct sps as [|sp sps']; [contradiction|].
    rewrite Hitems. cbn [bind]. rewrite Hbuild. cbn [bind]. rewrite Hbs. reflexivity. }
  assert (Hrun : export_bookmarks py_repr now fuel data =
                 Ok (Some (render_result py_repr now (sps, bs))))
    by (rewrite export_bookmarks_plan, Hplan; reflexivity).
  exists (render_result py_repr now (sps, bs)).
  split; [exact Hrun|]. split; [reflexivity|].
  unfold main_export. rewrite Hrun. reflexivity.
Qed.

End Blocks.

Lemma work_index_acyclic : acyclic (Sample.index_of Sample.work_items).
Proof.
  apply (ranked_acyclic
           (fun k => if key_eqb k (KStr "docs") then 1%nat else 0%nat)).
  reflexivity.
Qed.

Lemma export_succeeds_on_well_formed_index_witness :
  exists r,
    export_bookmarks (fun _ => EmptyString) "2026" 5 Sample.work = Ok (Some r) /\
    spaces r = 1%nat /\
    main_export (fun _ => EmptyString) "2026" 5 Sample.work = WriteFile (html r).
Proof.
  refine (export_succeeds_on_well_formed_index (fun _ => EmptyString) "2026" 5
            Sample.work _ _ (JArr Sample.work_items) _
            (Sample.index_of Sample.work_items)
            eq_refl eq_refl eq_refl eq_refl _ eq_refl eq_refl eq_refl
            work_index_acyclic _).
  - discriminate.
  - vm_compute. lia.
Defined.

Lemma space_block_is_folders_then_tabs_witness :
  exists top subs,
    top_level_items (Sample.index_of Sample.work_items) (JStr "pin") = Ok top /\
    Forall2 (fun k r =>
               get_all_folders_flat 1 (json_of_key k)
                 (Sample.index_of Sample.work_items) None = Ok r)
            (filter (is_folder_key (Sample.index_of Sample.work_items)) top) subs /\
    [ {| ff_title := JStr "Docs";
         ff_tabs := [Sample.entry "A" "http://a"; Sample.entry "B" "http://b"] |} ]
    = List.concat subs /\
    [ Sample.entry "C" "http://c" ]
    = flat_map (standalone_of (Sample.index_of Sample.work_items)) top.
Proof.
  destruct (space_block_is_folders_then_tabs (fun _ => EmptyString) 1
              (Sample.index_of Sample.work_items)
              {| html_lines := []; total_folders := 0; total_bookmarks := 0 |}
              {| sp_id := JStr "w"; sp_title := JStr "Work";
                 sp_pinned_container := JStr "pin" |}
              {| bl_title := JStr "Work";
                 bl_folders :=
                   [ {| ff_title := JStr "Docs";
                        ff_tabs := [Sample.entry "A" "http://a";
                                    Sample.entry "B" "http://b"] |} ];
                 bl_tabs := [ Sample.entry "C" "http://c" ] |}
              eq_refl) as [top [subs [H1 [_ [_ [H2 [H3 [H4 _]]]]]]]].
  exists top, subs. repeat split; assumption.
Defined.

(** ** Items of unknown type, and the fixed header *)

Section Leftovers.

Variable py_repr : json -> string.

(** An item that classifies as unknown contributes nothing anywhere: as a
    top-level item it gives neither folders nor a standalone tab, as a
    child it gives no entry and is not descended into, and flattening it
    returns the empty list, whatever its [childrenIds] are. *)
Theorem unknown_items_contribute_nothing (fuel : nat) (idx : pydict) (k : key)
    (item : json)
    (Hitem : dict_lookup k idx = Some item)
    (Hty : get_item_type item = Ok None) :
  item_folders fuel idx k = [] /\ item_tabs fuel idx k = [] /\
  (forall cid, py_hash cid = Ok k ->
     direct_entry idx cid = [] /\
     forall collected, descend idx fuel collected cid = Ok collected) /\
  get_all_folders_flat (S fuel) (json_of_key k) idx None = Ok [].
Proof.
  unfold item_folders, item_tabs, collect_step. rewrite Hitem, Hty. cbn [bind fst snd].
  repeat split.
  - unfold direct_entry, direct_tab_step. rewrite H. cbn [bind].
    rewrite Hitem, Hty. reflexivity.
  - intros collected. unfold descend, subfolder_step. rewrite H. cbn [bind].
    rewrite Hitem, Hty. reflexivity.
  - rewrite flat_unfold. cbv zeta. rewrite py_hash_json_of_key. cbn [bind].
    rewrite Hitem, Hty. reflexivity.
Qed.

Lemma block_lines_indented (b : block) (l : string) :
  In l (render_block py_repr b) -> String.prefix "    " l = true.
Proof.
  unfold render_block. intros H.
  repeat (apply in_app_or in H; destruct H as [H | H]).
  - destruct H as [<- | [<- | []]]; reflexivity.
  - apply in_flat_map in H. destruct H as [f [_ H]]. unfold render_folder in H.
    repeat (apply in_app_or in H; destruct H as [H | H]).
    + destruct H as [<- | [<- | []]]; reflexivity.
    + apply in_map_iff in H. destruct H as [t [<- _]]. reflexivity.
    + destruct H as [<- | []]. reflexivity.
  - apply in_map_iff in H. destruct H as [t [<- _]]. reflexivity.
  - destruct H as [<- | []]. reflexivity.
Qed.

Lemma count_lines_blocks_unindented (p : string -> bool) (bs : list block) :
  (forall l, String.prefix "    " l = true -> p l = false) ->
  count_lines p (flat_map (render_block py_repr) bs) = 0%nat.
Proof.
  intros Hp. apply count_lines_false. intros l Hl.
  apply in_flat_map in Hl. destruct Hl as [b [_ Hl]].
  apply Hp. eapply block_lines_indented; eauto.
Qed.

Lemma unindented_line (c : ascii) (s l : string) :
  c <> " "%char -> String.prefix "    " l = true -> String.eqb (String c s) l = false.
Proof.
  intros Hc Hl. destruct l as [|c' l]; [reflexivity|].
  destruct (ascii_dec " " c') as [<- | Hne].
  - cbn [String.eqb]. destruct (Ascii.eqb c " ") eqn:E; [|reflexivity].
    apply Ascii.eqb_eq in E. contradiction.
  - cbn [String.prefix] in Hl.
    destruct (ascii_dec " " c'); [contradiction | discriminate].
Qed.

(** The fixed header is written once, whatever the content: among the
    lines that [export_bookmarks] has appended to [html_lines] when it
    returns, the doctype, the [TITLE] line and the [H1] line each occur
    exactly once, the doctype being the first line; and the text
    returned, those lines joined, begins with the doctype line. *)
Theorem fixed_header_is_written_once (now : string) (fuel : nat) (data : json)
    (w : writer) (n : nat)
    (Hrun : export_writer py_repr now fuel data = Ok (Some (w, n))) :
  hd_error (html_lines w) = Some "<!DOCTYPE NETSCAPE-Bookmark-file-1>" /\
  count_lines (String.eqb "<!DOCTYPE NETSCAPE-Bookmark-file-1>") (html_lines w) = 1%nat /\
  count_lines (String.eqb "<TITLE>Arc Bookmarks</TITLE>") (html_lines w) = 1%nat /\
  count_lines (String.eqb "<H1>Arc Bookmarks</H1>") (html_lines w) = 1%nat /\
  String.prefix "<!DOCTYPE NETSCAPE-Bookmark-file-1>"
    (String.concat nl (html_lines w)) = true /\
  export_bookmarks py_repr now fuel data =
    Ok (Some {| html := String.concat nl (html_lines w);
                folders := total_folders w;
                bookmarks := total_bookmarks w;
                spaces := n |}).
Proof.
  pose proof (export_bookmarks_writer py_repr now fuel data w n Hrun) as Hret.
  destruct (export_writer_lines py_repr now fuel data w n Hrun)
    as [sps [bs [_ [Hl _]]]].
  split; [rewrite Hl; reflexivity|].
  split; [|split; [|split; [|split; [rewrite Hl; reflexivity | exact Hret]]]];
    rewrite Hl; unfold header_head, document_rest, header_tail; cbn [app];
    change (count_lines ?p (?a :: ?b :: date_line now :: ?c :: ?e :: ?f :: ?g :: ?rest))
      with (S (count_lines p rest));
    (rewrite count_lines_app, count_lines_blocks_unindented; [reflexivity|]);
    intros l Hl'; (apply unindented_line; [discriminate | exact Hl']).
Qed.

End Leftovers.

Lemma unknown_items_contribute_nothing_witness :
  item_folders 1 MoreSamples.container_index (KStr "pin") = [] /\
  item_tabs 1 MoreSamples.container_index (KStr "pin") = [].
Proof.
  destruct (unknown_items_contribute_nothing 1 MoreSamples.container_index (KStr "pin")
              MoreSamples.container_item eq_refl eq_refl) as [H1 [H2 _]].
  split; assumption.
Defined.

Lemma fixed_header_is_written_once_witness :
  exists w,
    export_writer (fun _ => EmptyString) "2026" 1 Sample.work = Ok (Some (w, 1%nat)) /\
    String.concat nl (html_lines w) = Sample.work_html "2026" /\
    count_lines (String.eqb "<H1>Arc Bookmarks</H1>") (html_lines w) = 1%nat.
Proof.
  eexists. split; [reflexivity|]. split; [reflexivity|].
  destruct (fixed_header_is_written_once (fun _ => EmptyString) "2026" 1 Sample.work
              _ _ eq_refl) as [_ [_ [_ [H _]]]].
  exact H.
Defined.
